(** * Web3 marketplace front end: the [useMarketplace] hook, the currency
    helpers of [contractConfig.ts] and the listing form

    The development embeds the TypeScript sources

    - [frontend/src/contracts/contractConfig.ts]
      ([bdagToWei], [weiToBdag]),
    - the [useMarketplace] hook ([handleContractError], [getContract],
      [createProduct], [updateProduct], [purchaseProduct] and the read-only
      queries),
    - the listing page [DigitalProductListing.tsx] ([handleSubmit],
      [handlePauseError], [marketplaceFee], [sellerReceives]),
    - the remaining operations of the hook ([verifyContract],
      [getContractOwner], [updateProductMedia], [getPurchasedProducts]) and
      the price helpers of [contractConfig.ts] ([getBDAGPrice], [weiToUSD],
      [bdagToUSD]),

    as Rocq functions, and proves properties of them.

    JavaScript strings are modelled by [string] (code units below 256),
    [bigint] by [Z], [number] by IEEE-754 binary64 values ([spec_float] with
    [prec = 53], [emax = 1024]).  Asynchronous code is sequential here: an
    [await] is a call of the external world, which answers with a value or
    with a thrown error object. *)

From Stdlib Require Import ZArith List String Ascii Bool Lia SpecFloat QArith.
Import ListNotations.
Open Scope string_scope.
Open Scope Z_scope.

(* ================================================================= *)
(** ** JavaScript strings *)

(** [WhiteSpace] and [LineTerminator] code units below 256: TAB, LF, VT, FF,
    CR, SP and NBSP.  They are what [String.prototype.trim], [parseInt],
    [parseFloat] and [BigInt] strip. *)
Definition isWhiteSpace (c : ascii) : bool :=
  let n := Z.of_nat (nat_of_ascii c) in
  ((9 <=? n) && (n <=? 13)) || (n =? 32) || (n =? 160).

Fixpoint trimStart (s : string) : string :=
  match s with
  | String c r => if isWhiteSpace c then trimStart r else s
  | EmptyString => EmptyString
  end.

Fixpoint trimEnd (s : string) : string :=
  match s with
  | EmptyString => EmptyString
  | String c r =>
      match trimEnd r with
      | EmptyString => if isWhiteSpace c then EmptyString else String c EmptyString
      | r' => String c r'
      end
  end.

(** [s.trim()] *)
Definition trim (s : string) : string := trimEnd (trimStart s).

(** [s.length] *)
Definition strlen (s : string) : Z := Z.of_nat (String.length s).

(** [s.startsWith(p)] *)
Fixpoint startsWith (p s : string) : bool :=
  match p, s with
  | EmptyString, _ => true
  | String a p', String b s' => Ascii.eqb a b && startsWith p' s'
  | String _ _, EmptyString => false
  end.

(** [s.includes(needle)] *)
Fixpoint includes (needle s : string) : bool :=
  startsWith needle s
  || match s with
     | String _ r => includes needle r
     | EmptyString => false
     end.

(** Truthiness of a string: the empty string is falsy. *)
Definition truthy (s : string) : bool := negb (String.eqb s "").

(** [s.replace(/^p/, "")] for a literal prefix [p]. *)
Fixpoint dropPrefix (p s : string) : option string :=
  match p, s with
  | EmptyString, _ => Some s
  | String a p', String b s' => if Ascii.eqb a b then dropPrefix p' s' else None
  | String _ _, EmptyString => None
  end.

Definition stripPrefix (p s : string) : string :=
  match dropPrefix p s with Some r => r | None => s end.

(* ================================================================= *)
(** ** Digits and integers *)

Definition isDigit (c : ascii) : bool :=
  let n := Z.of_nat (nat_of_ascii c) in (48 <=? n) && (n <=? 57).

Definition digitVal (c : ascii) : Z := Z.of_nat (nat_of_ascii c) - 48.

Definition digitChar (d : Z) : ascii := ascii_of_nat (Z.to_nat (48 + d)).

(** Value of a hexadecimal digit, [None] for any other character. *)
Definition hexVal (c : ascii) : option Z :=
  let n := Z.of_nat (nat_of_ascii c) in
  if (48 <=? n) && (n <=? 57) then Some (n - 48)
  else if (97 <=? n) && (n <=? 102) then Some (n - 87)
  else if (65 <=? n) && (n <=? 70) then Some (n - 55)
  else None.

(** Value of a digit in radix [r <= 16], [None] when the character is not a
    digit of that radix. *)
Definition radixVal (r : Z) (c : ascii) : option Z :=
  match hexVal c with
  | Some v => if v <? r then Some v else None
  | None => None
  end.

(** Longest prefix of decimal digits, and the rest. *)
Fixpoint takeDigits (s : string) : string * string :=
  match s with
  | String c r =>
      if isDigit c then let '(d, t) := takeDigits r in (String c d, t)
      else (EmptyString, s)
  | EmptyString => (EmptyString, EmptyString)
  end.

(** Longest prefix of radix-[r] digits, as its value and digit count. *)
Fixpoint takeRadix (r : Z) (s : string) (acc : Z) (n : nat) : Z * nat * string :=
  match s with
  | String c t =>
      match radixVal r c with
      | Some v => takeRadix r t (acc * r + v) (S n)
      | None => (acc, n, s)
      end
  | EmptyString => (acc, n, EmptyString)
  end.

(** Horner evaluation of a string of decimal digits. *)
Fixpoint digitsAcc (s : string) (acc : Z) : Z :=
  match s with
  | String c r => digitsAcc r (acc * 10 + digitVal c)
  | EmptyString => acc
  end.

Definition digitsValue (s : string) : Z := digitsAcc s 0.

Fixpoint allDigits (s : string) : bool :=
  match s with
  | String c r => isDigit c && allDigits r
  | EmptyString => true
  end.

Fixpoint allZeros (s : string) : bool :=
  match s with
  | String c r => Ascii.eqb c "0" && allZeros r
  | EmptyString => true
  end.

(** A string of [n] zeros. *)
Fixpoint zeros (n : nat) : string :=
  match n with
  | O => EmptyString
  | S k => String "0" (zeros k)
  end.

Fixpoint printDigits (fuel : nat) (n : Z) (acc : string) : string :=
  match fuel with
  | O => acc
  | S f =>
      let acc' := String (digitChar (n mod 10)) acc in
      if n <? 10 then acc' else printDigits f (n / 10) acc'
  end.

(** Decimal digits of a natural number, most significant first. *)
Definition decimalOfNat (n : Z) : string :=
  printDigits (S (Z.to_nat (Z.log2 n))) n EmptyString.

(** [BigInt.prototype.toString()] *)
Definition bigintToString (z : Z) : string :=
  if z <? 0 then String "-" (decimalOfNat (- z)) else decimalOfNat z.

(** [parseInt(s)] without a radix: leading white space is skipped, a sign
    is read, a [0x]/[0X] prefix selects radix 16, and the longest prefix of
    digits is converted; [None] is [NaN].  The result is the mathematical
    integer the digits denote: the [Number] JavaScript produces from it has
    the same sign and is [NaN] in the same cases, and is this integer itself
    whenever its magnitude is below [2^53]. *)
Definition parseInt (s : string) : option Z :=
  let t := trimStart s in
  let '(neg, u) :=
    match t with
    | String "-" r => (true, r)
    | String "+" r => (false, r)
    | _ => (false, t)
    end in
  let '(radix, v) :=
    if startsWith "0x" u || startsWith "0X" u
    then (16, match u with String _ (String _ r) => r | _ => u end)
    else (10, u) in
  let '(m, n, _) := takeRadix radix v 0 O in
  match n with
  | O => None
  | S _ => Some (if neg then - m else m)
  end.

(* ================================================================= *)
(** ** JavaScript numbers *)

(** A [number] is an IEEE-754 binary64 value. *)
Definition Number : Type := spec_float.

Definition prec : Z := 53.
Definition emax : Z := 1024.

(** The [Number] nearest to [m * 10^e] (ties to even), for [m >= 0]: the
    value of a decimal literal. *)
Definition ofDecimal (neg : bool) (m e : Z) : Number :=
  match m with
  | Z0 => S754_zero neg
  | Zpos p =>
      if 0 <=? e
      then binary_round prec emax neg (p * Z.to_pos (10 ^ e)) 0
      else SFdiv prec emax (S754_finite neg p 0)
                           (S754_finite false (Z.to_pos (10 ^ (- e))) 0)
  | Zneg _ => S754_nan
  end.

(** The [Number] of an integer literal. *)
Definition ofInt (z : Z) : Number := binary_normalize prec emax z 0 false.

Definition isNaN (x : Number) : bool :=
  match x with S754_nan => true | _ => false end.

(** [x <= y], [x > y] and [x * y] on numbers. *)
Definition numLe (x y : Number) : bool := SFleb x y.
Definition numGt (x y : Number) : bool := SFltb y x.
Definition numMul (x y : Number) : Number := SFmul prec emax x y.

(** Value of an [ExponentPart] at the head of [s], [0] when there is none:
    [e] or [E], an optional sign, and at least one digit. *)
Definition exponentOf (s : string) : Z :=
  match s with
  | String c r =>
      if Ascii.eqb c "e" || Ascii.eqb c "E" then
        let '(neg, ds) :=
          match r with
          | String "-" t => (true, t)
          | String "+" t => (false, t)
          | _ => (false, r)
          end in
        let '(d, _) := takeDigits ds in
        match d with
        | EmptyString => 0
        | _ => if neg then - digitsValue d else digitsValue d
        end
      else 0
  | EmptyString => 0
  end.

(** [parseFloat(s)]: leading white space is skipped and the longest prefix
    that is a [StrDecimalLiteral] is converted ([Infinity], or digits with
    an optional fraction and exponent, optionally signed); [NaN] when there
    is no such prefix. *)
Definition parseFloat (s : string) : Number :=
  let t := trimStart s in
  let '(neg, u) :=
    match t with
    | String "-" r => (true, r)
    | String "+" r => (false, r)
    | _ => (false, t)
    end in
  if startsWith "Infinity" u then S754_infinity neg
  else
    let '(ip, r1) := takeDigits u in
    let '(fp, r2) :=
      match r1 with
      | String "." r => takeDigits r
      | _ => (EmptyString, r1)
      end in
    match ip ++ fp with
    | EmptyString => S754_nan
    | ds => ofDecimal neg (digitsValue ds)
                     (exponentOf r2 - Z.of_nat (String.length fp))
    end.

(** The integer [n] for which [n / 10^f] is nearest to [m * 2^e], the larger
    one of two: the rounding [Number.prototype.toFixed] prescribes. *)
Definition roundFixed (f : Z) (m : positive) (e : Z) : Z :=
  if 0 <=? e then Zpos m * 2 ^ e * 10 ^ f
  else (2 * Zpos m * 10 ^ f + 2 ^ (- e)) / (2 * 2 ^ (- e)).

(** The digits of [n] with a decimal point before the last [f] of them,
    padded with zeros on the left to [f + 1] digits. *)
Definition fixedDigits (f : nat) (n : Z) : string :=
  let m := decimalOfNat n in
  match f with
  | O => m
  | S _ =>
      let k := String.length m in
      let m' := if (k <=? f)%nat
                then zeros (f + 1 - k) ++ m else m in
      let k' := String.length m' in
      substring 0 (k' - f) m' ++ "." ++ substring (k' - f) f m'
  end.

(** Whether the finite value [m * 2^e] is at least [10^21]. *)
Definition atLeast1e21 (m : positive) (e : Z) : bool :=
  if 0 <=? e then 10 ^ 21 <=? Zpos m * 2 ^ e
  else 10 ^ 21 * 2 ^ (- e) <=? Zpos m.

(** Trailing zeros removed from a digit string. *)
Fixpoint stripZerosEnd (s : string) : string :=
  match s with
  | EmptyString => EmptyString
  | String c r =>
      match stripZerosEnd r with
      | EmptyString => if Ascii.eqb c "0" then EmptyString else String c EmptyString
      | r' => String c r'
      end
  end.

(** The integers [s * 10^t] with [k] significant digits next to [X], for
    which the nearest [Number] is [x]; [X] is the integer value of [x]. *)
Definition shortCandidates (x : Number) (X : Z) (k : Z) : list Z :=
  let nd := Z.of_nat (String.length (decimalOfNat X)) in
  let t := nd - k in
  let s0 := X / 10 ^ t in
  filter (fun c => match SFcompare (ofInt c) x with Some Eq => true | _ => false end)
         [s0 * 10 ^ t; (s0 + 1) * 10 ^ t].

Fixpoint shortestFrom (x : Number) (X : Z) (k : Z) (fuel : nat) : Z :=
  match fuel with
  | O => X
  | S f =>
      match shortCandidates x X k with
      | [] => shortestFrom x X (k + 1) f
      | [c] => c
      | c1 :: c2 :: _ =>
          match Z.abs (c1 - X) ?= Z.abs (c2 - X) with
          | Lt => c1
          | Gt => c2
          | Eq => if Z.even (c1 / 10 ^ (Z.of_nat (String.length (decimalOfNat X)) - k))
                  then c1 else c2
          end
      end
  end.

(** [Number::toString] of a finite [x >= 10^21], which is an integer [X]:
    the shortest digits that convert back to [x], in exponent notation. *)
Definition largeToString (x : Number) (X : Z) : string :=
  let c := shortestFrom x X 1 17 in
  let ds := decimalOfNat c in
  let n := Z.of_nat (String.length ds) in
  let sd := stripZerosEnd ds in
  match sd with
  | String d EmptyString => String d "e+" ++ decimalOfNat (n - 1)
  | String d r => String d ("." ++ r) ++ "e+" ++ decimalOfNat (n - 1)
  | EmptyString => "0"
  end.

(** [x.toFixed(f)] *)
Definition toFixed (f : nat) (x : Number) : string :=
  match x with
  | S754_nan => "NaN"
  | S754_infinity s => if s then "-Infinity" else "Infinity"
  | S754_zero _ => fixedDigits f 0
  | S754_finite s m e =>
      (if s then "-" else "")
      ++ (if atLeast1e21 m e
          then largeToString (S754_finite false m e) (Zpos m * 2 ^ e)
          else fixedDigits f (roundFixed (Z.of_nat f) m e))
  end.

(* ================================================================= *)
(** ** Thrown values *)

(** An error code is a string ([ethers]) or a number (the wallet's 4001). *)
Inductive JsCode : Type :=
| CodeStr (s : string)
| CodeNum (n : Z).

(** The fields of a thrown object that the hook reads: [code], [message],
    [reason], [data], and below [error] the same once more and one
    [message] below that.  An absent field is [None]. *)
Record ErrLeaf : Type := mkErrLeaf { leaf_message : option string }.

Record ErrInner : Type := mkErrInner {
  in_code : option JsCode;
  in_message : option string;
  in_data : option string;
  in_error : option ErrLeaf
}.

Record JsError : Type := mkJsError {
  e_code : option JsCode;
  e_message : option string;
  e_reason : option string;
  e_data : option string;
  e_error : option ErrInner
}.

(** [new Error(msg)] *)
Definition newError (msg : string) : JsError :=
  mkJsError None (Some msg) None None None.

(** A computation that returns or throws. *)
Inductive JsResult (A : Type) : Type :=
| Ok (a : A)
| Err (e : JsError).
Arguments Ok {A} a.
Arguments Err {A} e.

(* ================================================================= *)
(** ** The [ethers] conversions used by the sources

    [ethers.parseEther] and [ethers.formatEther] belong to the ethers v6
    library: [parseUnits(value, 18)] is [FixedNumber.fromString] and
    [formatUnits(value, 18)] is [FixedNumber.fromValue(...).toString()],
    both with 18 decimals and a signed width of 512 bits.  [None] stands
    for a thrown error. *)
Module Ethers.

Definition DECIMALS : nat := 18.

(** [checkValue]: the value must fit 512 signed bits. *)
Definition inRange (v : Z) : bool := (- 2 ^ 511 <=? v) && (v <? 2 ^ 511).

(** [parseEther(ether)]: the string must be an optional minus sign,
    digits, an optional point and digits, with at least one digit in all;
    the fraction is padded to 18 digits and anything beyond them must be
    zeros. *)
Definition parseEther (ether : string) : option Z :=
  let '(neg, u) :=
    match ether with
    | String "-" r => (true, r)
    | _ => (false, ether)
    end in
  let '(whole, r1) := takeDigits u in
  let '(frac, r2) :=
    match r1 with
    | String "." r => takeDigits r
    | _ => (EmptyString, r1)
    end in
  match r2, whole ++ frac with
  | EmptyString, String _ _ =>
      let padded := frac ++ zeros (DECIMALS - String.length frac) in
      if allZeros (substring DECIMALS (String.length padded - DECIMALS) padded) then
        let v := digitsValue (whole ++ substring 0 DECIMALS padded) in
        let v := if neg then - v else v in
        if inRange v then Some v else None
      else None
  | _, _ => None
  end.

(** A literal of radix [r] after its prefix: digits only, at least one. *)
Definition radixLiteral (r : Z) (s : string) : option Z :=
  match takeRadix r s 0 O with
  | (v, S _, EmptyString) => Some v
  | _ => None
  end.

(** [BigInt(s)] for a string: white space is trimmed, the empty string is
    [0n], and the rest is a signed decimal integer or an unsigned
    [0x]/[0o]/[0b] literal. *)
Definition stringToBigInt (s : string) : option Z :=
  match trim s with
  | EmptyString => Some 0
  | String "0" (String c r) as t =>
      if Ascii.eqb c "x" || Ascii.eqb c "X" then radixLiteral 16 r
      else if Ascii.eqb c "o" || Ascii.eqb c "O" then radixLiteral 8 r
      else if Ascii.eqb c "b" || Ascii.eqb c "B" then radixLiteral 2 r
      else if allDigits t then Some (digitsValue t) else None
  | t =>
      let '(neg, u) :=
        match t with
        | String "-" r => (true, r)
        | String "+" r => (false, r)
        | _ => (false, t)
        end in
      match u with
      | EmptyString => None
      | _ => if allDigits u
             then Some (if neg then - digitsValue u else digitsValue u)
             else None
      end
  end.

(** [getBigInt(value)] for a string. *)
Definition getBigInt (value : string) : option Z :=
  match value with
  | EmptyString => None
  | String "-" (String "-" _) => stringToBigInt value
  | String "-" r => option_map Z.opp (stringToBigInt r)
  | _ => stringToBigInt value
  end.

(** Leading zeros removed, one character kept. *)
Fixpoint stripZerosStart (s : string) : string :=
  match s with
  | String "0" (String _ _ as r) => stripZerosStart r
  | _ => s
  end.

(** [toString(val, 18)] of [FixedNumber]. *)
Definition toFixedString (val : Z) : string :=
  let str := decimalOfNat (Z.abs val) in
  let str := zeros (DECIMALS + 1 - String.length str) ++ str in
  let index := (String.length str - DECIMALS)%nat in
  let whole := stripZerosStart (substring 0 index str) in
  let frac :=
    match stripZerosEnd (substring index DECIMALS str) with
    | EmptyString => "0"
    | f => f
    end in
  (if val <? 0 then "-" else "") ++ whole ++ "." ++ frac.

(** [formatEther(wei)] for a string argument. *)
Definition formatEther (wei : string) : option string :=
  match getBigInt wei with
  | Some v => if inRange v then Some (toFixedString v) else None
  | None => None
  end.

End Ethers.

(* ================================================================= *)
(** ** [contractConfig.ts] *)

(** [bdagToWei]: whatever is thrown inside is replaced by one error. *)
Definition bdagToWei (bdag : string) : JsResult string :=
  let attempt :=
    if negb (truthy bdag) || isNaN (parseFloat bdag)
    then None (* throw new Error("Invalid BDAG amount") *)
    else option_map bigintToString (Ethers.parseEther bdag) in
  match attempt with
  | Some s => Ok s
  | None => Err (newError "Failed to convert BDAG to Wei")
  end.

(** [weiToBdag]: whatever is thrown inside is replaced by the string [0]. *)
Definition weiToBdag (wei : string) : string :=
  let attempt :=
    if negb (truthy wei) || isNaN (parseFloat wei)
    then None (* throw new Error("Invalid Wei amount") *)
    else Ethers.formatEther wei in
  match attempt with
  | Some s => s
  | None => "0"
  end.

(* ================================================================= *)
(** ** Data exchanged with the contract and returned by the hook *)

(** A product as the contract returns it: [id], [price] and [salesCount]
    are [bigint]. *)
Record RawProduct : Type := mkRawProduct {
  rp_id : Z;
  rp_name : string;
  rp_description : string;
  rp_category : string;
  rp_uri : string;
  rp_thumbnailUri : string;
  rp_price : Z;
  rp_seller : string;
  rp_salesCount : Z
}.

(** [interface Product] of the hook: the numbers as decimal strings. *)
Record Product : Type := mkProduct {
  p_id : string;
  p_name : string;
  p_description : string;
  p_category : string;
  p_uri : string;
  p_thumbnailUri : string;
  p_price : string;
  p_seller : string;
  p_salesCount : string
}.

Record RawStats : Type := mkRawStats {
  rs_totalProducts : Z;
  rs_totalSales : Z;
  rs_totalFeesCollected : Z;
  rs_currentFeePercent : Z
}.

(** [interface MarketplaceStats] *)
Record MarketplaceStats : Type := mkMarketplaceStats {
  totalProducts : string;
  totalSales : string;
  totalFeesCollected : string;
  currentFeePercent : string
}.

(** [interface TransactionResponse] *)
Record TransactionResponse : Type := mkResponse {
  success : bool;
  transactionHash : option string;
  errorMsg : option string;
  productId : option string
}.

(** A submitted transaction ([tx.hash]) and its receipt ([status] is a
    number or [null]). *)
Record Tx : Type := mkTx { tx_hash : string }.

Record Receipt : Type := mkReceipt {
  rc_status : option Z;
  rc_hash : string
}.

(** The arguments of the contract's [createProduct]. *)
Record CreateArgs : Type := mkCreateArgs {
  ca_name : string;
  ca_description : string;
  ca_category : string;
  ca_price : Z;
  ca_uri : string;
  ca_thumbnailUri : string
}.

(** The connected signer; its [provider] may be missing. *)
Record Signer : Type := mkSigner { hasProvider : bool }.

(** A [File] or [Blob] picked in the form. *)
Record File : Type := mkFile { file_name : string; file_size : Z }.

(** One call that left the front end, with the answer it got. *)
Inductive Event : Type :=
| EvPaused (r : JsResult bool)
| EvEstimateGas (a : CreateArgs) (r : JsResult Z)
| EvSendCreate (a : CreateArgs) (gasLimit : Z) (r : JsResult Tx)
| EvWait (t : Tx) (r : JsResult (option Receipt))
| EvGetTransaction (h : string) (r : JsResult bool)
| EvSendUpdate (id : Z) (name description category : string) (price : Z)
               (r : JsResult Tx)
| EvProducts (id : Z) (r : JsResult RawProduct)
| EvSendPurchase (id value : Z) (r : JsResult Tx)
| EvGetAvailableProducts (r : JsResult (list RawProduct))
| EvGetProduct (id : Z) (r : JsResult RawProduct)
| EvGetSellerProducts (seller : string) (r : JsResult (list RawProduct))
| EvGetProductsByCategory (category : string) (r : JsResult (list RawProduct))
| EvGetMarketplaceStats (r : JsResult RawStats)
| EvHasUserPurchased (id : Z) (user : string) (r : JsResult bool)
| EvUpload (f : File) (name : option string) (r : JsResult string)
| EvGenerateThumbnail (f : File) (r : JsResult File).

(** The calls that ask the ledger to change its state. *)
Definition isTransaction (ev : Event) : bool :=
  match ev with
  | EvSendCreate _ _ _ | EvSendUpdate _ _ _ _ _ _ | EvSendPurchase _ _ _ => true
  | _ => false
  end.

(** The product ids a call hands to the contract. *)
Definition eventId (ev : Event) : option Z :=
  match ev with
  | EvSendUpdate id _ _ _ _ _ | EvProducts id _ | EvSendPurchase id _ _
  | EvGetProduct id _ | EvHasUserPurchased id _ _ => Some id
  | _ => None
  end.

(* ----------------------------------------------------------------- *)
(** *** State of the listing page *)

Record FormData : Type := mkFormData {
  fd_name : string;
  fd_description : string;
  fd_price : string
}.

Record UploadedFiles : Type := mkUploadedFiles {
  mainFile : option File;
  thumbnailFile : option File
}.

Inductive Status : Type := Idle | Pending | Success | Failure.

Record TransactionStatus : Type := mkStatus {
  status : Status;
  ts_message : string;
  ts_txHash : option string;
  ts_productId : option string
}.

Record Notification : Type := mkNotification {
  n_type : string;
  n_title : string;
  n_message : string;
  n_duration : Z
}.

Record FormState : Type := mkFormState {
  formData : FormData;
  category : string;
  uploadedFiles : UploadedFiles;
  transactionStatus : TransactionStatus;
  notifications : list Notification
}.

Definition CATEGORIES : list string :=
  ["Digital Art"; "Music"; "Photography"; "Software"; "Video"; "Template"; "Course"].

Definition initialForm : FormState :=
  mkFormState (mkFormData "" "" "") "Digital Art" (mkUploadedFiles None None)
              (mkStatus Idle "" None None) [].

(* ================================================================= *)
(** ** The outside world

    [L] is the state of the ledger and [N] everything else outside the
    front end (network, wallet, pinning service, clock).  A read-only call
    gets both and may change [N] only; a transaction, and waiting for one
    to be mined, may change both.  Each function stands for the awaited
    outcome of the call it is named after, as the front end sees it. *)
Record Env (L N : Type) : Type := mkEnv {
  (** [ethers.isAddress] *)
  isAddress : string -> bool;
  (** what [ethers.parseEther] throws on an argument it rejects *)
  parseEtherError : string -> JsError;
  (** the [TypeError] of reading a property of [null] *)
  nullPropertyError : string -> JsError;
  (** [import.meta.env.VITE_PINATA_JWT] *)
  pinataJwt : option string;
  call_paused : L -> N -> JsResult bool * N;
  call_products : Z -> L -> N -> JsResult RawProduct * N;
  call_getAvailableProducts : L -> N -> JsResult (list RawProduct) * N;
  call_getProduct : Z -> L -> N -> JsResult RawProduct * N;
  call_getSellerProducts : string -> L -> N -> JsResult (list RawProduct) * N;
  call_getProductsByCategory : string -> L -> N -> JsResult (list RawProduct) * N;
  call_getMarketplaceStats : L -> N -> JsResult RawStats * N;
  call_hasUserPurchased : Z -> string -> L -> N -> JsResult bool * N;
  estimateGas_createProduct : CreateArgs -> L -> N -> JsResult Z * N;
  (** [provider.getTransaction(hash)]: whether a transaction came back *)
  getTransaction : string -> L -> N -> JsResult bool * N;
  send_createProduct : CreateArgs -> Z -> L -> N -> JsResult Tx * (L * N);
  send_updateProduct :
    Z -> string -> string -> string -> Z -> L -> N -> JsResult Tx * (L * N);
  send_purchaseProduct : Z -> Z -> L -> N -> JsResult Tx * (L * N);
  (** [tx.wait()], once it settles *)
  wait : Tx -> L -> N -> JsResult (option Receipt) * (L * N);
  (** whether the 60 s timer of [createProduct] fires before [tx.wait()] *)
  waitTimesOut : Tx -> L -> N -> bool;
  (** [uploadFileToPinata(file, name)] and [generateThumbnail(file)] *)
  uploadFileToPinata : File -> option string -> N -> JsResult string * N;
  generateThumbnail : File -> N -> JsResult File * N
}.

Arguments isAddress {L N}.
Arguments parseEtherError {L N}.
Arguments nullPropertyError {L N}.
Arguments pinataJwt {L N}.
Arguments call_paused {L N}.
Arguments call_products {L N}.
Arguments call_getAvailableProducts {L N}.
Arguments call_getProduct {L N}.
Arguments call_getSellerProducts {L N}.
Arguments call_getProductsByCategory {L N}.
Arguments call_getMarketplaceStats {L N}.
Arguments call_hasUserPurchased {L N}.
Arguments estimateGas_createProduct {L N}.
Arguments getTransaction {L N}.
Arguments send_createProduct {L N}.
Arguments send_updateProduct {L N}.
Arguments send_purchaseProduct {L N}.
Arguments wait {L N}.
Arguments waitTimesOut {L N}.
Arguments uploadFileToPinata {L N}.
Arguments generateThumbnail {L N}.

(** State threaded through a call: the hook's [isLoading] and [error], the
    page's state, the outside world, and the calls made so far. *)
Record St (L N : Type) : Type := mkSt {
  isLoading : bool;
  error : option string;
  form : FormState;
  ledger : L;
  net : N;
  trace : list Event
}.

Arguments mkSt {L N}.
Arguments isLoading {L N}.
Arguments error {L N}.
Arguments form {L N}.
Arguments ledger {L N}.
Arguments net {L N}.
Arguments trace {L N}.

(* ================================================================= *)
(** ** A monad for code that awaits, throws and updates state *)

Definition M (L N A : Type) : Type := St L N -> JsResult A * St L N.

Section Monad.
Context {L N : Type}.

Definition ret {A} (a : A) : M L N A := fun s => (Ok a, s).

Definition throw {A} (e : JsError) : M L N A := fun s => (Err e, s).

Definition bind {A B} (m : M L N A) (k : A -> M L N B) : M L N B :=
  fun s =>
    match m s with
    | (Ok a, s') => k a s'
    | (Err e, s') => (Err e, s')
    end.

(** [try { m } catch (e) { h e }] *)
Definition tryCatch {A} (m : M L N A) (h : JsError -> M L N A) : M L N A :=
  fun s =>
    match m s with
    | (Ok a, s') => (Ok a, s')
    | (Err e, s') => h e s'
    end.

(** [try { m } finally { f }]: [f] runs on both exits. *)
Definition finally {A} (m : M L N A) (f : M L N unit) : M L N A :=
  fun s =>
    let '(r, s') := m s in
    match f s' with
    | (Ok _, s'') => (r, s'')
    | (Err e, s'') => (Err e, s'')
    end.

(** [if (c) throw new Error(msg)] *)
Definition throwIf (c : bool) (msg : string) : M L N unit :=
  if c then throw (newError msg) else ret tt.

Definition setIsLoading (b : bool) : M L N unit :=
  fun s => (Ok tt, mkSt b (error s) (form s) (ledger s) (net s) (trace s)).

Definition setError (e : option string) : M L N unit :=
  fun s => (Ok tt, mkSt (isLoading s) e (form s) (ledger s) (net s) (trace s)).

Definition getForm : M L N FormState := fun s => (Ok (form s), s).

Definition setForm (f : FormState) : M L N unit :=
  fun s => (Ok tt, mkSt (isLoading s) (error s) f (ledger s) (net s) (trace s)).

(** A read-only call: the ledger is consulted, not changed. *)
Definition view {A} (f : L -> N -> JsResult A * N) (ev : JsResult A -> Event)
  : M L N A :=
  fun s =>
    let '(r, n') := f (ledger s) (net s) in
    (r, mkSt (isLoading s) (error s) (form s) (ledger s) n' (trace s ++ [ev r])).

(** A call that may change the ledger. *)
Definition act {A} (f : L -> N -> JsResult A * (L * N)) (ev : JsResult A -> Event)
  : M L N A :=
  fun s =>
    let '(r, (l', n')) := f (ledger s) (net s) in
    (r, mkSt (isLoading s) (error s) (form s) l' n' (trace s ++ [ev r])).

(** A call that does not involve the ledger. *)
Definition offChain {A} (f : N -> JsResult A * N) (ev : JsResult A -> Event)
  : M L N A :=
  view (fun _ n => f n) ev.

End Monad.

Notation "x <- m ;; k" := (bind m (fun x => k))
  (at level 61, m at next level, right associativity).
Notation "m ;; k" := (bind m (fun _ => k))
  (at level 61, right associativity).

(* ================================================================= *)
(** ** The [useMarketplace] hook *)

Definition CONTRACT_ADDRESS : string := "0xBCe850190CEF1F643450564118f0f346e3c1c40a".

Definition NETWORK_MSG : string :=
  "Network error: Unable to connect to blockchain. Please check your network connection and try again.".

Definition GAS_MSG : string :=
  "Transaction failed: Unable to estimate gas. The transaction may fail. Please check your inputs and try again.".

Definition PAUSED_MSG : string :=
  "The marketplace is currently paused for maintenance. Please try again later.".

(** The selector of [EnforcedPause()]. *)
Definition PAUSE_DATA : string := "0xd93c0665".

(** [c === "s"] for a [code] field. *)
Definition codeIs (c : option JsCode) (s : string) : bool :=
  match c with
  | Some (CodeStr t) => String.eqb t s
  | _ => false
  end.

(** [c === n] for a [code] field. *)
Definition codeIsNum (c : option JsCode) (n : Z) : bool :=
  match c with
  | Some (CodeNum m) => m =? n
  | _ => false
  end.

(** [o?.includes(needle)], falsy when [o] is absent. *)
Definition optIncludes (o : option string) (needle : string) : bool :=
  match o with
  | Some s => includes needle s
  | None => false
  end.

(** [o === "s"] *)
Definition optIs (o : option string) (s : string) : bool :=
  match o with
  | Some t => String.eqb t s
  | None => false
  end.

(** [a || b] on strings that may be absent: the first truthy one. *)
Definition orElse (a : option string) (b : option string) : option string :=
  match a with
  | Some s => if truthy s then a else b
  | None => b
  end.

Definition optTruthy (o : option string) : bool :=
  match o with
  | Some s => truthy s
  | None => false
  end.

Definition fromOpt (o : option string) : string :=
  match o with Some s => s | None => "" end.

(** The fields below [error.error]. *)
Definition innerCode (e : JsError) : option JsCode :=
  match e_error e with Some i => in_code i | None => None end.
Definition innerMessage (e : JsError) : option string :=
  match e_error e with Some i => in_message i | None => None end.
Definition innerData (e : JsError) : option string :=
  match e_error e with Some i => in_data i | None => None end.
Definition innerInnerMessage (e : JsError) : option string :=
  match e_error e with
  | Some i => match in_error i with Some l => leaf_message l | None => None end
  | None => None
  end.

(** [handleContractError(error, operation)] *)
Definition handleContractError (error : JsError) (operation : string) : string :=
  if codeIs (e_code error) "SERVER_ERROR"
     || codeIs (e_code error) "NETWORK_ERROR"
     || optIncludes (e_message error) "Internal JSON-RPC"
     || optIncludes (e_message error) "JSON-RPC"
     || codeIs (innerCode error) "SERVER_ERROR"
  then NETWORK_MSG
  else if codeIs (e_code error) "UNPREDICTABLE_GAS_LIMIT"
          || optIncludes (e_message error) "gas"
          || optIncludes (e_message error) "Gas"
  then GAS_MSG
  else
    let errorMessage := fromOpt (orElse (innerMessage error) (e_message error)) in
    if (codeIs (e_code error) "CALL_EXCEPTION"
        || codeIs (innerCode error) "CALL_EXCEPTION")
       && ((optIs (e_data error) PAUSE_DATA || optIs (innerData error) PAUSE_DATA)
           || (includes "EnforcedPause" errorMessage
               || includes "execution reverted: EnforcedPause" errorMessage)
           || (includes "unknown custom error" errorMessage
               && optIs (e_data error) PAUSE_DATA))
    then PAUSED_MSG
    else if optIncludes (innerInnerMessage error) "EnforcedPause"
    then "MARKETPLACE_PAUSED"
    else if optIncludes (e_reason error) "EnforcedPause"
    then "MARKETPLACE_PAUSED"
    else if optIs (innerData error) PAUSE_DATA || optIs (e_data error) PAUSE_DATA
    then "MARKETPLACE_PAUSED"
    else if codeIs (e_code error) "INSUFFICIENT_FUNDS" then "Insufficient funds"
    else if codeIsNum (e_code error) 4001 || codeIs (e_code error) "ACTION_REJECTED"
    then "Transaction rejected"
    else if optTruthy (e_reason error) then fromOpt (e_reason error)
    else if optTruthy (innerMessage error)
    then stripPrefix "execution reverted: " (fromOpt (innerMessage error))
    else if optTruthy (e_message error) then fromOpt (e_message error)
    else "Failed to " ++ operation.

Definition failure (msg : string) : TransactionResponse :=
  mkResponse false None (Some msg) None.

Definition succeeded (hash : string) : TransactionResponse :=
  mkResponse true (Some hash) None None.

(** [{ id: p.id.toString(), ..., salesCount: p.salesCount.toString() }] *)
Definition toProduct (p : RawProduct) : Product :=
  mkProduct (bigintToString (rp_id p)) (rp_name p) (rp_description p)
            (rp_category p) (rp_uri p) (rp_thumbnailUri p)
            (bigintToString (rp_price p)) (rp_seller p)
            (bigintToString (rp_salesCount p)).

Definition toStats (s : RawStats) : MarketplaceStats :=
  mkMarketplaceStats (bigintToString (rs_totalProducts s))
                     (bigintToString (rs_totalSales s))
                     (bigintToString (rs_totalFeesCollected s))
                     (bigintToString (rs_currentFeePercent s)).

(** [!priceInBdag || parseFloat(priceInBdag) <= 0] *)
Definition priceNotPositive (priceInBdag : string) : bool :=
  negb (truthy priceInBdag) || numLe (parseFloat priceInBdag) (ofInt 0).

(** [isNaN(id) || id <= 0] for [id = parseInt(productId)] *)
Definition invalidId (id : option Z) : bool :=
  match id with
  | None => true
  | Some n => n <=? 0
  end.

Section Hook.
Context {L N : Type}.
Variable env : Env L N.
Variable signer : option Signer.

Local Abbreviation M := (M L N).

(** [getContract()]: the contract handle is the environment itself. *)
Definition getContract : M unit :=
  match signer with
  | None => throw (newError "No signer available. Please connect your wallet.")
  | Some _ =>
      if negb (isAddress env CONTRACT_ADDRESS)
      then throw (newError "Invalid contract address")
      else ret tt
  end.

(** [ethers.parseEther(priceInBdag)] *)
Definition parseEtherM (priceInBdag : string) : M Z :=
  match Ethers.parseEther priceInBdag with
  | Some v => ret v
  | None => throw (parseEtherError env priceInBdag)
  end.

(** The block of [createProduct] that asks [contract.paused()]: what it
    throws, its own [catch] swallows. *)
Definition checkPaused : M unit :=
  tryCatch
    (isPaused <- view (call_paused env) EvPaused ;;
     throwIf isPaused PAUSED_MSG)
    (fun pauseError => ret tt).

(** The gas estimate of [createProduct], with its 20% buffer or the
    default of 500000. *)
Definition estimateCreateGas (a : CreateArgs) : M Z :=
  tryCatch
    (gasEstimate <- view (estimateGas_createProduct env a) (EvEstimateGas a) ;;
     ret (Z.quot (gasEstimate * 120) 100))
    (fun gasError =>
       let errorMsg :=
         fromOpt (orElse (orElse (e_reason gasError) (e_message gasError))
                         (Some "Gas estimation failed")) in
       throwIf (includes "EnforcedPause" errorMsg || includes "paused" errorMsg)
               PAUSED_MSG ;;
       throwIf (includes "revert" errorMsg || includes "execution reverted" errorMsg)
               ("Transaction would fail: " ++ errorMsg) ;;
       ret 500000).

(** [tx.wait()] raced against the 60 s timer. *)
Definition waitWithTimeout (tx : Tx) : M (option Receipt) :=
  fun s =>
    if waitTimesOut env tx (ledger s) (net s)
    then
      let e := newError "Transaction wait timeout" in
      (Err e, mkSt (isLoading s) (error s) (form s) (ledger s) (net s)
                   (trace s ++ [EvWait tx (Err e)]))
    else act (wait env tx) (EvWait tx) s.

(** The part of [createProduct] that waits for the receipt: it either
    returns from [createProduct] at once ([inl]) or goes on with the
    receipt ([inr]). *)
Definition awaitReceipt (tx : Tx)
  : M (TransactionResponse + option Receipt) :=
  let txHash := tx_hash tx in
  tryCatch
    (receipt <- waitWithTimeout tx ;; ret (inr receipt))
    (fun waitError =>
       early <-
         tryCatch
           (match signer with
            | Some (mkSigner true) =>
                txResponse <- view (getTransaction env txHash)
                                   (EvGetTransaction txHash) ;;
                if (txResponse : bool) then ret (Some (succeeded txHash))
                else ret None
            | _ => ret None
            end)
           (fun checkError => ret None) ;;
       match early with
       | Some r => ret (inl r)
       | None => ret (inl (succeeded txHash))
       end).

(** The checks of [createProduct] that come before any call of the
    contract; they yield [priceInWei]. *)
Definition validateCreate
           (name description category priceInBdag uri thumbnailUri : string)
  : M Z :=
  throwIf (negb (truthy (trim name))) "Product name required" ;;
  throwIf (negb (truthy (trim description))) "Description required" ;;
  throwIf (priceNotPositive priceInBdag) "Valid price required" ;;
  throwIf (negb (truthy uri) || negb (truthy (trim uri)))
          "Product URI required" ;;
  throwIf (negb (truthy thumbnailUri) || negb (truthy (trim thumbnailUri)))
          "Thumbnail URI required" ;;
  getContract ;;
  priceInWei <- parseEtherM priceInBdag ;;
  throwIf (100 <? strlen (trim name))
          "Product name too long (max 100 characters)" ;;
  throwIf (500 <? strlen (trim description))
          "Description too long (max 500 characters)" ;;
  throwIf (50 <? strlen (trim category))
          "Category too long (max 50 characters)" ;;
  throwIf (strlen (trim category) =? 0) "Category required" ;;
  ret priceInWei.

(** [createProduct(name, description, category, priceInBdag, uri,
    thumbnailUri)] *)
Definition createProduct
           (name description category priceInBdag uri thumbnailUri : string)
  : M TransactionResponse :=
  setIsLoading true ;;
  setError None ;;
  finally
    (tryCatch
       (priceInWei <- validateCreate name description category priceInBdag
                                     uri thumbnailUri ;;
        checkPaused ;;
        let a := mkCreateArgs (trim name) (trim description) (trim category)
                              priceInWei (trim uri) (trim thumbnailUri) in
        gasEstimate <- estimateCreateGas a ;;
        tx <- act (send_createProduct env a gasEstimate)
                  (EvSendCreate a gasEstimate) ;;
        let txHash := tx_hash tx in
        w <- awaitReceipt tx ;;
        match w with
        | inl response => ret response
        | inr None => ret (succeeded txHash)
        | inr (Some receipt) =>
            throwIf (match rc_status receipt with Some 0 => true | _ => false end)
                    "Transaction failed on blockchain" ;;
            ret (succeeded (if truthy (rc_hash receipt)
                            then rc_hash receipt else txHash))
        end)
       (fun error =>
          if codeIs (e_code error) "SERVER_ERROR"
             || codeIs (e_code error) "NETWORK_ERROR"
             || optIncludes (e_message error) "Internal JSON-RPC"
          then setError (Some NETWORK_MSG) ;; ret (failure NETWORK_MSG)
          else if codeIs (e_code error) "UNPREDICTABLE_GAS_LIMIT"
                  || optIncludes (e_message error) "gas"
          then setError (Some GAS_MSG) ;; ret (failure GAS_MSG)
          else
            let msg := handleContractError error "create product" in
            setError (Some msg) ;; ret (failure msg)))
    (setIsLoading false).

(** [receipt.field] for the outcome of [tx.wait()], which may be [null]. *)
Definition receiptField {A} (field : string) (get : Receipt -> A)
           (receipt : option Receipt) : M A :=
  match receipt with
  | Some r => ret (get r)
  | None => throw (nullPropertyError env field)
  end.

(** [updateProduct(productId, name, description, category, priceInBdag)] *)
Definition updateProduct
           (productId name description category priceInBdag : string)
  : M TransactionResponse :=
  setIsLoading true ;;
  setError None ;;
  finally
    (tryCatch
       (throwIf (negb (truthy (trim name))) "Product name required" ;;
        throwIf (negb (truthy (trim description))) "Description required" ;;
        throwIf (priceNotPositive priceInBdag) "Valid price required" ;;
        getContract ;;
        priceInWei <- parseEtherM priceInBdag ;;
        let id := parseInt productId in
        throwIf (invalidId id) "Invalid product ID" ;;
        let id := match id with Some n => n | None => 0 end in
        tx <- act (send_updateProduct env id (trim name) (trim description)
                                      (trim category) priceInWei)
                  (EvSendUpdate id (trim name) (trim description)
                                (trim category) priceInWei) ;;
        receipt <- act (wait env tx) (EvWait tx) ;;
        hash <- receiptField "hash" rc_hash receipt ;;
        ret (succeeded hash))
       (fun error =>
          let msg := handleContractError error "update product" in
          setError (Some msg) ;; ret (failure msg)))
    (setIsLoading false).

(** [purchaseProduct(productId, priceInWei)] *)
Definition purchaseProduct (productId : string) (priceInWei : Z)
  : M TransactionResponse :=
  setIsLoading true ;;
  setError None ;;
  finally
    (tryCatch
       (let id := parseInt productId in
        throwIf (invalidId id) "Invalid product ID" ;;
        let id := match id with Some n => n | None => 0 end in
        getContract ;;
        product <- view (call_products env id) (EvProducts id) ;;
        throwIf (negb (rp_price product =? priceInWei)) "Price mismatch" ;;
        tx <- act (send_purchaseProduct env id priceInWei)
                  (EvSendPurchase id priceInWei) ;;
        receipt <- act (wait env tx) (EvWait tx) ;;
        st <- receiptField "status" rc_status receipt ;;
        throwIf (match st with Some 1 => false | _ => true end)
                "Transaction failed" ;;
        hash <- receiptField "hash" rc_hash receipt ;;
        ret (succeeded hash))
       (fun error =>
          let msg := handleContractError error "purchase product" in
          setError (Some msg) ;; ret (failure msg)))
    (setIsLoading false).

(** [getAvailableProducts()] *)
Definition getAvailableProducts : M (list Product) :=
  setIsLoading true ;;
  setError None ;;
  finally
    (tryCatch
       (getContract ;;
        products <- view (call_getAvailableProducts env) EvGetAvailableProducts ;;
        ret (map toProduct products))
       (fun error =>
          setError (Some (handleContractError error "fetch available products")) ;;
          ret []))
    (setIsLoading false).

(** [getProduct(productId)]; [None] is [null]. *)
Definition getProduct (productId : string) : M (option Product) :=
  setIsLoading true ;;
  setError None ;;
  finally
    (tryCatch
       (getContract ;;
        let id := parseInt productId in
        throwIf (invalidId id) "Invalid product ID" ;;
        let id := match id with Some n => n | None => 0 end in
        product <- view (call_getProduct env id) (EvGetProduct id) ;;
        ret (Some (toProduct product)))
       (fun error =>
          setError (Some (handleContractError error "fetch product")) ;;
          ret None))
    (setIsLoading false).

(** [getSellerProducts(sellerAddress)] *)
Definition getSellerProducts (sellerAddress : string) : M (list Product) :=
  setIsLoading true ;;
  setError None ;;
  finally
    (tryCatch
       (throwIf (negb (isAddress env sellerAddress)) "Invalid seller address" ;;
        getContract ;;
        products <- view (call_getSellerProducts env sellerAddress)
                         (EvGetSellerProducts sellerAddress) ;;
        ret (map toProduct products))
       (fun error =>
          setError (Some (handleContractError error "fetch seller products")) ;;
          ret []))
    (setIsLoading false).

(** [getProductsByCategory(category)] *)
Definition getProductsByCategory (category : string) : M (list Product) :=
  setIsLoading true ;;
  setError None ;;
  finally
    (tryCatch
       (throwIf (negb (truthy (trim category))) "Category required" ;;
        getContract ;;
        products <- view (call_getProductsByCategory env (trim category))
                         (EvGetProductsByCategory (trim category)) ;;
        ret (map toProduct products))
       (fun error =>
          setError (Some (handleContractError error "fetch products by category")) ;;
          ret []))
    (setIsLoading false).

(** [getMarketplaceStats()]; [None] is [null]. *)
Definition getMarketplaceStats : M (option MarketplaceStats) :=
  setIsLoading true ;;
  setError None ;;
  finally
    (tryCatch
       (getContract ;;
        stats <- view (call_getMarketplaceStats env) EvGetMarketplaceStats ;;
        ret (Some (toStats stats)))
       (fun error =>
          setError (Some (handleContractError error "fetch stats")) ;;
          ret None))
    (setIsLoading false).

(** [hasUserPurchased(productId, userAddress)] *)
Definition hasUserPurchased (productId userAddress : string) : M bool :=
  tryCatch
    (throwIf (negb (isAddress env userAddress)) "Invalid user address" ;;
     getContract ;;
     let id := parseInt productId in
     throwIf (invalidId id) "Invalid product ID" ;;
     let id := match id with Some n => n | None => 0 end in
     view (call_hasUserPurchased env id userAddress)
          (EvHasUserPurchased id userAddress))
    (fun error => ret false).

End Hook.

(* ================================================================= *)
(** ** The listing page [DigitalProductListing.tsx] *)

(** The line feed of the template literal that appends the file name. *)
Definition LF : string := String (ascii_of_nat 10) EmptyString.

(** The number literals [0.025], [0.975] and [5000]. *)
Definition num_0_025 : Number := ofDecimal false 25 (-3).
Definition num_0_975 : Number := ofDecimal false 975 (-3).
Definition num_5000 : Number := ofInt 5000.

(** [priceInWei] of the preview *)
Definition priceInWei (price : string) : JsResult string :=
  if truthy price then bdagToWei price else Ok "0".

(** [marketplaceFee] of the preview *)
Definition marketplaceFee (price : string) : string :=
  if truthy price then toFixed 4 (numMul (parseFloat price) num_0_025) else "0".

(** [sellerReceives] of the preview *)
Definition sellerReceives (price : string) : string :=
  if truthy price then toFixed 4 (numMul (parseFloat price) num_0_975) else "0".

(** The checks of [handleSubmit] before anything is uploaded: the message
    of the first one that fails. *)
Definition submitError (account : option string) (f : FormState) : option string :=
  if negb (optTruthy account) then Some "Please connect your wallet first"
  else if negb (truthy (trim (fd_name (formData f))))
  then Some "Product name cannot be empty"
  else if 100 <? strlen (fd_name (formData f))
  then Some "Product name too long (max 100 characters)"
  else if 500 <? strlen (fd_description (formData f))
  then Some "Description too long (max 500 characters)"
  else if negb (truthy (fd_price (formData f)))
          || numLe (parseFloat (fd_price (formData f))) (ofInt 0)
  then Some "Product price must be greater than 0"
  else if numGt (parseFloat (fd_price (formData f))) num_5000
  then Some "Product price too high (max 5000 BDAG)"
  else match mainFile (uploadedFiles f) with
       | None => Some "Please upload your digital product file"
       | Some _ => None
       end.

Section Listing.
Context {L N : Type}.
Variable env : Env L N.
Variable signer : option Signer.
Variable account : option string.

Local Abbreviation M := (M L N).

Definition setTransactionStatus (t : TransactionStatus) : M unit :=
  f <- getForm ;;
  setForm (mkFormState (formData f) (category f) (uploadedFiles f) t
                       (notifications f)).

Definition addPopupNotification (n : Notification) : M unit :=
  f <- getForm ;;
  setForm (mkFormState (formData f) (category f) (uploadedFiles f)
                       (transactionStatus f) (notifications f ++ [n])).

(** [handlePauseError(error)] *)
Definition handlePauseError (error : string) : M bool :=
  if includes "marketplace is currently paused" error
     || includes "maintenance" error
  then
    addPopupNotification
      (mkNotification "warning" "Marketplace Temporarily Unavailable" error 8000) ;;
    ret true
  else ret false.

(** The thumbnail of [handleSubmit]: the one picked, or one generated from
    the main file. *)
Definition uploadThumbnail (main : File) (thumbnail : option File) : M string :=
  match thumbnail with
  | Some t => offChain (uploadFileToPinata env t None) (EvUpload t None)
  | None =>
      thumbBlob <- offChain (generateThumbnail env main) (EvGenerateThumbnail main) ;;
      let name := file_name main ++ "-thumb.jpg" in
      offChain (uploadFileToPinata env thumbBlob (Some name))
               (EvUpload thumbBlob (Some name))
  end.

(** [handleSubmit(e)] *)
Definition handleSubmit : M unit :=
  f <- getForm ;;
  match submitError account f, mainFile (uploadedFiles f) with
  | Some msg, _ => setTransactionStatus (mkStatus Failure msg None None)
  | None, None => ret tt
  | None, Some main =>
      setTransactionStatus (mkStatus Pending "Uploading files to IPFS..." None None) ;;
      tryCatch
        (throwIf (negb (optTruthy (pinataJwt env)))
                 "Pinata JWT not configured. Please set VITE_PINATA_JWT in your .env file" ;;
         mainUri <- offChain (uploadFileToPinata env main None) (EvUpload main None) ;;
         thumbUri <- uploadThumbnail main (thumbnailFile (uploadedFiles f)) ;;
         setTransactionStatus
           (mkStatus Pending "Creating product on blockchain..." None None) ;;
         let descriptionWithFilename :=
           fd_description (formData f) ++ LF ++ LF
           ++ "[FILENAME:" ++ file_name main ++ "]" in
         result <- createProduct env signer
                     (fd_name (formData f)) descriptionWithFilename (category f)
                     (fd_price (formData f)) mainUri thumbUri ;;
         if success result then
           setTransactionStatus
             (mkStatus Success
                (match transactionHash result with
                 | Some h =>
                     if truthy h
                     then "Product listed successfully! Transaction: "
                          ++ substring 0 10 h ++ "..."
                     else "Product listed successfully!"
                 | None => "Product listed successfully!"
                 end)
                (transactionHash result) (productId result)) ;;
           g <- getForm ;;
           setForm (mkFormState (mkFormData "" "" "") (category g)
                                (mkUploadedFiles None None)
                                (transactionStatus g) (notifications g))
         else
           isPause <- handlePauseError (fromOpt (orElse (errorMsg result) (Some ""))) ;;
           if (isPause : bool)
           then setTransactionStatus (mkStatus Idle "" None None)
           else setTransactionStatus
                  (mkStatus Failure
                     (fromOpt (orElse (errorMsg result)
                                      (Some "Failed to create product")))
                     None None))
        (fun err =>
           let errorMessage :=
             if optIncludes (e_message err) "Pinata JWT" then fromOpt (e_message err)
             else if optIncludes (e_message err) "Failed to fetch"
             then "Network error. Please check your internet connection and try again."
             else if optIncludes (e_message err) "401"
                     || optIncludes (e_message err) "403"
             then "Pinata authentication failed. Please check your JWT token."
             else if optTruthy (e_message err) then fromOpt (e_message err)
             else "An unexpected error occurred. Please try again." in
           isPause <- handlePauseError errorMessage ;;
           if (isPause : bool)
           then setTransactionStatus (mkStatus Idle "" None None)
           else setTransactionStatus (mkStatus Failure errorMessage None None))
  end.

End Listing.

(* ================================================================= *)
(** ** Worlds for the examples

    A scripted world answers every call with a fixed outcome.  Its ledger
    is the number of transactions that took effect. *)

Record Script : Type := mkScript {
  sc_paused : JsResult bool;
  sc_product : JsResult RawProduct;
  sc_list : JsResult (list RawProduct);
  sc_stats : JsResult RawStats;
  sc_purchased : JsResult bool;
  sc_gas : JsResult Z;
  sc_send : JsResult Tx;
  sc_effect : bool;
  sc_timeout : bool;
  sc_wait : JsResult (option Receipt)
}.

Definition scripted (sc : Script) : Env nat unit :=
  let send := fun (l : nat) (n : unit) =>
    (sc_send sc,
     (match sc_send sc with
      | Ok _ => if sc_effect sc then S l else l
      | Err _ => l
      end, n)) in
  mkEnv nat unit
    (fun _ => true)
    (fun _ => mkJsError (Some (CodeStr "INVALID_ARGUMENT"))
                        (Some "invalid FixedNumber string value") None None None)
    (fun field => newError ("Cannot read properties of null (reading '"
                            ++ field ++ "')"))
    (Some "jwt")
    (fun _ n => (sc_paused sc, n))
    (fun _ _ n => (sc_product sc, n))
    (fun _ n => (sc_list sc, n))
    (fun _ _ n => (sc_product sc, n))
    (fun _ _ n => (sc_list sc, n))
    (fun _ _ n => (sc_list sc, n))
    (fun _ n => (sc_stats sc, n))
    (fun _ _ _ n => (sc_purchased sc, n))
    (fun _ _ n => (sc_gas sc, n))
    (fun _ _ n => (Ok true, n))
    (fun _ _ => send)
    (fun _ _ _ _ _ => send)
    (fun _ _ => send)
    (fun _ l n => (sc_wait sc, (l, n)))
    (fun _ _ _ => sc_timeout sc)
    (fun f _ n => (Ok ("ipfs://" ++ file_name f), n))
    (fun f n => (Ok (mkFile "thumb" 1), n)).

Definition demoProduct : RawProduct :=
  mkRawProduct 1 "Art" "A picture" "Digital Art" "ipfs://a" "ipfs://b" 1000
               "0xSeller" 0.

Definition demoTx : Tx := mkTx "0xabc".

(** A world where everything succeeds. *)
Definition calm : Script :=
  mkScript (Ok false) (Ok demoProduct) (Ok [demoProduct])
           (Ok (mkRawStats 1 0 0 250)) (Ok true) (Ok 100000) (Ok demoTx) true
           false (Ok (Some (mkReceipt (Some 1) "0xabc"))).

(** The revert the contract answers with while it is paused. *)
Definition pauseRevert : JsError :=
  mkJsError (Some (CodeStr "CALL_EXCEPTION"))
            (Some "execution reverted: EnforcedPause()")
            (Some "EnforcedPause()") (Some PAUSE_DATA) None.

(** A paused ledger behind a node whose gas estimation does not answer:
    [paused()] reports [true], the transaction that [createProduct] sends
    with its default gas limit is mined and reverts, and nothing takes
    effect. *)
Definition pausedFlaky : Script :=
  mkScript (Ok true) (Ok demoProduct) (Ok [demoProduct])
           (Ok (mkRawStats 1 0 0 250)) (Ok false)
           (Err (newError "request timeout")) (Ok demoTx) false
           false (Err pauseRevert).

(** The double quote. *)
Definition DQ : string := String (ascii_of_nat 34) EmptyString.

(** The error [ethers] builds when gas estimation reverts with a custom
    error it does not decode, here [EnforcedPause()]; the detail of the
    transaction is left out of the message. *)
Definition estimateRevert : JsError :=
  mkJsError (Some (CodeStr "CALL_EXCEPTION"))
            (Some ("execution reverted (unknown custom error) (action="
                   ++ DQ ++ "estimateGas" ++ DQ ++ ", data=" ++ DQ ++ PAUSE_DATA
                   ++ DQ ++ ", reason=null, invocation=null, revert=null, "
                   ++ "code=CALL_EXCEPTION, version=6.13.0)"))
            None (Some PAUSE_DATA) None.

(** A paused ledger behind a node that answers: [paused()] reports [true],
    and gas estimation, which comes before every transaction, reverts. *)
Definition pausedStrict : Script :=
  mkScript (Ok true) (Ok demoProduct) (Ok [demoProduct])
           (Ok (mkRawStats 1 0 0 250)) (Ok false)
           (Err estimateRevert) (Err estimateRevert) false
           false (Err estimateRevert).

(** A world that accepts the transaction but does not mine it in time. *)
Definition stalled : Script :=
  mkScript (Ok false) (Ok demoProduct) (Ok [demoProduct])
           (Ok (mkRawStats 1 0 0 250)) (Ok false) (Ok 100000) (Ok demoTx) false
           true (Ok None).

(** Worlds that accept the transaction and differ in what the wait for the
    receipt gives: [tx.wait()] rejects, it yields no receipt, or it yields
    the receipt of a transaction that was mined and reverted. *)
Definition deaf : Script :=
  mkScript (Ok false) (Ok demoProduct) (Ok [demoProduct])
           (Ok (mkRawStats 1 0 0 250)) (Ok false) (Ok 100000) (Ok demoTx) false
           false (Err (newError "could not coalesce error")).

Definition silent : Script :=
  mkScript (Ok false) (Ok demoProduct) (Ok [demoProduct])
           (Ok (mkRawStats 1 0 0 250)) (Ok false) (Ok 100000) (Ok demoTx) false
           false (Ok None).

Definition reverting : Script :=
  mkScript (Ok false) (Ok demoProduct) (Ok [demoProduct])
           (Ok (mkRawStats 1 0 0 250)) (Ok false) (Ok 100000) (Ok demoTx) false
           false (Ok (Some (mkReceipt (Some 0) "0xabc"))).

(** A world in which every call of the contract fails. *)
Definition broken : Script :=
  let e := mkJsError (Some (CodeStr "NETWORK_ERROR")) (Some "offline") None None None in
  mkScript (Err e) (Err e) (Err e) (Err e) (Err e) (Err e) (Err e) false false (Err e).

Definition start : St nat unit := mkSt false None initialForm O tt [].

Definition connected : option Signer := Some (mkSigner true).

(* ================================================================= *)
(** ** Vocabulary of the statements *)

(** No call in [evs] asks the ledger to change. *)
Definition noTransaction (evs : list Event) : Prop :=
  forall ev, In ev evs -> isTransaction ev = false.

(** [getContract()] returns: a signer is connected and the configured
    address is one. *)
Definition contractAvailable {L N} (env : Env L N) (signer : option Signer) : Prop :=
  signer <> None /\ isAddress env CONTRACT_ADDRESS = true.

(** Some step of [hasUserPurchased] fails: a check of the hook, or the call
    of the contract. *)
Definition purchasedCheckFails {L N} (env : Env L N) (signer : option Signer)
           (productId userAddress : string) (s : St L N) : Prop :=
  isAddress env userAddress = false
  \/ ~ contractAvailable env signer
  \/ invalidId (parseInt productId) = true
  \/ exists id e,
       parseInt productId = Some id
       /\ fst (call_hasUserPurchased env id userAddress (ledger s) (net s)) = Err e.


(** The checks of [updateProduct] that come before the one of the id all
    pass. *)
Definition updateChecksPass {L N} (env : Env L N) (signer : option Signer)
           (name description priceInBdag : string) : Prop :=
  truthy (trim name) = true
  /\ truthy (trim description) = true
  /\ priceNotPositive priceInBdag = false
  /\ contractAvailable env signer
  /\ Ethers.parseEther priceInBdag <> None.

(** Every product id handed to the contract in [evs] is positive. *)
Definition positiveIds (evs : list Event) : Prop :=
  forall ev id, In ev evs -> eventId ev = Some id -> 0 < id.

(** The string constraints [createProduct] enforces, on the trimmed
    arguments it submits. *)
Definition stringsAccepted (name description cat uri thumbnailUri : string) : bool :=
  truthy (trim name) && (strlen (trim name) <=? 100)
  && truthy (trim description) && (strlen (trim description) <=? 500)
  && truthy (trim cat) && (strlen (trim cat) <=? 50)
  && truthy (trim uri) && truthy (trim thumbnailUri).

(** The string constraints as the specification lists them: on the
    arguments as given, with no lower bound on the description. *)
Definition statedStringsOk (name description cat uri thumbnailUri : string) : bool :=
  truthy name && (strlen name <=? 100)
  && (strlen description <=? 500)
  && truthy cat && (strlen cat <=? 50)
  && truthy uri && truthy thumbnailUri.

(** The messages of the string checks of [createProduct]. *)
Definition STRING_ERRORS : list string :=
  [ "Product name required"; "Description required"; "Product URI required";
    "Thumbnail URI required"; "Product name too long (max 100 characters)";
    "Description too long (max 500 characters)";
    "Category too long (max 50 characters)"; "Category required" ].

(** An unsigned decimal string: digits, optionally a point and digits, at
    least one digit in all; its whole and fractional digits. *)
Definition splitDecimal (s : string) : option (string * string) :=
  let '(w, r1) := takeDigits s in
  let '(f, r2) :=
    match r1 with
    | String "." r => takeDigits r
    | _ => (EmptyString, r1)
    end in
  match r2, w ++ f with
  | EmptyString, String _ _ => Some (w, f)
  | _, _ => None
  end.

(** A decimal string with an optional minus sign. *)
Definition isNumeric (s : string) : bool :=
  match splitDecimal (match s with String "-" r => r | _ => s end) with
  | Some _ => true
  | None => false
  end.

(** The rational number an unsigned decimal string denotes. *)
Definition decimalValue (s : string) : option Q :=
  match splitDecimal s with
  | Some (w, f) =>
      Some (digitsValue (w ++ f) # Z.to_pos (10 ^ Z.of_nat (String.length f)))
  | None => None
  end.

(** The amount in wei of [w.f] BDAG: 18 decimals. *)
Definition weiOf (w f : string) : Z :=
  digitsValue (w ++ f) * 10 ^ (18 - Z.of_nat (String.length f)).

(** The fee of the specification: [price * feeBps / 10000], truncated. *)
Definition specFee (price feeBps : Z) : Z := Z.quot (price * feeBps) 10000.

(** The head of a string is a digit or the point. *)
Definition leads (c : ascii) : Prop := isDigit c = true \/ c = "."%char.

(** The head of a string, if any, is not a digit. *)
Definition headNotDigit (r : string) : Prop :=
  match r with
  | String c _ => isDigit c = false
  | EmptyString => True
  end.

(** [n / 10^f] is nearest to [m * 2^e] among the multiples of [10^-f], and
    the larger of two nearest ones: [|n / 10^f - m * 2^e| <= 1 / (2 * 10^f)]. *)
Definition nearestFixed (f n : Z) (m : positive) (e : Z) : Prop :=
  (2 * n - 1) * 2 ^ Z.max 0 (- e)
  <= 2 * Zpos m * 2 ^ Z.max 0 e * 10 ^ f
  < (2 * n + 1) * 2 ^ Z.max 0 (- e).

(* ================================================================= *)
(** ** The remaining operations of the hook

    [verifyContract], [getContractOwner], [updateProductMedia] and
    [getPurchasedProducts] make calls that [Env] does not have; [More]
    collects them.  The trace goes on listing the calls of [Env]; a call
    of [More] shows in the ledger and the outside world it returns. *)

(** The arguments of a [ProductPurchased] log as the hook reads them, by
    name and by position; [None] is a field that is absent. *)
Record PurchaseArgs : Type := mkPurchaseArgs {
  arg_id : option Z;
  arg_0 : option Z;
  arg_buyer : option string;
  arg_2 : option string
}.

(** A log that [queryFilter] returns; [args] is absent on a log that was
    not decoded. *)
Record PurchaseLog : Type := mkPurchaseLog { log_args : option PurchaseArgs }.

Record More (L N : Type) : Type := mkMore {
  (** [Promise.all] of [productCount()], [owner()] and
      [marketplaceFeePercent()], once it settles *)
  call_verify : L -> N -> JsResult unit * N;
  call_owner : L -> N -> JsResult string * N;
  send_updateProductMedia :
    Z -> string -> string -> L -> N -> JsResult Tx * (L * N);
  (** [provider.getBlockNumber()] *)
  getBlockNumber : L -> N -> JsResult Z * N;
  (** [contract.queryFilter(contract.filters.ProductPurchased(), from, to)] *)
  queryFilter : Z -> Z -> L -> N -> JsResult (list PurchaseLog) * N;
  (** the [TypeError] of reading a property of [undefined] *)
  undefinedPropertyError : string -> JsError;
  (** what a call of the contract throws for an argument that is [NaN] *)
  nanArgumentError : JsError
}.

Arguments call_verify {L N}.
Arguments call_owner {L N}.
Arguments send_updateProductMedia {L N}.
Arguments getBlockNumber {L N}.
Arguments queryFilter {L N}.
Arguments undefinedPropertyError {L N}.
Arguments nanArgumentError {L N}.

(** [s.toLowerCase()] on code units below 256: the letters A to Z, and
    the capital letters of Latin-1 (0xC0 to 0xDE without the sign 0xD7). *)
Definition toLowerChar (c : ascii) : ascii :=
  let n := Z.of_nat (nat_of_ascii c) in
  if ((65 <=? n) && (n <=? 90))
     || ((192 <=? n) && (n <=? 222) && negb (n =? 215))
  then ascii_of_nat (nat_of_ascii c + 32)
  else c.

Fixpoint toLowerCase (s : string) : string :=
  match s with
  | String c r => String (toLowerChar c) (toLowerCase r)
  | EmptyString => EmptyString
  end.

(** [parseInt(s, 10)] *)
Definition parseInt10 (s : string) : option Z :=
  let t := trimStart s in
  let '(neg, u) :=
    match t with
    | String "-" r => (true, r)
    | String "+" r => (false, r)
    | _ => (false, t)
    end in
  let '(m, n, _) := takeRadix 10 u 0 O in
  match n with
  | O => None
  | S _ => Some (if neg then - m else m)
  end.

(** [(e.args?.buyer || e.args?.[2])?.toLowerCase() ===
    buyerAddress.toLowerCase()] *)
Definition boughtBy (buyerAddress : string) (e : PurchaseLog) : bool :=
  match log_args e with
  | Some a =>
      match orElse (arg_buyer a) (arg_2 a) with
      | Some b => String.eqb (toLowerCase b) (toLowerCase buyerAddress)
      | None => false
      end
  | None => false
  end.

(** [e.args?.id || e.args?.[0]]: the [bigint] zero is falsy. *)
Definition loggedId (e : PurchaseLog) : option Z :=
  match log_args e with
  | Some a =>
      match arg_id a with
      | Some z => if z =? 0 then arg_0 a else Some z
      | None => arg_0 a
      end
  | None => None
  end.

(** [Array.from(new Set(l))]: the first occurrence of each string, in the
    order of insertion. *)
Definition distinct (l : list string) : list string :=
  fold_left (fun seen x => if existsb (String.eqb x) seen then seen
                           else (seen ++ [x])%list)
            l [].

Section Rest.
Context {L N : Type}.
Variable env : Env L N.
Variable more : More L N.
Variable signer : option Signer.

Local Abbreviation M := (M L N).

(** A read-only call of [More]. *)
Definition ask {A} (f : L -> N -> JsResult A * N) : M A :=
  fun s =>
    let '(r, n') := f (ledger s) (net s) in
    (r, mkSt (isLoading s) (error s) (form s) (ledger s) n' (trace s)).

(** A call of [More] that may change the ledger. *)
Definition submit {A} (f : L -> N -> JsResult A * (L * N)) : M A :=
  fun s =>
    let '(r, (l', n')) := f (ledger s) (net s) in
    (r, mkSt (isLoading s) (error s) (form s) l' n' (trace s)).

(** [verifyContract()] *)
Definition verifyContract : M bool :=
  tryCatch
    (getContract env signer ;;
     ask (call_verify more) ;;
     ret true)
    (fun error =>
       setError (Some (handleContractError error "verify contract")) ;;
       ret false).

(** [getContractOwner()]: what it catches, it throws again. *)
Definition getContractOwner : M string :=
  tryCatch
    (getContract env signer ;;
     ask (call_owner more))
    (fun error => throw error).

(** [updateProductMedia(productId, uri, thumbnailUri)] *)
Definition updateProductMedia (productId uri thumbnailUri : string)
  : M TransactionResponse :=
  setIsLoading true ;;
  setError None ;;
  finally
    (tryCatch
       (throwIf (negb (truthy (trim uri))) "Product URI required" ;;
        throwIf (negb (truthy (trim thumbnailUri))) "Thumbnail URI required" ;;
        getContract env signer ;;
        let id := parseInt productId in
        throwIf (invalidId id) "Invalid product ID" ;;
        let id := match id with Some n => n | None => 0 end in
        tx <- submit (send_updateProductMedia more id (trim uri)
                                              (trim thumbnailUri)) ;;
        receipt <- act (wait env tx) (EvWait tx) ;;
        hash <- receiptField env "hash" rc_hash receipt ;;
        ret (succeeded hash))
       (fun error =>
          let msg := handleContractError error "update product media" in
          setError (Some msg) ;; ret (failure msg)))
    (setIsLoading false).

(** The ids of the logs of one buyer, as strings: [filter], [map] and the
    [Set].  Reading [toString] of an id that is absent throws. *)
Fixpoint idStrings (events : list PurchaseLog) : JsResult (list string) :=
  match events with
  | [] => Ok []
  | e :: rest =>
      match loggedId e with
      | None => Err (undefinedPropertyError more "toString")
      | Some id =>
          match idStrings rest with
          | Ok l => Ok (bigintToString id :: l)
          | Err x => Err x
          end
      end
  end.

Definition purchasedIds (buyerAddress : string) (events : list PurchaseLog)
  : JsResult (list string) :=
  match idStrings (filter (boughtBy buyerAddress) events) with
  | Ok l => Ok (distinct l)
  | Err x => Err x
  end.

(** The loop of [getPurchasedProducts] over the ids. *)
Fixpoint fetchProducts (ids : list string) (results : list Product)
  : M (list Product) :=
  match ids with
  | [] => ret results
  | idStr :: rest =>
      match parseInt10 idStr with
      | Some id =>
          p <- view (call_getProduct env id) (EvGetProduct id) ;;
          fetchProducts rest (results ++ [toProduct p])%list
      | None => throw (nanArgumentError more)
      end
  end.

(** [getPurchasedProducts(buyerAddress)] *)
Definition getPurchasedProducts (buyerAddress : string) : M (list Product) :=
  setIsLoading true ;;
  setError None ;;
  finally
    (tryCatch
       (throwIf (negb (isAddress env buyerAddress)) "Invalid buyer address" ;;
        getContract env signer ;;
        throwIf (negb (match signer with
                       | Some sg => hasProvider sg
                       | None => false
                       end))
                "No provider available" ;;
        currentBlock <- ask (getBlockNumber more) ;;
        let fromBlock := Z.max 0 (currentBlock - 200000) in
        events <- ask (queryFilter more fromBlock currentBlock) ;;
        match purchasedIds buyerAddress events with
        | Ok ids => fetchProducts ids []
        | Err x => throw x
        end)
       (fun error =>
          setError (Some (handleContractError error "fetch purchased products")) ;;
          ret []))
    (setIsLoading false).

End Rest.

(* ================================================================= *)
(** ** The price of BDAG in dollars ([contractConfig.ts])

    [W] is the world outside: its clock and the price service. *)

(** A parsed JSON value; the properties of an object carry distinct
    keys. *)
Unset Elimination Schemes.
Inductive Json : Type :=
| JNull
| JBool (b : bool)
| JNumber (x : Number)
| JString (s : string)
| JArray (items : list Json)
| JObject (properties : list (string * Json)).
Set Elimination Schemes.

Fixpoint propertyOf (k : string) (properties : list (string * Json))
  : option Json :=
  match properties with
  | [] => None
  | (k', v) :: rest => if String.eqb k k' then Some v else propertyOf k rest
  end.

(** [v.k] for a value [v] that is not [null]; [None] is [undefined]. *)
Definition property (k : string) (v : Json) : option Json :=
  match v with
  | JObject properties => propertyOf k properties
  | _ => None
  end.

(** [data.blockdag?.usd] when it is a number; [None] when reading it
    throws ([data] is [null]) and when [typeof price !== "number"]. *)
Definition usdOf (data : Json) : option Number :=
  match data with
  | JNull => None
  | _ =>
      match property "blockdag" data with
      | None | Some JNull => None
      | Some b =>
          match property "usd" b with
          | Some (JNumber x) => Some x
          | _ => None
          end
      end
  end.

(** The [Response] of [fetch]: [response.ok] and [await response.json()]. *)
Record Response (W : Type) : Type := mkHttpResponse {
  resp_ok : bool;
  resp_json : W -> JsResult Json * W
}.

Arguments resp_ok {W}.
Arguments resp_json {W}.

Record Web (W : Type) : Type := mkWeb {
  (** [Date.now()], in milliseconds *)
  dateNow : W -> Z;
  (** [await fetch(...)] of the price, aborted after 5 s *)
  fetchPrice : W -> JsResult (Response W) * W
}.

Arguments dateNow {W}.
Arguments fetchPrice {W}.

(** [{ price, timestamp }] *)
Record CacheEntry : Type := mkCacheEntry {
  ce_price : Number;
  ce_timestamp : Z
}.

(** [PriceCache.cache]; [None] is [null]. *)
Definition PriceCache : Type := option CacheEntry.

Definition CACHE_DURATION : Z := 5 * 60 * 1000.

(** The number literal [0.05]. *)
Definition FIXED_BDAG_PRICE : Number := ofDecimal false 5 (-2).

Section Prices.
Context {W : Type}.
Variable web : Web W.

(** [getBDAGPrice()]: the price, the cache and the world afterwards. *)
Definition getBDAGPrice (cache : PriceCache) (w : W)
  : Number * PriceCache * W :=
  let now := dateNow web w in
  let fetched :=
    match fetchPrice web w with
    | (Ok response, w1) =>
        if negb (resp_ok response) then (FIXED_BDAG_PRICE, cache, w1)
        else
          match resp_json response w1 with
          | (Ok data, w2) =>
              match usdOf data with
              | Some price => (price, Some (mkCacheEntry price now), w2)
              | None => (FIXED_BDAG_PRICE, cache, w2)
              end
          | (Err _, w2) => (FIXED_BDAG_PRICE, cache, w2)
          end
    | (Err _, w1) => (FIXED_BDAG_PRICE, cache, w1)
    end in
  match cache with
  | Some c =>
      if now - ce_timestamp c <? CACHE_DURATION then (ce_price c, cache, w)
      else fetched
  | None => fetched
  end.

(** [weiToUSD(weiAmount)]; nothing inside its [try] throws. *)
Definition weiToUSD (weiAmount : string) (cache : PriceCache) (w : W)
  : string * PriceCache * W :=
  let bdagAmount := parseFloat (weiToBdag weiAmount) in
  let '(bdagPrice, cache', w') := getBDAGPrice cache w in
  (toFixed 2 (numMul bdagAmount bdagPrice), cache', w').

(** [bdagToUSD(bdagAmount)]; nothing inside its [try] throws. *)
Definition bdagToUSD (bdagAmount : string) (cache : PriceCache) (w : W)
  : string * PriceCache * W :=
  let '(bdagPrice, cache', w') := getBDAGPrice cache w in
  (toFixed 2 (numMul (parseFloat bdagAmount) bdagPrice), cache', w').

End Prices.

(* ================================================================= *)
(** ** Vocabulary of the further statements *)

(** Every product id handed to the contract in [evs] is [n]. *)
Definition onlyId (n : Z) (evs : list Event) : Prop :=
  forall ev id, In ev evs -> eventId ev = Some id -> id = n.

(** The messages of the errors the hook makes with a fixed text, in the
    order of the source: every [new Error] of [useMarketplace] but the one
    of [createProduct] whose message is built from the message of a failed
    gas estimation. *)
Definition HOOK_ERRORS : list string :=
  [ "No signer available. Please connect your wallet."; "Invalid contract address";
    "Product name required"; "Description required"; "Valid price required";
    "Product URI required"; "Thumbnail URI required";
    "Product name too long (max 100 characters)";
    "Description too long (max 500 characters)";
    "Category too long (max 50 characters)"; "Category required";
    PAUSED_MSG; "Transaction wait timeout"; "Transaction failed on blockchain";
    "Invalid product ID"; "Price mismatch"; "Transaction failed";
    "Invalid seller address"; "Invalid buyer address"; "No provider available";
    "Invalid user address" ].

(** The message [createProduct] reads off a failed gas estimation, and
    its two tests on it. *)
Definition estimateMessage (gasError : JsError) : string :=
  fromOpt (orElse (orElse (e_reason gasError) (e_message gasError))
                  (Some "Gas estimation failed")).

Definition mentionsPause (gasError : JsError) : bool :=
  includes "EnforcedPause" (estimateMessage gasError)
  || includes "paused" (estimateMessage gasError).

Definition mentionsRevert (gasError : JsError) : bool :=
  includes "revert" (estimateMessage gasError)
  || includes "execution reverted" (estimateMessage gasError).

(** An operation that submits has returned, without throwing: loading is
    over, and the hook's [error] is [null] beside a success and the
    message of the failure beside a failure. *)
Definition settled {L N} (r : JsResult TransactionResponse) (s' : St L N) : Prop :=
  exists response,
    r = Ok response
    /\ isLoading s' = false
    /\ ((exists hash, response = succeeded hash /\ error s' = None)
        \/ (exists msg, response = failure msg /\ error s' = Some msg)).

(** The number of transactions submitted in [evs]. *)
Definition transactions (evs : list Event) : nat :=
  List.length (filter isTransaction evs).

(** [x] is a zero, a finite number or an infinity with the sign bit set. *)
Definition negativeOrZero (x : Number) : Prop :=
  match x with
  | S754_zero true | S754_finite true _ _ | S754_infinity true => True
  | _ => False
  end.

(** A call to the pinning service or to the thumbnail generator. *)
Definition isUpload (ev : Event) : bool :=
  match ev with
  | EvUpload _ _ _ | EvGenerateThumbnail _ _ => true
  | _ => false
  end.

(** The description [handleSubmit] hands to [createProduct]. *)
Definition describedAs (description fileName : string) : string :=
  description ++ LF ++ LF ++ "[FILENAME:" ++ fileName ++ "]".

(** The notification [handlePauseError] pops up. *)
Definition pausePopup (msg : string) : Notification :=
  mkNotification "warning" "Marketplace Temporarily Unavailable" msg 8000.

(** The test of [handlePauseError]. *)
Definition namesPause (msg : string) : bool :=
  includes "marketplace is currently paused" msg || includes "maintenance" msg.

(** The first two tests of [handleContractError], for a network error
    and for a failed gas estimation. *)
Definition looksLikeNetwork (e : JsError) : bool :=
  codeIs (e_code e) "SERVER_ERROR"
  || codeIs (e_code e) "NETWORK_ERROR"
  || optIncludes (e_message e) "Internal JSON-RPC"
  || optIncludes (e_message e) "JSON-RPC"
  || codeIs (innerCode e) "SERVER_ERROR".

Definition looksLikeGas (e : JsError) : bool :=
  codeIs (e_code e) "UNPREDICTABLE_GAS_LIMIT"
  || optIncludes (e_message e) "gas"
  || optIncludes (e_message e) "Gas".

(** Nothing left the front end between [s] and [s']. *)
Definition untouched {L N} (s s' : St L N) : Prop :=
  trace s' = trace s /\ ledger s' = ledger s /\ net s' = net s.

(** The fields and the files of the form are as they were, or emptied. *)
Definition formKept (f f' : FormState) : Prop :=
  formData f' = formData f /\ uploadedFiles f' = uploadedFiles f.

Definition formCleared (f' : FormState) : Prop :=
  formData f' = mkFormData "" "" ""
  /\ uploadedFiles f' = mkUploadedFiles None None.

(** The products the contract answered with in [evs]. *)
Definition fetched (evs : list Event) : list RawProduct :=
  flat_map (fun ev => match ev with
                      | EvGetProduct _ (Ok p) => [p]
                      | _ => []
                      end) evs.

(** [ev] is the fetch, answered, of the product whose id is written
    [idStr]. *)
Definition fetchOf (ev : Event) (idStr : string) : Prop :=
  exists id p, ev = EvGetProduct id (Ok p) /\ parseInt10 idStr = Some id.

(** The signer carries a provider. *)
Definition providerAvailable (signer : option Signer) : Prop :=
  exists sg, signer = Some sg /\ hasProvider sg = true.

(** [x] is a zero or a finite number. *)
Definition finiteNumber (x : Number) : Prop :=
  match x with
  | S754_zero _ | S754_finite _ _ _ => True
  | _ => False
  end.

(* ----------------------------------------------------------------- *)
(** *** Worlds for the further examples *)

(** A [ProductPurchased] log that was decoded. *)
Definition purchaseLog (id : Z) (buyer : string) : PurchaseLog :=
  mkPurchaseLog (Some (mkPurchaseArgs (Some id) (Some id) (Some buyer) (Some buyer))).

(** The calls of [More] in a world where everything succeeds: block
    250000, and three purchases of which two are by the same buyer, of
    the same product. *)
Definition calmMore : More nat unit :=
  mkMore nat unit
    (fun _ n => (Ok tt, n))
    (fun _ n => (Ok "0xOwner", n))
    (fun _ _ _ l n => (Ok demoTx, (S l, n)))
    (fun _ n => (Ok 250000, n))
    (fun _ _ _ n => (Ok [purchaseLog 1 "0xABCD"; purchaseLog 2 "0xother";
                         purchaseLog 1 "0xabcd"], n))
    (fun field => newError ("Cannot read properties of undefined (reading '"
                            ++ field ++ "')"))
    (newError "invalid BigNumberish value").

(** The listing form filled in, with a file picked. *)
Definition filledForm (description : string) : FormState :=
  mkFormState (mkFormData "Art" description "1") "Music"
              (mkUploadedFiles (Some (mkFile "a.png" 10)) None)
              (mkStatus Idle "" None None) [].

Definition listing (description : string) : St nat unit :=
  mkSt false None (filledForm description) O tt [].

Definition account0 : option string := Some "0xUser".

(** A price service that quotes 0.07 dollars; the world is the clock, and
    a fetch takes 100 ms. *)
Definition quoting : Web Z :=
  mkWeb Z (fun w => w)
        (fun w =>
           (Ok (mkHttpResponse Z true
                  (fun w1 =>
                     (Ok (JObject [("blockdag",
                                    JObject [("usd", JNumber (ofDecimal false 7 (-2)))])]),
                      w1))),
            w + 100)).

(* ================================================================= *)
(** * Properties *)

(** ** Tactics for runs of the hook *)

Ltac hook_unfold :=
  unfold finally, tryCatch, bind, throwIf, getContract, parseEtherM, view, act,
    ret, throw, setIsLoading, setError, invalidId.

(** Closes a goal [exists v s', run = (Ok v, s') /\ ... /\ (fails -> v = d)]
    once the run is a value. *)
Ltac settle :=
  eexists _, _; repeat split; auto;
  try (intros;
       repeat match goal with
         | H : _ \/ _ |- _ => destruct H
         | H : exists _, _ |- _ => destruct H
         | H : _ /\ _ |- _ => destruct H
         | H : ~ (_ /\ _) |- _ =>
             exfalso; apply H; split; [discriminate | reflexivity]
         | H : Some _ = Some _ |- _ => inversion H; subst; clear H
         | H : fst ?c = Err _, E : ?c = _ |- _ => rewrite E in H; simpl in H
         end;
       try discriminate; try reflexivity).

(** Case analysis on the events of a run. *)
Ltac events :=
  repeat match goal with
    | H : In _ (_ :: _) |- _ => destruct H as [H|H]
    | H : In _ [] |- _ => destruct H
    | H : False |- _ => destruct H
    | H : _ \/ _ |- _ => destruct H
    | H : @eq Event _ _ |- _ =>
        first [ discriminate H
              | injection H; clear H; intros; subst
              | progress subst
              | clear H ]
    end.

Ltac fin :=
  try congruence;
  try (eexists; split; [simpl; left; reflexivity | reflexivity]).

(** Case analysis on the answers of the world, innermost call first. *)
Ltac crunch :=
  repeat (simpl;
          match goal with
          | |- context [call_paused ?v ?l ?n] =>
              destruct (call_paused v l n) as [[[|]|?] ?] eqn:?
          | |- context [estimateGas_createProduct ?v ?a ?l ?n] =>
              destruct (estimateGas_createProduct v a l n) as [[?|?] ?] eqn:?
          | |- context [send_createProduct ?v ?a ?g ?l ?n] =>
              destruct (send_createProduct v a g l n) as [[?|?] [? ?]] eqn:?
          | |- context [waitTimesOut ?v ?t ?l ?n] =>
              destruct (waitTimesOut v t l n) eqn:?
          | |- context [wait ?v ?t ?l ?n] =>
              destruct (wait v t l n) as [[[?|]|?] [? ?]] eqn:?
          | |- context [getTransaction ?v ?h ?l ?n] =>
              destruct (getTransaction v h l n) as [[[|]|?] ?] eqn:?
          | |- context [call_products ?v ?i ?l ?n] =>
              destruct (call_products v i l n) as [[?|?] ?] eqn:?
          | |- context [call_getProduct ?v ?i ?l ?n] =>
              destruct (call_getProduct v i l n) as [[?|?] ?] eqn:?
          | |- context [send_purchaseProduct ?v ?i ?a ?l ?n] =>
              destruct (send_purchaseProduct v i a l n) as [[?|?] [? ?]] eqn:?
          | |- context [send_updateProduct ?v ?i ?a ?b ?c ?p ?l ?n] =>
              destruct (send_updateProduct v i a b c p l n) as [[?|?] [? ?]] eqn:?
          | |- context [Ethers.parseEther ?p] =>
              destruct (Ethers.parseEther p) eqn:?
          | |- context [match rc_status ?r with _ => _ end] =>
              destruct (rc_status r) as [[|?|?]|] eqn:?
          | |- context [match ?x with _ => _ end] =>
              is_var x; destruct x
          | |- context [if ?c then _ else _] => destruct c eqn:?
          end).

(** Closes a goal about a run that has been reduced to a value. *)
Ltac finish_run :=
  intros H; injection H as <- <-; eexists; simpl;
  repeat rewrite <- app_assoc; simpl;
  (split; [first [reflexivity | symmetry; apply app_nil_r]|]);
  intros; events.

Ltac run_done := finish_run; repeat split; intros; events; fin.

(** The product ids in the events of a run. *)
Ltac ids :=
  repeat match goal with
    | H : In _ (_ :: _) |- _ => destruct H as [H|H]
    | H : In _ [] |- _ => destruct H
    | H : False |- _ => destruct H
    | H : _ = ?ev |- _ => is_var ev; subst ev
    | E : eventId _ = Some _ |- _ =>
        simpl in E; first [discriminate E | injection E as <-]
    end; try lia.

(** A run that stops with a failure before any call. *)
Ltac reject :=
  eexists _, _; repeat split;
  try (intros; simpl; tauto);
  try (intros; exfalso; unfold contractAvailable in *; intuition congruence).

(** Splits a conjunction into its parts, and no further. *)
Ltac conj := repeat match goal with |- _ /\ _ => split end.

(** ** Digit strings *)

Lemma length_app (a b : string) :
  String.length (a ++ b) = (String.length a + String.length b)%nat.
Proof. induction a; simpl; [reflexivity|now rewrite IHa]. Qed.

Lemma app_empty_r (a : string) : a ++ "" = a.
Proof. induction a; simpl; [reflexivity|now rewrite IHa]. Qed.

Lemma app_assoc_s (a b c : string) : (a ++ b) ++ c = a ++ (b ++ c).
Proof. induction a; simpl; [reflexivity|now rewrite IHa]. Qed.

Lemma digitsAcc_app a b acc : digitsAcc (a ++ b) acc = digitsAcc b (digitsAcc a acc).
Proof. revert acc; induction a; intros; simpl; auto. Qed.

Lemma digitsAcc_shift b acc :
  digitsAcc b acc = acc * 10 ^ Z.of_nat (String.length b) + digitsValue b.
Proof.
  unfold digitsValue. revert acc.
  induction b as [|c b IH]; intros acc.
  - simpl. lia.
  - cbn [digitsAcc String.length]. rewrite IH, (IH (0 * 10 + digitVal c)).
    rewrite Nat2Z.inj_succ, Z.pow_succ_r by lia. lia.
Qed.

Lemma digitsValue_app a b :
  digitsValue (a ++ b)
  = digitsValue a * 10 ^ Z.of_nat (String.length b) + digitsValue b.
Proof.
  unfold digitsValue at 1. rewrite digitsAcc_app, digitsAcc_shift. reflexivity.
Qed.

Lemma isDigit_range c : isDigit c = true -> 0 <= digitVal c <= 9.
Proof.
  unfold isDigit, digitVal. intros H.
  apply andb_prop in H as [H1 H2]. apply Z.leb_le in H1, H2. lia.
Qed.

Lemma digitsValue_nonneg s : allDigits s = true -> 0 <= digitsValue s.
Proof.
  induction s as [|c s IH]; intros H.
  - unfold digitsValue; simpl; lia.
  - simpl in H. apply andb_prop in H as [Hc Hs].
    change (String c s) with (String c "" ++ s).
    rewrite digitsValue_app. specialize (IH Hs).
    pose proof (isDigit_range c Hc). unfold digitsValue at 1. simpl.
    assert (0 <= 10 ^ Z.of_nat (String.length s)) by (apply Z.pow_nonneg; lia).
    nia.
Qed.

Lemma digitChar_digit k : 0 <= k <= 9 -> isDigit (digitChar k) = true /\ digitVal (digitChar k) = k.
Proof.
  intros H.
  assert (k = 0 \/ k = 1 \/ k = 2 \/ k = 3 \/ k = 4 \/ k = 5 \/ k = 6 \/ k = 7
          \/ k = 8 \/ k = 9) as Hk by lia.
  repeat destruct Hk as [->|Hk]; try subst k; split; reflexivity.
Qed.

Lemma allDigits_app a b : allDigits (a ++ b) = allDigits a && allDigits b.
Proof. induction a; simpl; [reflexivity|]. rewrite IHa. now rewrite andb_assoc. Qed.

Lemma printDigits_spec fuel : forall n acc,
  0 <= n -> n < 2 ^ Z.of_nat fuel -> (0 < fuel)%nat ->
  exists ds, printDigits fuel n acc = ds ++ acc
             /\ allDigits ds = true /\ ds <> "" /\ digitsValue ds = n.
Proof.
  induction fuel as [|f IH]; intros n acc Hn Hlt Hf; [lia|].
  cbn [printDigits].
  assert (0 <= n mod 10 <= 9) as Hd by (pose proof (Z.mod_pos_bound n 10); lia).
  destruct (digitChar_digit _ Hd) as [Hc Hv].
  destruct (n <? 10) eqn:H10.
  - apply Z.ltb_lt in H10. exists (String (digitChar (n mod 10)) "").
    repeat split.
    + simpl. now rewrite Hc.
    + discriminate.
    + unfold digitsValue. simpl. rewrite Hv. rewrite Z.mod_small; lia.
  - apply Z.ltb_ge in H10.
    assert (1 <= n / 10) by (apply Z.div_le_lower_bound; lia).
    assert (n / 10 < 2 ^ Z.of_nat f).
    { rewrite Nat2Z.inj_succ, Z.pow_succ_r in Hlt by lia.
      apply Z.div_lt_upper_bound; lia. }
    assert (0 < f)%nat.
    { destruct f; [simpl in *; lia|lia]. }
    destruct (IH (n / 10) (String (digitChar (n mod 10)) acc)) as (ds & E & Hall & Hne & Hval);
      try lia.
    exists (ds ++ String (digitChar (n mod 10)) "").
    repeat split.
    + rewrite E, app_assoc_s. reflexivity.
    + rewrite allDigits_app, Hall. simpl. now rewrite Hc.
    + destruct ds; discriminate.
    + rewrite digitsValue_app, Hval. unfold digitsValue at 1. simpl. rewrite Hv.
      pose proof (Z.div_mod n 10). lia.
Qed.

Lemma decimalOfNat_spec n :
  0 <= n ->
  allDigits (decimalOfNat n) = true
  /\ decimalOfNat n <> ""
  /\ digitsValue (decimalOfNat n) = n.
Proof.
  intros Hn. unfold decimalOfNat.
  destruct (printDigits_spec (S (Z.to_nat (Z.log2 n))) n "" Hn) as (ds & E & H1 & H2 & H3).
  - rewrite Nat2Z.inj_succ, Z2Nat.id by apply Z.log2_nonneg.
    destruct (Z.eq_dec n 0) as [->|]; [reflexivity|].
    apply Z.log2_spec. lia.
  - lia.
  - rewrite E, app_empty_r. auto.
Qed.

(** ** Characters *)

Lemma digit_cases c :
  isDigit c = true ->
  c = "0"%char \/ c = "1"%char \/ c = "2"%char \/ c = "3"%char \/ c = "4"%char
  \/ c = "5"%char \/ c = "6"%char \/ c = "7"%char \/ c = "8"%char \/ c = "9"%char.
Proof.
  destruct c as [[] [] [] [] [] [] [] []]; intros H;
    try (vm_compute in H; discriminate H); tauto.
Qed.

Lemma leads_cases c :
  leads c ->
  c = "."%char \/ c = "0"%char \/ c = "1"%char \/ c = "2"%char \/ c = "3"%char
  \/ c = "4"%char \/ c = "5"%char \/ c = "6"%char \/ c = "7"%char
  \/ c = "8"%char \/ c = "9"%char.
Proof. intros [H|H]; [apply digit_cases in H|]; tauto. Qed.

Ltac lead_cases H :=
  apply leads_cases in H;
  repeat (destruct H as [H|H]; [subst|]); [..|subst].

Lemma trimStart_lead c r : leads c -> trimStart (String c r) = String c r.
Proof. intros H. lead_cases H; reflexivity. Qed.

Lemma sign_lead c r :
  leads c ->
  match String c r with
  | String "-" t => (true, t)
  | String "+" t => (false, t)
  | _ => (false, String c r)
  end = (false, String c r).
Proof. intros H. lead_cases H; reflexivity. Qed.

Lemma minus_lead c r :
  leads c ->
  match String c r with
  | String "-" t => (true, t)
  | _ => (false, String c r)
  end = (false, String c r).
Proof. intros H. lead_cases H; reflexivity. Qed.

Lemma infinity_lead c r : leads c -> startsWith "Infinity" (String c r) = false.
Proof. intros H. lead_cases H; reflexivity. Qed.

(** ** Longest prefix of digits *)

Lemma takeDigits_spec s : forall d r,
  takeDigits s = (d, r) -> s = d ++ r /\ allDigits d = true /\ headNotDigit r.
Proof.
  induction s as [|c s IH]; intros d r H; simpl in H.
  - injection H as <- <-. repeat split.
  - destruct (isDigit c) eqn:Hc.
    + destruct (takeDigits s) as [d' t] eqn:E. injection H as <- <-.
      destruct (IH _ _ eq_refl) as (-> & Hd & Hr).
      repeat split; auto. simpl. now rewrite Hc.
    + injection H as <- <-. repeat split. exact Hc.
Qed.

Lemma takeDigits_app d : forall r,
  allDigits d = true -> headNotDigit r -> takeDigits (d ++ r) = (d, r).
Proof.
  induction d as [|c d IH]; intros r Hd Hr; simpl.
  - destruct r as [|c r]; [reflexivity|]. simpl in *. now rewrite Hr.
  - simpl in Hd. apply andb_prop in Hd as [Hc Hd]. rewrite Hc, IH; auto.
Qed.

Lemma takeDigits_all d : allDigits d = true -> takeDigits d = (d, "").
Proof.
  intros H. rewrite <- (app_empty_r d) at 1. apply takeDigits_app; simpl; auto.
Qed.

(** The head of a decimal string is a digit or the point. *)
Lemma splitDecimal_lead s w f :
  splitDecimal s = Some (w, f) -> exists c r, s = String c r /\ leads c.
Proof.
  unfold splitDecimal. destruct s as [|c r]; [discriminate|].
  intros H. exists c, r. split; [reflexivity|].
  simpl in H. destruct (isDigit c) eqn:Hc; [left; exact Hc|].
  right. revert H.
  destruct c as [[] [] [] [] [] [] [] []]; try discriminate; reflexivity.
Qed.

(** ** Numbers that are not [NaN] *)

Lemma iter_pos_inv {A} (P : A -> Prop) (f : A -> A) :
  (forall x, P x -> P (f x)) -> forall p x, P x -> P (SpecFloat.iter_pos f p x).
Proof.
  intros Hf. induction p; intros x Hx; simpl; auto.
Qed.

Lemma shr_1_nonneg mrs : 0 <= shr_m mrs -> 0 <= shr_m (shr_1 mrs).
Proof.
  destruct mrs as [m r s]. simpl. destruct m as [|[p|p|]|[p|p|]]; simpl; lia.
Qed.

Lemma shr_fexp_nonneg m e l :
  0 <= m -> 0 <= shr_m (fst (shr_fexp prec emax m e l)).
Proof.
  intros Hm. unfold shr_fexp, shr.
  destruct (fexp prec emax (Zdigits2 m + e) - e) as [|p|p]; simpl.
  - destruct l as [|[]]; simpl; exact Hm.
  - apply (iter_pos_inv (fun x => 0 <= shr_m x)); [apply shr_1_nonneg|].
    destruct l as [|[]]; simpl; exact Hm.
  - destruct l as [|[]]; simpl; exact Hm.
Qed.

Lemma round_nearest_even_nonneg m l : 0 <= m -> 0 <= round_nearest_even m l.
Proof.
  intros H. unfold round_nearest_even. destruct l as [|[]]; try lia.
  destruct (Z.even m); lia.
Qed.

Lemma binary_round_aux_not_nan s m e l :
  0 <= m -> isNaN (binary_round_aux prec emax s m e l) = false.
Proof.
  intros Hm. unfold binary_round_aux.
  pose proof (shr_fexp_nonneg m e l Hm) as H1.
  destruct (shr_fexp prec emax m e l) as [mrs' e']. simpl in H1.
  pose proof (shr_fexp_nonneg _ e' loc_Exact
                (round_nearest_even_nonneg _ (loc_of_shr_record mrs') H1)) as H2.
  destruct (shr_fexp prec emax _ e' loc_Exact) as [mrs'' e'']. simpl in H2.
  destruct (shr_m mrs'') as [|p|p]; [reflexivity| |lia].
  destruct (e'' <=? emax - prec); reflexivity.
Qed.

Lemma ofDecimal_not_nan neg m e : 0 <= m -> isNaN (ofDecimal neg m e) = false.
Proof.
  intros Hm. unfold ofDecimal. destruct m as [|p|p]; [reflexivity| |lia].
  destruct (0 <=? e).
  - unfold binary_round. destruct (shl_align _ _ _) as [mz ez].
    apply binary_round_aux_not_nan. lia.
  - unfold SFdiv, SFdiv_core_binary.
    match goal with |- context [Z.div_eucl ?a ?b] =>
      pose proof (Z.div_pos a b) as Hq; unfold Z.div in Hq;
      destruct (Z.div_eucl a b) as [q r] end.
    apply binary_round_aux_not_nan. apply Hq; [|lia].
    destruct (0 - 0 - _) as [|s|s]; try lia. apply Z.shiftl_nonneg. lia.
Qed.

Lemma parseFloat_decimal s w f :
  splitDecimal s = Some (w, f) -> isNaN (parseFloat s) = false.
Proof.
  intros H. destruct (splitDecimal_lead _ _ _ H) as (c & r & -> & Hc).
  unfold parseFloat. rewrite (trimStart_lead c r Hc), (sign_lead c r Hc),
    (infinity_lead c r Hc).
  unfold splitDecimal in H.
  destruct (takeDigits (String c r)) as [ip r1] eqn:E1.
  destruct (match r1 with String "." t => takeDigits t | _ => ("", r1) end)
    as [fp r2] eqn:E2.
  destruct r2; [|discriminate].
  destruct (ip ++ fp) as [|a ds] eqn:E3; [discriminate|].
  apply ofDecimal_not_nan.
  apply digitsValue_nonneg. rewrite <- E3, allDigits_app.
  destruct (takeDigits_spec _ _ _ E1) as (_ & Hip & _). rewrite Hip.
  destruct r1 as [|c1 t1]; [injection E2 as <-; reflexivity|].
  revert E2. destruct c1 as [[] [] [] [] [] [] [] []]; intros E2;
    try discriminate E2.
  destruct (takeDigits_spec _ _ _ E2) as (_ & Hfp & _). rewrite Hfp. reflexivity.
Qed.

(** ** Padding and substrings *)

Lemma zeros_length n : String.length (zeros n) = n.
Proof. induction n; simpl; auto. Qed.

Lemma zeros_digits n : allDigits (zeros n) = true.
Proof. induction n; simpl; auto. Qed.

Lemma zeros_allZeros n : allZeros (zeros n) = true.
Proof. induction n; simpl; auto. Qed.

Lemma allZeros_value s : allZeros s = true -> digitsValue s = 0.
Proof.
  unfold digitsValue. induction s as [|c s IH]; intros H; [reflexivity|].
  simpl in H. apply andb_prop in H as [Hc Hs].
  apply Ascii.eqb_eq in Hc. subst c. simpl. apply IH, Hs.
Qed.

Lemma zeros_value n : digitsValue (zeros n) = 0.
Proof. apply allZeros_value, zeros_allZeros. Qed.

Lemma substring_prefix a : forall b, substring 0 (String.length a) (a ++ b) = a.
Proof.
  induction a as [|c a IH]; intros b; simpl.
  - destruct b; reflexivity.
  - now rewrite IH.
Qed.

Lemma substring_suffix a : forall b,
  substring (String.length a) (String.length b) (a ++ b) = b.
Proof.
  induction a as [|c a IH]; intros b; simpl.
  - induction b as [|c b IHb]; simpl; [reflexivity|now rewrite IHb].
  - apply IH.
Qed.

Lemma substring_whole s : substring 0 (String.length s) s = s.
Proof. rewrite <- (app_empty_r s) at 2. apply substring_prefix. Qed.

Lemma substring_none s : substring (String.length s) 0 s = "".
Proof.
  pose proof (substring_suffix s "") as H. rewrite app_empty_r in H. exact H.
Qed.

(** A string splits at any position within it. *)
Lemma split_at s : forall k,
  (k <= String.length s)%nat ->
  exists a b, s = a ++ b /\ String.length a = k.
Proof.
  induction s as [|c s IH]; intros k Hk.
  - exists "", "". simpl in *. split; [reflexivity|lia].
  - destruct k as [|k].
    + exists "", (String c s). split; reflexivity.
    + destruct (IH k) as (a & b & -> & Ha); [simpl in Hk; lia|].
      exists (String c a), b. simpl. split; [reflexivity|lia].
Qed.

(** ** [parseEther] on a decimal string *)

Lemma splitDecimal_parts s w f :
  splitDecimal s = Some (w, f) ->
  allDigits w = true /\ allDigits f = true /\ w ++ f <> "".
Proof.
  unfold splitDecimal. intros H.
  destruct (takeDigits s) as [ip r1] eqn:E1.
  destruct (match r1 with String "." t => takeDigits t | _ => ("", r1) end)
    as [fp r2] eqn:E2.
  destruct r2; [|discriminate].
  destruct (ip ++ fp) as [|a ds] eqn:E3; [discriminate|].
  injection H as <- <-.
  destruct (takeDigits_spec _ _ _ E1) as (_ & Hip & _).
  repeat split; auto.
  - destruct r1 as [|c1 t1]; [injection E2 as <-; reflexivity|].
    revert E2. destruct c1 as [[] [] [] [] [] [] [] []]; intros E2;
      try discriminate E2.
    destruct (takeDigits_spec _ _ _ E2) as (_ & Hfp & _). exact Hfp.
  - rewrite E3. discriminate.
Qed.

Lemma weiOf_nonneg w f :
  allDigits w = true -> allDigits f = true -> 0 <= weiOf w f.
Proof.
  intros Hw Hf. unfold weiOf. apply Z.mul_nonneg_nonneg.
  - apply digitsValue_nonneg. now rewrite allDigits_app, Hw, Hf.
  - apply Z.pow_nonneg. lia.
Qed.

Lemma parseEther_decimal s w f :
  splitDecimal s = Some (w, f) ->
  (String.length f <= 18)%nat ->
  weiOf w f < 2 ^ 511 ->
  Ethers.parseEther s = Some (weiOf w f).
Proof.
  intros H Hlen Hmax.
  destruct (splitDecimal_lead _ _ _ H) as (c & r & -> & Hc).
  destruct (splitDecimal_parts _ _ _ H) as (Hw & Hf & Hne).
  unfold Ethers.parseEther. rewrite (minus_lead c r Hc).
  unfold splitDecimal in H.
  destruct (takeDigits (String c r)) as [ip r1] eqn:E1.
  destruct (match r1 with String "." t => takeDigits t | _ => ("", r1) end)
    as [fp r2] eqn:E2.
  destruct r2; [|discriminate].
  destruct (ip ++ fp) as [|a ds] eqn:E3; [discriminate|].
  injection H as <- <-.
  unfold Ethers.DECIMALS.
  set (padded := fp ++ zeros (18 - String.length fp)).
  assert (String.length padded = 18%nat) as Hp.
  { unfold padded. rewrite length_app, zeros_length. lia. }
  assert (substring 18 (String.length padded - 18) padded = "") as Hrest.
  { rewrite Hp, Nat.sub_diag. rewrite <- Hp at 1. apply substring_none. }
  assert (substring 0 18 padded = padded) as Hall.
  { rewrite <- Hp at 1. apply substring_whole. }
  rewrite Hrest, Hall. cbn [allZeros].
  assert (digitsValue (ip ++ padded) = weiOf ip fp) as Hv.
  { unfold padded, weiOf. rewrite <- app_assoc_s, digitsValue_app, zeros_length, zeros_value.
    rewrite Nat2Z.inj_sub by lia. simpl Z.of_nat. lia. }
  rewrite Hv.
  pose proof (weiOf_nonneg ip fp Hw Hf).
  unfold Ethers.inRange.
  replace (- 2 ^ 511 <=? weiOf ip fp) with true by (symmetry; apply Z.leb_le; lia).
  replace (weiOf ip fp <? 2 ^ 511) with true by (symmetry; apply Z.ltb_lt; lia).
  reflexivity.
Qed.

(** ** [formatEther] on the digits of an amount *)

Lemma digit_not_white c : isDigit c = true -> isWhiteSpace c = false.
Proof.
  intros H. destruct (digit_cases c H) as [->|[->|[->|[->|[->|[->|[->|[->|[->| ->]]]]]]]]];
    reflexivity.
Qed.

Lemma trimStart_digits s : allDigits s = true -> trimStart s = s.
Proof.
  destruct s as [|c r]; [reflexivity|]. simpl. intros H.
  apply andb_prop in H as [Hc _]. now rewrite (digit_not_white c Hc).
Qed.

Lemma trimEnd_digits s : allDigits s = true -> trimEnd s = s.
Proof.
  induction s as [|c r IH]; [reflexivity|]. simpl. intros H.
  apply andb_prop in H as [Hc Hr]. rewrite (IH Hr), (digit_not_white c Hc).
  destruct r; reflexivity.
Qed.

Lemma trim_digits s : allDigits s = true -> trim s = s.
Proof.
  intros H. unfold trim. rewrite (trimStart_digits s H). apply trimEnd_digits, H.
Qed.

Ltac digit_cases_in H :=
  apply digit_cases in H;
  repeat (destruct H as [H|H]; [subst|]); [..|subst].

Lemma stringToBigInt_digits s :
  allDigits s = true -> s <> "" ->
  Ethers.stringToBigInt s = Some (digitsValue s).
Proof.
  intros H Hne. unfold Ethers.stringToBigInt. rewrite (trim_digits s H).
  destruct s as [|d rest]; [congruence|].
  pose proof H as H'. simpl in H'. apply andb_prop in H' as [Hd Hr].
  digit_cases_in Hd; try (cbn; rewrite Hr; reflexivity).
  destruct rest as [|c r]; [reflexivity|].
  simpl in Hr. apply andb_prop in Hr as [Hc Hr].
  digit_cases_in Hc; cbn; rewrite Hr; reflexivity.
Qed.

Lemma getBigInt_digits s :
  allDigits s = true -> s <> "" ->
  Ethers.getBigInt s = Some (digitsValue s).
Proof.
  intros H Hne. rewrite <- (stringToBigInt_digits s H Hne).
  destruct s as [|d rest]; [congruence|].
  simpl in H. apply andb_prop in H as [Hd _].
  digit_cases_in Hd; reflexivity.
Qed.

Lemma splitDecimal_digits s :
  allDigits s = true -> s <> "" -> splitDecimal s = Some (s, "").
Proof.
  intros H Hne. unfold splitDecimal. rewrite (takeDigits_all s H).
  rewrite app_empty_r. destruct s; [congruence|reflexivity].
Qed.

Lemma splitDecimal_point w f :
  allDigits w = true -> allDigits f = true -> w ++ f <> "" ->
  splitDecimal (w ++ "." ++ f) = Some (w, f).
Proof.
  intros Hw Hf Hne. unfold splitDecimal.
  rewrite (takeDigits_app w ("." ++ f) Hw) by reflexivity.
  cbn [append]. rewrite (takeDigits_all f Hf).
  destruct (w ++ f); [congruence|reflexivity].
Qed.

Lemma digitsValue_cons c r :
  digitsValue (String c r) = digitVal c * 10 ^ Z.of_nat (String.length r) + digitsValue r.
Proof.
  change (String c r) with (String c "" ++ r). rewrite digitsValue_app.
  unfold digitsValue at 1. simpl. reflexivity.
Qed.

Lemma stripZerosStart_spec s :
  allDigits s = true -> s <> "" ->
  allDigits (Ethers.stripZerosStart s) = true
  /\ Ethers.stripZerosStart s <> ""
  /\ digitsValue (Ethers.stripZerosStart s) = digitsValue s.
Proof.
  induction s as [|c r IH]; intros H Hne; [congruence|].
  pose proof H as H'. simpl in H'. apply andb_prop in H' as [Hc Hr].
  digit_cases_in Hc; try (cbn [Ethers.stripZerosStart]; repeat split; auto; discriminate).
  destruct r as [|c' r']; [repeat split; auto|].
  cbn [Ethers.stripZerosStart].
  destruct (IH Hr ltac:(discriminate)) as (H1 & H2 & H3).
  repeat split; auto.
Qed.

Lemma stripZerosEnd_spec s :
  allDigits s = true ->
  allDigits (stripZerosEnd s) = true
  /\ (String.length (stripZerosEnd s) <= String.length s)%nat
  /\ digitsValue (stripZerosEnd s)
     * 10 ^ (Z.of_nat (String.length s) - Z.of_nat (String.length (stripZerosEnd s)))
     = digitsValue s.
Proof.
  induction s as [|c r IH]; intros H.
  - split; [reflexivity|split; [apply Nat.le_refl|reflexivity]].
  - simpl in H. apply andb_prop in H as [Hc Hr].
    destruct (IH Hr) as (H1 & H2 & H3).
    cbn [stripZerosEnd].
    destruct (stripZerosEnd r) as [|c' r'] eqn:E.
    + assert (digitsValue r = 0) as Hz.
      { rewrite <- H3. unfold digitsValue. simpl. reflexivity. }
      destruct (Ascii.eqb c "0") eqn:Ec.
      * apply Ascii.eqb_eq in Ec. subst c.
        split; [reflexivity|split; [simpl; lia|]].
        rewrite digitsValue_cons, Hz. reflexivity.
      * split; [simpl; now rewrite Hc|split; [simpl; lia|]].
        rewrite !digitsValue_cons, Hz.
        cbn [String.length]. rewrite !Nat2Z.inj_succ. simpl (Z.of_nat 0).
        replace (Z.succ (Z.of_nat (String.length r)) - Z.succ 0)
          with (Z.of_nat (String.length r)) by lia.
        change (digitsValue "") with 0. rewrite Z.pow_0_r. lia.
    + split; [|split].
      * simpl. simpl in H1. now rewrite Hc.
      * cbn [String.length] in *. lia.
      * rewrite (digitsValue_cons c (String c' r')), (digitsValue_cons c r), <- H3.
        cbn [String.length] in *. rewrite !Nat2Z.inj_succ in *.
        set (a := Z.of_nat (String.length r)) in *.
        set (b := Z.of_nat (String.length r')) in *.
        replace (Z.succ a - Z.succ (Z.succ b)) with (a - Z.succ b) by lia.
        assert (10 ^ a = 10 ^ Z.succ b * 10 ^ (a - Z.succ b)) as Hpow.
        { rewrite <- Z.pow_add_r by (unfold a, b; lia). f_equal. lia. }
        rewrite Hpow. ring.
Qed.

Lemma toFixedString_spec n :
  0 <= n ->
  exists whole frac,
    Ethers.toFixedString n = whole ++ "." ++ frac
    /\ allDigits whole = true /\ whole <> ""
    /\ allDigits frac = true /\ frac <> ""
    /\ (String.length frac <= 18)%nat
    /\ digitsValue whole * 10 ^ 18
       + digitsValue frac * 10 ^ (18 - Z.of_nat (String.length frac)) = n.
Proof.
  intros Hn. unfold Ethers.toFixedString, Ethers.DECIMALS. cbv zeta.
  rewrite (Z.abs_eq n Hn).
  replace (n <? 0) with false by (symmetry; apply Z.ltb_ge; lia).
  destruct (decimalOfNat_spec n Hn) as (Hd & Hne & Hv).
  set (str := zeros (18 + 1 - String.length (decimalOfNat n)) ++ decimalOfNat n).
  assert (allDigits str = true) as Hstr.
  { unfold str. now rewrite allDigits_app, zeros_digits, Hd. }
  assert (digitsValue str = n) as Hval.
  { unfold str. rewrite digitsValue_app, zeros_value, Hv. lia. }
  assert (19 <= String.length str)%nat as Hlen.
  { unfold str. rewrite length_app, zeros_length. lia. }
  destruct (split_at str (String.length str - 18)) as (a & b & Hab & Ha); [lia|].
  assert (String.length b = 18%nat) as Hb.
  { pose proof (f_equal String.length Hab) as E. rewrite length_app in E. lia. }
  rewrite <- Ha. rewrite Hab. rewrite substring_prefix.
  replace (substring (String.length a) 18 (a ++ b)) with b
    by (rewrite <- Hb; symmetry; apply substring_suffix).
  rewrite Hab, allDigits_app in Hstr. apply andb_prop in Hstr as [Hda Hdb].
  assert (a <> "") as Hane.
  { intros ->. simpl in Ha. lia. }
  destruct (stripZerosStart_spec a Hda Hane) as (W1 & W2 & W3).
  destruct (stripZerosEnd_spec b Hdb) as (F1 & F2 & F3).
  rewrite Hab, digitsValue_app, Hb in Hval. rewrite Hb in F2, F3.
  exists (Ethers.stripZerosStart a).
  destruct (stripZerosEnd b) as [|c r] eqn:E.
  - exists "0". cbn [append]. repeat split; auto; try discriminate.
    + simpl. lia.
    + rewrite W3. change (digitsValue "") with 0 in F3.
      change (digitsValue "0") with 0. simpl in *. lia.
  - exists (String c r). cbn [append]. repeat split; auto; try discriminate.
    rewrite W3. simpl Z.of_nat in *. lia.
Qed.

(** ** The currency helpers *)

Lemma pow10_pos k : Z.pos (Z.to_pos (10 ^ Z.of_nat k)) = 10 ^ Z.of_nat k.
Proof. apply Z2Pos.id. apply Z.pow_pos_nonneg; lia. Qed.

Lemma truthy_nonempty s : s <> "" -> truthy s = true.
Proof. destruct s; [congruence|reflexivity]. Qed.

(** [bdagToWei] on a decimal string within range is its amount in wei. *)
Lemma bdagToWei_decimal x w f :
  splitDecimal x = Some (w, f) ->
  (String.length f <= 18)%nat ->
  weiOf w f < 2 ^ 511 ->
  bdagToWei x = Ok (decimalOfNat (weiOf w f)).
Proof.
  intros H Hlen Hmax. unfold bdagToWei.
  destruct (splitDecimal_lead _ _ _ H) as (c & r & Hx & _).
  rewrite truthy_nonempty by (rewrite Hx; discriminate).
  rewrite (parseFloat_decimal _ _ _ H), (parseEther_decimal _ _ _ H Hlen Hmax).
  destruct (splitDecimal_parts _ _ _ H) as (Hw & Hf & _).
  pose proof (weiOf_nonneg w f Hw Hf).
  simpl. unfold bigintToString.
  replace (weiOf w f <? 0) with false by (symmetry; apply Z.ltb_ge; lia).
  reflexivity.
Qed.

(** [weiToBdag] on the digits of an amount within range prints it with 18
    decimals. *)
Lemma weiToBdag_digits n :
  0 <= n < 2 ^ 511 -> weiToBdag (decimalOfNat n) = Ethers.toFixedString n.
Proof.
  intros [Hn Hmax]. unfold weiToBdag.
  destruct (decimalOfNat_spec n Hn) as (Hd & Hne & Hv).
  rewrite truthy_nonempty by exact Hne.
  rewrite (parseFloat_decimal _ _ _ (splitDecimal_digits _ Hd Hne)).
  unfold Ethers.formatEther. rewrite (getBigInt_digits _ Hd Hne), Hv.
  unfold Ethers.inRange.
  replace (- 2 ^ 511 <=? n) with true by (symmetry; apply Z.leb_le; lia).
  replace (n <? 2 ^ 511) with true by (symmetry; apply Z.ltb_lt; lia).
  reflexivity.
Qed.

Lemma minus_split x :
  match x with
  | String "-" r => (true, r)
  | _ => (false, x)
  end
  = (match x with String "-" _ => true | _ => false end,
     match x with String "-" r => r | _ => x end).
Proof.
  destruct x as [|c r]; [reflexivity|].
  destruct c as [[] [] [] [] [] [] [] []]; reflexivity.
Qed.

Lemma parseEther_not_numeric x : isNumeric x = false -> Ethers.parseEther x = None.
Proof.
  unfold isNumeric, Ethers.parseEther, splitDecimal. rewrite minus_split.
  destruct (takeDigits _) as [w r1].
  destruct (match r1 with String "." t => takeDigits t | _ => ("", r1) end)
    as [f r2].
  destruct r2; [|reflexivity].
  destruct (w ++ f); [reflexivity|discriminate].
Qed.

(** C9, as amended.  For every decimal string [x] (digits, optionally a
    point and digits, at least one digit) with at most 18 fractional digits
    whose amount in wei is below [2^511], [bdagToWei x] returns and
    [weiToBdag] of the result denotes the same number as [x].  [bdagToWei]
    raises "Failed to convert BDAG to Wei" on every input that is not a
    decimal string with an optional minus sign.  [weiToBdag] never raises:
    it is a total function, and returns "0" when its argument is empty, is
    not a number for [parseFloat], or is refused by [formatEther]. *)
Theorem bdag_wei_round_trip :
  (forall x w f,
      splitDecimal x = Some (w, f) ->
      (String.length f <= 18)%nat ->
      weiOf w f < 2 ^ 511 ->
      exists wei vx vr,
        bdagToWei x = Ok wei
        /\ decimalValue x = Some vx
        /\ decimalValue (weiToBdag wei) = Some vr
        /\ (vr == vx)%Q)
  /\ (forall x, isNumeric x = false ->
                bdagToWei x = Err (newError "Failed to convert BDAG to Wei"))
  /\ (forall wei,
         wei = "" \/ isNaN (parseFloat wei) = true \/ Ethers.formatEther wei = None ->
         weiToBdag wei = "0").
Proof.
  split; [|split].
  - intros x w f H Hlen Hmax.
    destruct (splitDecimal_parts _ _ _ H) as (Hw & Hf & Hne).
    pose proof (weiOf_nonneg w f Hw Hf) as Hn.
    destruct (toFixedString_spec _ Hn) as (whole & frac & E & W1 & W2 & F1 & F2 & F3 & V).
    eexists _, _, _. split; [apply (bdagToWei_decimal _ _ _ H Hlen Hmax)|].
    split; [unfold decimalValue; rewrite H; reflexivity|].
    rewrite weiToBdag_digits by lia. unfold decimalValue. rewrite E.
    rewrite splitDecimal_point; auto.
    2:{ destruct whole; [congruence|discriminate]. }
    split; [reflexivity|].
    unfold Qeq. simpl Qnum. simpl Qden. rewrite !pow10_pos.
    rewrite digitsValue_app. unfold weiOf in V.
    set (k := Z.of_nat (String.length f)) in *.
    set (j := Z.of_nat (String.length frac)) in *.
    set (V0 := digitsValue (w ++ f)) in *.
    assert (0 <= k <= 18) as Hk by (unfold k; lia).
    assert (0 <= j <= 18) as Hj by (unfold j; lia).
    assert (10 ^ 18 = 10 ^ j * 10 ^ (18 - j)) as Pj.
    { rewrite <- Z.pow_add_r by lia. f_equal. lia. }
    assert (10 ^ 18 = 10 ^ k * 10 ^ (18 - k)) as Pk.
    { rewrite <- Z.pow_add_r by lia. f_equal. lia. }
    assert (0 < 10 ^ (18 - j)) as Hpos by (apply Z.pow_pos_nonneg; lia).
    apply (Z.mul_cancel_r _ _ (10 ^ (18 - j))); [lia|].
    transitivity (V0 * 10 ^ 18); [|rewrite Pj; ring].
    transitivity ((digitsValue whole * 10 ^ 18
                   + digitsValue frac * 10 ^ (18 - j)) * 10 ^ k);
      [rewrite Pj at 1; ring|].
    rewrite V, Pk. ring.
  - intros x H. unfold bdagToWei.
    destruct (negb (truthy x) || isNaN (parseFloat x)); [reflexivity|].
    now rewrite (parseEther_not_numeric x H).
  - intros wei H. unfold weiToBdag.
    destruct H as [->|[H|H]]; [reflexivity| |].
    + rewrite H, orb_true_r. reflexivity.
    + rewrite H. destruct (negb (truthy wei) || isNaN (parseFloat wei)); reflexivity.
Qed.

(** The theorem at 1.5 BDAG. *)
Lemma bdag_wei_round_trip_witness :
  exists wei vx vr,
    bdagToWei "1.5" = Ok wei
    /\ decimalValue "1.5" = Some vx
    /\ decimalValue (weiToBdag wei) = Some vr
    /\ (vr == vx)%Q.
Proof.
  apply (proj1 bdag_wei_round_trip "1.5" "1" "5").
  - reflexivity.
  - simpl. lia.
  - vm_compute. reflexivity.
Defined.

(** C9 as stated fails: the decimal string of 1 followed by 136 zeros
    denotes a positive amount with no fractional digit, and [bdagToWei]
    raises on it, because [parseEther] refuses a value of 512 bits or
    more. *)
Lemma round_trip_overflow :
  let x := String "1" (zeros 136) in
  splitDecimal x = Some (x, "")
  /\ 0 < digitsValue x
  /\ bdagToWei x = Err (newError "Failed to convert BDAG to Wei").
Proof.
  cbv zeta. split; [|split]; vm_compute; reflexivity.
Qed.

(** ** The fee preview *)

Lemma roundFixed_nearest f m e : 0 <= f -> nearestFixed f (roundFixed f m e) m e.
Proof.
  intros Hf. unfold nearestFixed, roundFixed.
  destruct (0 <=? e) eqn:He.
  - apply Z.leb_le in He.
    rewrite (Z.max_l 0 (- e)), (Z.max_r 0 e) by lia. rewrite Z.pow_0_r. lia.
  - apply Z.leb_gt in He.
    rewrite (Z.max_r 0 (- e)), (Z.max_l 0 e) by lia. rewrite Z.pow_0_r.
    assert (0 < 2 ^ (- e)) as HD by (apply Z.pow_pos_nonneg; lia).
    set (D := 2 ^ (- e)) in *. set (X := 2 * Z.pos m * 10 ^ f).
    pose proof (Z.div_mod (X + D) (2 * D) ltac:(lia)) as Hdm.
    pose proof (Z.mod_pos_bound (X + D) (2 * D) ltac:(lia)) as Hr.
    replace (2 * Z.pos m * 1 * 10 ^ f) with X by (unfold X; ring).
    nia.
Qed.

Lemma roundFixed_nonneg f m e : 0 <= f -> 0 <= roundFixed f m e.
Proof.
  intros Hf. unfold roundFixed. destruct (0 <=? e) eqn:He.
  - apply Z.leb_le in He.
    apply Z.mul_nonneg_nonneg; [apply Z.mul_nonneg_nonneg|]; try lia;
      apply Z.pow_nonneg; lia.
  - apply Z.leb_gt in He.
    assert (0 < 2 ^ (- e)) by (apply Z.pow_pos_nonneg; lia).
    assert (0 <= 10 ^ f) by (apply Z.pow_nonneg; lia).
    apply Z.div_pos; nia.
Qed.

(** [fixedDigits 4 n] is the digits of [n] with a point before the last
    four: it denotes [n / 10000]. *)
Lemma fixedDigits_value n :
  0 <= n -> decimalValue (fixedDigits 4 n) = Some (n # 10000).
Proof.
  intros Hn. unfold fixedDigits.
  destruct (decimalOfNat_spec n Hn) as (Hd & Hne & Hv).
  set (m' := if (String.length (decimalOfNat n) <=? 4)%nat
             then zeros (4 + 1 - String.length (decimalOfNat n)) ++ decimalOfNat n
             else decimalOfNat n).
  assert (allDigits m' = true /\ digitsValue m' = n /\ (5 <= String.length m')%nat)
    as (Hm & Hval & Hlen).
  { unfold m'. destruct (String.length (decimalOfNat n) <=? 4)%nat eqn:E.
    - apply Nat.leb_le in E.
      rewrite allDigits_app, zeros_digits, Hd, digitsValue_app, zeros_value, Hv,
        length_app, zeros_length.
      repeat split; lia.
    - apply Nat.leb_gt in E. repeat split; auto. }
  destruct (split_at m' (String.length m' - 4)) as (a & b & Hab & Ha); [lia|].
  assert (String.length b = 4%nat) as Hb.
  { pose proof (f_equal String.length Hab) as E. rewrite length_app in E. lia. }
  rewrite <- Ha, Hab, substring_prefix.
  replace (substring (String.length a) 4 (a ++ b)) with b
    by (rewrite <- Hb; symmetry; apply substring_suffix).
  rewrite Hab, allDigits_app in Hm. apply andb_prop in Hm as [Hda Hdb].
  unfold decimalValue. rewrite splitDecimal_point; auto.
  - rewrite Hb, <- Hab, Hval. reflexivity.
  - destruct a; [simpl in Ha; lia|discriminate].
Qed.

Lemma toFixed_finite m e :
  atLeast1e21 m e = false ->
  toFixed 4 (S754_finite false m e) = fixedDigits 4 (roundFixed 4 m e).
Proof. intros H. unfold toFixed. rewrite H. reflexivity. Qed.

(** C2, as amended.  For every non-empty price, when the product of the
    parsed price and 0.025 in double arithmetic is a positive finite number
    [m * 2^e] below [10^21], the displayed fee is the digits of the integer
    [n] for which [n / 10000] is nearest to that product (the larger of two
    nearest), with a point before the last four digits, so that it denotes
    [n / 10000] and is within 0.00005 of the product; and the displayed
    seller proceeds are obtained in the same way from the product of the
    parsed price and 0.975, independently of the fee. *)
Theorem fee_display_rounds price :
  truthy price = true ->
  (forall m e,
      numMul (parseFloat price) num_0_025 = S754_finite false m e ->
      atLeast1e21 m e = false ->
      exists n,
        nearestFixed 4 n m e
        /\ marketplaceFee price = fixedDigits 4 n
        /\ decimalValue (marketplaceFee price) = Some (n # 10000))
  /\ (forall m e,
      numMul (parseFloat price) num_0_975 = S754_finite false m e ->
      atLeast1e21 m e = false ->
      exists n,
        nearestFixed 4 n m e
        /\ sellerReceives price = fixedDigits 4 n
        /\ decimalValue (sellerReceives price) = Some (n # 10000)).
Proof.
  intros Hp. unfold marketplaceFee, sellerReceives. rewrite Hp.
  split; intros m e Hmul Hbig; rewrite Hmul, (toFixed_finite m e Hbig);
    exists (roundFixed 4 m e);
    (split; [apply roundFixed_nearest; lia|split; [reflexivity|]]);
    apply fixedDigits_value, roundFixed_nonneg; lia.
Qed.

(** The theorem at the price 0.00015. *)
Lemma fee_display_rounds_witness :
  exists n,
    nearestFixed 4 n 8854437155380584 (-71)
    /\ marketplaceFee "0.00015" = fixedDigits 4 n
    /\ decimalValue (marketplaceFee "0.00015") = Some (n # 10000).
Proof.
  apply (proj1 (fee_display_rounds "0.00015" eq_refl)); reflexivity.
Defined.

(** C2 as stated fails at the price 0.00015 BDAG, which is 150000000000000
    wei: the fee of the specification is 3750000000000 wei, the displayed
    fee is 0.0000 and the displayed proceeds are 0.0001, so the displayed
    fee is not the fee of the specification and the two displayed amounts
    do not add up to the price. *)
Lemma fee_display_counterexample :
  let price := "0.00015" in
  Ethers.parseEther price = Some 150000000000000
  /\ specFee 150000000000000 250 = 3750000000000
  /\ marketplaceFee price = "0.0000"
  /\ sellerReceives price = "0.0001"
  /\ Ethers.parseEther (marketplaceFee price) = Some 0
  /\ Ethers.parseEther (sellerReceives price) = Some 100000000000000
  /\ 0 <> specFee 150000000000000 250
  /\ 0 + 100000000000000 <> 150000000000000.
Proof.
  cbv zeta. repeat match goal with |- _ /\ _ => split end;
    try (vm_compute; reflexivity); vm_compute; discriminate.
Qed.

(** ** The read-only operations *)

(** C6. [hasUserPurchased] never fails: for every product id, address and
    world it returns a boolean, it leaves the ledger as it was, and it
    returns [false] whenever a check of the hook or the call of the
    contract fails. *)
Theorem hasUserPurchased_never_fails {L N} (env : Env L N) signer
        productId userAddress (s : St L N) :
  exists b s',
    hasUserPurchased env signer productId userAddress s = (Ok b, s')
    /\ ledger s' = ledger s
    /\ (purchasedCheckFails env signer productId userAddress s -> b = false).
Proof.
  unfold hasUserPurchased, purchasedCheckFails, contractAvailable.
  hook_unfold.
  destruct (isAddress env userAddress) eqn:Hu; simpl; [|settle].
  destruct signer as [sg|]; simpl; [|settle].
  destruct (isAddress env CONTRACT_ADDRESS) eqn:Hc; simpl; [|settle].
  destruct (parseInt productId) as [id|] eqn:Hp; simpl; [|settle].
  destruct (id <=? 0) eqn:Hid; simpl; [settle|].
  destruct (call_hasUserPurchased env id userAddress (ledger s) (net s))
    as [[b|e] n'] eqn:Hcall; simpl; settle.
Qed.


(** ** [purchaseProduct]: the price check *)

(** C1. In every run of [purchaseProduct], if the product the ledger
    returned has a price that differs from the attached amount, the result
    is the failure "Price mismatch", the hook's error is that message, no
    transaction is submitted and the ledger is unchanged; and a purchase
    transaction is submitted only with the attached amount as its value
    and only after a product with exactly that price was read. *)
Theorem purchase_requires_exact_price {L N} (env : Env L N) signer productId
        (amount : Z) (s : St L N) r s' :
  purchaseProduct env signer productId amount s = (r, s') ->
  exists evs,
    trace s' = (trace s ++ evs)%list
    /\ (forall id product,
           In (EvProducts id (Ok product)) evs ->
           rp_price product <> amount ->
           r = Ok (failure "Price mismatch")
           /\ error s' = Some "Price mismatch"
           /\ noTransaction evs
           /\ ledger s' = ledger s)
    /\ (forall id value res,
           In (EvSendPurchase id value res) evs ->
           value = amount
           /\ exists product,
               In (EvProducts id (Ok product)) evs /\ rp_price product = amount).
Proof.
  unfold purchaseProduct, receiptField. hook_unfold. simpl.
  destruct (parseInt productId) as [id|] eqn:Hp; simpl; [|run_done].
  destruct (id <=? 0) eqn:Hid; simpl; [run_done|].
  destruct signer as [sg|]; simpl; [|run_done].
  destruct (isAddress env CONTRACT_ADDRESS) eqn:Hc; simpl; [|run_done].
  destruct (call_products env id (ledger s) (net s)) as [[product|e] n1] eqn:Hprod;
    simpl; [|run_done].
  destruct (rp_price product =? amount) eqn:Hprice; simpl.
  2:{ apply Z.eqb_neq in Hprice. run_done.
      intros ev Hev; simpl in Hev; events; reflexivity. }
  apply Z.eqb_eq in Hprice.
  destruct (send_purchaseProduct env id amount (ledger s) n1)
    as [[tx|e] [l2 n2]] eqn:Hsend; simpl;
    [|run_done].
  destruct (wait env tx l2 n2) as [[[rc|]|e] [l3 n3]] eqn:Hwait; simpl;
    [destruct (rc_status rc) as [[|[ | |]|]|] eqn:Hst; simpl| |];
    run_done.
Qed.

(** The theorem at a mismatched purchase: 999 attached for a product
    priced 1000. *)
Lemma purchase_requires_exact_price_witness :
  fst (purchaseProduct (scripted calm) connected "1" 999 start)
  = Ok (failure "Price mismatch")
  /\ ledger (snd (purchaseProduct (scripted calm) connected "1" 999 start))
     = ledger start.
Proof.
  destruct (purchase_requires_exact_price
              (scripted calm) connected "1" 999 start _ _ eq_refl)
    as (evs & Htrace & Hmismatch & _).
  simpl in Htrace. subst evs.
  destruct (Hmismatch 1 demoProduct (or_introl eq_refl)) as (Hr & _ & _ & Hl).
  - discriminate.
  - split; [exact Hr | exact Hl].
Defined.

(** ** Product ids *)

(** C8, as amended.  A product id that does not parse to a positive
    integer never reaches the ledger, and each operation fails at the
    place of its id check.  [purchaseProduct], which looks at the id first,
    fails with "Invalid product ID".  [updateProduct] looks at the id after
    its other checks, and fails with the message of the first of them that
    fails: "Product name required", "Description required", "Valid price
    required", the error of [getContract()] ("No signer available. Please
    connect your wallet." or "Invalid contract address"), or what
    [handleContractError] makes of the error of [parseEther]; it fails with
    "Invalid product ID" when they all pass.  [getProduct] looks at the id
    after [getContract()]: it returns [null] and records the error of
    [getContract()] when that fails, and "Invalid product ID" otherwise.
    None of them makes any call.  And for every product id, each id these
    three operations hand to the contract is positive. *)
Theorem invalid_id_rejected_before_ledger {L N} (env : Env L N) signer
        (s : St L N) productId :
  (invalidId (parseInt productId) = true ->
   (forall amount, exists s',
       purchaseProduct env signer productId amount s
       = (Ok (failure "Invalid product ID"), s')
       /\ trace s' = trace s /\ ledger s' = ledger s
       /\ error s' = Some "Invalid product ID")
   /\ (forall name description cat priceInBdag, exists msg s',
       updateProduct env signer productId name description cat priceInBdag s
       = (Ok (failure msg), s')
       /\ trace s' = trace s /\ ledger s' = ledger s
       /\ error s' = Some msg
       /\ msg = (if negb (truthy (trim name)) then "Product name required"
                 else if negb (truthy (trim description))
                 then "Description required"
                 else if priceNotPositive priceInBdag then "Valid price required"
                 else
                   match signer with
                   | None => "No signer available. Please connect your wallet."
                   | Some _ =>
                       if negb (isAddress env CONTRACT_ADDRESS)
                       then "Invalid contract address"
                       else
                         match Ethers.parseEther priceInBdag with
                         | None =>
                             handleContractError
                               (parseEtherError env priceInBdag) "update product"
                         | Some _ => "Invalid product ID"
                         end
                   end)
       /\ (updateChecksPass env signer name description priceInBdag ->
           msg = "Invalid product ID"))
   /\ (exists s',
       getProduct env signer productId s = (Ok None, s')
       /\ trace s' = trace s /\ ledger s' = ledger s
       /\ error s'
          = Some (match signer with
                  | None => "No signer available. Please connect your wallet."
                  | Some _ =>
                      if negb (isAddress env CONTRACT_ADDRESS)
                      then "Invalid contract address"
                      else "Invalid product ID"
                  end)
       /\ (contractAvailable env signer ->
           error s' = Some "Invalid product ID")))
  /\ (forall amount r s',
         purchaseProduct env signer productId amount s = (r, s') ->
         exists evs, trace s' = (trace s ++ evs)%list /\ positiveIds evs)
  /\ (forall name description cat priceInBdag r s',
         updateProduct env signer productId name description cat priceInBdag s
         = (r, s') ->
         exists evs, trace s' = (trace s ++ evs)%list /\ positiveIds evs)
  /\ (forall r s',
         getProduct env signer productId s = (r, s') ->
         exists evs, trace s' = (trace s ++ evs)%list /\ positiveIds evs).
Proof.
  split; [intros Hinv; split; [|split]|split; [|split]].
  - intros amount. unfold purchaseProduct. hook_unfold. unfold invalidId in Hinv.
    simpl. destruct (parseInt productId) as [id|]; [rewrite Hinv|]; simpl;
      eexists; repeat split.
  - intros name description cat priceInBdag.
    unfold updateProduct, updateChecksPass, contractAvailable. hook_unfold.
    unfold invalidId in Hinv. simpl.
    destruct (truthy (trim name)); simpl;
      [|eexists _, _; repeat split; intros (? & _); discriminate].
    destruct (truthy (trim description)); simpl;
      [|eexists _, _; repeat split; intros (_ & ? & _); discriminate].
    destruct (priceNotPositive priceInBdag); simpl;
      [eexists _, _; repeat split; intros (_ & _ & ? & _); discriminate|].
    destruct signer; simpl;
      [|eexists _, _; repeat split; intros (_ & _ & _ & (? & _) & _); congruence].
    destruct (isAddress env CONTRACT_ADDRESS); simpl;
      [|eexists _, _; repeat split; intros (_ & _ & _ & (_ & ?) & _); discriminate].
    destruct (Ethers.parseEther priceInBdag); simpl;
      [|eexists _, _; repeat split; intros (_ & _ & _ & _ & ?); congruence].
    destruct (parseInt productId) as [id|]; [rewrite Hinv|]; simpl;
      eexists _, _; repeat split.
  - unfold getProduct, contractAvailable. hook_unfold. unfold invalidId in Hinv.
    simpl.
    destruct signer; simpl; [|eexists; repeat split; intros (? & _); congruence].
    destruct (isAddress env CONTRACT_ADDRESS); simpl;
      [|eexists; repeat split; intros (_ & ?); discriminate].
    destruct (parseInt productId) as [id|]; [rewrite Hinv|]; simpl;
      eexists; repeat split.
  - intros amount r s'. unfold purchaseProduct, receiptField, positiveIds.
    hook_unfold. simpl.
    destruct (parseInt productId) as [id|] eqn:Hp; simpl; [|finish_run; ids].
    destruct (id <=? 0) eqn:Hid; simpl; [finish_run; ids|].
    apply Z.leb_gt in Hid.
    crunch; finish_run; ids.
  - intros name description cat priceInBdag r s'.
    unfold updateProduct, receiptField, positiveIds. hook_unfold. simpl.
    destruct (parseInt productId) as [id|] eqn:Hp; simpl.
    + destruct (id <=? 0) eqn:Hid; simpl; [|apply Z.leb_gt in Hid];
        crunch; finish_run; ids.
    + crunch; finish_run; ids.
  - intros r s'. unfold getProduct, positiveIds. hook_unfold. simpl.
    destruct (parseInt productId) as [id|] eqn:Hp; simpl.
    + destruct (id <=? 0) eqn:Hid; simpl; [|apply Z.leb_gt in Hid];
        crunch; finish_run; ids.
    + crunch; finish_run; ids.
Qed.

(** The theorem at the id [abc]. *)
Lemma invalid_id_rejected_before_ledger_witness :
  exists s',
    purchaseProduct (scripted calm) connected "abc" 1000 start
    = (Ok (failure "Invalid product ID"), s')
    /\ trace s' = trace start /\ ledger s' = ledger start
    /\ error s' = Some "Invalid product ID".
Proof.
  exact (proj1 (proj1 (invalid_id_rejected_before_ledger
                         (scripted calm) connected start "abc") eq_refl) 1000).
Defined.

(** C8 as stated fails: for the id [0], [updateProduct] with an empty name
    is rejected with "Product name required", not with "Invalid product
    ID", and [getProduct] without a signer records the signer's error. *)
Lemma invalid_id_other_error :
  invalidId (parseInt "0") = true
  /\ fst (updateProduct (scripted calm) connected "0" "" "d" "c" "1" start)
     = Ok (failure "Product name required")
  /\ fst (updateProduct (scripted calm) connected "0" "" "d" "c" "1" start)
     <> Ok (failure "Invalid product ID")
  /\ error (snd (getProduct (scripted calm) None "0" start))
     = Some "No signer available. Please connect your wallet.".
Proof.
  repeat split; try reflexivity. vm_compute. discriminate.
Qed.

(** ** [createProduct]: the string checks *)

Lemma truthy_trim_empty s : truthy s = false -> truthy (trim s) = false.
Proof. destruct s; [reflexivity|discriminate]. Qed.

Lemma strlen_zero s : (strlen s =? 0) = negb (truthy s).
Proof. destruct s; reflexivity. Qed.

(** C4, as amended.  [createProduct] rejects, as a failure and before any
    call of the contract, every request whose name, description or category
    is empty after trimming or longer than 100, 500 or 50 characters after
    trimming, or whose uri or thumbnail uri is empty after trimming; when
    the price and the signer are in order the failure carries the message
    of a string check.  A request that meets all these constraints, with a
    positive price that converts and a connected signer, passes the checks
    of [createProduct]. *)
Theorem createProduct_string_validation {L N} (env : Env L N) signer
        name description cat priceInBdag uri thumbnailUri (s : St L N) :
  (stringsAccepted name description cat uri thumbnailUri = false ->
   exists msg s',
     createProduct env signer name description cat priceInBdag uri thumbnailUri s
     = (Ok (failure msg), s')
     /\ trace s' = trace s
     /\ ledger s' = ledger s
     /\ (priceNotPositive priceInBdag = false ->
         contractAvailable env signer ->
         Ethers.parseEther priceInBdag <> None ->
         In msg STRING_ERRORS))
  /\ (stringsAccepted name description cat uri thumbnailUri = true ->
      priceNotPositive priceInBdag = false ->
      contractAvailable env signer ->
      forall priceInWei,
        Ethers.parseEther priceInBdag = Some priceInWei ->
        validateCreate env signer name description cat priceInBdag uri
                       thumbnailUri s
        = (Ok priceInWei, s)).
Proof.
  unfold stringsAccepted, createProduct, validateCreate, contractAvailable.
  hook_unfold.
  rewrite !Z.ltb_antisym, strlen_zero.
  destruct (truthy (trim name)) eqn:Hn; simpl;
    [|split; [intros _; reject|discriminate]].
  destruct (truthy (trim description)) eqn:Hd; simpl.
  2:{ rewrite andb_false_r. simpl. split; [intros _; reject|discriminate]. }
  destruct (priceNotPositive priceInBdag) eqn:Hprice; simpl.
  { split; [intros _; reject|discriminate]. }
  destruct (truthy uri) eqn:Hu; simpl.
  2:{ rewrite (truthy_trim_empty _ Hu), !andb_false_r. simpl.
      split; [intros _; reject|discriminate]. }
  destruct (truthy (trim uri)) eqn:Htu; simpl.
  2:{ rewrite !andb_false_r. simpl. split; [intros _; reject|discriminate]. }
  destruct (truthy thumbnailUri) eqn:Ht; simpl.
  2:{ rewrite (truthy_trim_empty _ Ht), !andb_false_r. simpl.
      split; [intros _; reject|discriminate]. }
  destruct (truthy (trim thumbnailUri)) eqn:Htt; simpl.
  2:{ rewrite !andb_false_r. simpl. split; [intros _; reject|discriminate]. }
  rewrite !andb_true_r.
  destruct signer as [sg|]; simpl.
  2:{ split; [intros _; reject|intros _ _ (? & _); congruence]. }
  destruct (isAddress env CONTRACT_ADDRESS) eqn:Hc; simpl.
  2:{ split; [intros _; reject|intros _ _ (_ & ?); congruence]. }
  destruct (Ethers.parseEther priceInBdag) as [p|] eqn:Hp; simpl.
  2:{ split; [intros _|intros _ _ _ ? ?; congruence].
      crunch; reject. }
  destruct (strlen (trim name) <=? 100) eqn:Hln; simpl;
    [|split; [intros _; reject|discriminate]].
  destruct (strlen (trim description) <=? 500) eqn:Hld; simpl;
    [|split; [intros _; reject|discriminate]].
  destruct (truthy (trim cat)) eqn:Hcat; simpl.
  2:{ destruct (strlen (trim cat) <=? 50); simpl;
      (split; [intros _; reject|discriminate]). }
  destruct (strlen (trim cat) <=? 50) eqn:Hlc; simpl;
    [|split; [intros _; reject|discriminate]].
  split; [discriminate|].
  intros _ _ _ q Hq. injection Hq as <-. reflexivity.
Qed.

(** The theorem at a request that meets every constraint. *)
Lemma createProduct_string_validation_witness :
  validateCreate (scripted calm) connected "Art" "desc" "Music" "1" "ipfs://a"
                 "ipfs://b" start
  = (Ok (10 ^ 18), start).
Proof.
  apply (proj2 (createProduct_string_validation
                  (scripted calm) connected "Art" "desc" "Music" "1"
                  "ipfs://a" "ipfs://b" start));
    try reflexivity.
  split; [discriminate|reflexivity].
Defined.

(** C4 as stated fails in both directions.  An empty description and a
    name of one space meet the constraints as listed, and are rejected; a
    name of 100 letters followed by a space is longer than 100 characters,
    and passes. *)
Lemma stated_strings_counterexample :
  let long := String.concat "" (repeat "a" 100) ++ " " in
  statedStringsOk "A" "" "Art" "u" "t" = true
  /\ fst (createProduct (scripted calm) connected "A" "" "Art" "1" "u" "t" start)
     = Ok (failure "Description required")
  /\ statedStringsOk " " "d" "Art" "u" "t" = true
  /\ fst (createProduct (scripted calm) connected " " "d" "Art" "1" "u" "t" start)
     = Ok (failure "Product name required")
  /\ statedStringsOk long "d" "Art" "u" "t" = false
  /\ fst (validateCreate (scripted calm) connected long "d" "Art" "1" "u" "t" start)
     = Ok 1000000000000000000.
Proof.
  repeat split; vm_compute; reflexivity.
Qed.

(** ** [createProduct]: the pause check and the price cap *)

(** The block that asks [paused()] never stops [createProduct]: whatever
    the contract answers, the block returns normally. *)
Lemma checkPaused_returns {L N} (env : Env L N) (s : St L N) :
  fst (checkPaused env s) = Ok tt.
Proof.
  unfold checkPaused. hook_unfold.
  destruct (call_paused env (ledger s) (net s)) as [[[|]|e] n]; reflexivity.
Qed.

(** The errors of a paused contract are reported in three ways, by the
    shape of the error: the decoded revert as the pause message, a bare
    reason as [MARKETPLACE_PAUSED], and the revert of gas estimation as the
    gas failure, because the test for the word Gas comes first. *)
Lemma pause_error_shapes :
  handleContractError pauseRevert "purchase product" = PAUSED_MSG
  /\ handleContractError (mkJsError None None (Some "EnforcedPause()") None None)
                         "purchase product"
     = "MARKETPLACE_PAUSED"
  /\ handleContractError estimateRevert "purchase product" = GAS_MSG.
Proof. conj; vm_compute; reflexivity. Qed.

(** C3 fails on the code.  With [paused()] answering [true]: behind a node
    that does not estimate gas, [createProduct] still submits its
    transaction and, the transaction reverting, returns success; and when
    gas estimation reverts with the pause, [createProduct], [updateProduct]
    and [purchaseProduct] all report the gas failure, not the pause. *)
Theorem paused_operations_still_submit :
  let create w := createProduct (scripted w) connected "Art" "desc" "Music" "1"
                                "ipfs://a" "ipfs://b" start in
  let update := updateProduct (scripted pausedStrict) connected "1" "Art" "desc"
                              "Music" "1" start in
  let purchase := purchaseProduct (scripted pausedStrict) connected "1" 1000 start in
  In (EvPaused (Ok true)) (trace (snd (create pausedFlaky)))
  /\ existsb isTransaction (trace (snd (create pausedFlaky))) = true
  /\ fst (create pausedFlaky) = Ok (succeeded "0xabc")
  /\ In (EvPaused (Ok true)) (trace (snd (create pausedStrict)))
  /\ fst (create pausedStrict) = Ok (failure GAS_MSG)
  /\ fst update = Ok (failure GAS_MSG)
  /\ fst purchase = Ok (failure GAS_MSG)
  /\ GAS_MSG <> PAUSED_MSG.
Proof.
  cbv zeta. conj; try (vm_compute; reflexivity).
  - vm_compute. left. reflexivity.
  - vm_compute. left. reflexivity.
  - discriminate.
Qed.

(** The checks of the listing form refuse a price that is empty, not
    positive or above 5000. *)
Lemma submitError_price account (f : FormState) :
  negb (truthy (fd_price (formData f))) = true
  \/ numLe (parseFloat (fd_price (formData f))) (ofInt 0) = true
  \/ numGt (parseFloat (fd_price (formData f))) num_5000 = true ->
  exists msg, submitError account f = Some msg.
Proof.
  intros H. unfold submitError.
  destruct (negb (optTruthy account)); [eexists; reflexivity|].
  destruct (negb (truthy (trim (fd_name (formData f))))); [eexists; reflexivity|].
  destruct (100 <? strlen (fd_name (formData f))); [eexists; reflexivity|].
  destruct (500 <? strlen (fd_description (formData f))); [eexists; reflexivity|].
  destruct (negb (truthy (fd_price (formData f)))); [eexists; reflexivity|].
  destruct (numLe (parseFloat (fd_price (formData f))) (ofInt 0)); [eexists; reflexivity|].
  destruct (numGt (parseFloat (fd_price (formData f))) num_5000); [eexists; reflexivity|].
  destruct H as [H|[H|H]]; discriminate.
Qed.

(** So [handleSubmit] stops there, with an error status and before
    anything is uploaded or submitted. *)
Lemma handleSubmit_rejects_price {L N} (env : Env L N) signer account
      (s : St L N) :
  negb (truthy (fd_price (formData (form s)))) = true
  \/ numLe (parseFloat (fd_price (formData (form s)))) (ofInt 0) = true
  \/ numGt (parseFloat (fd_price (formData (form s)))) num_5000 = true ->
  exists s',
    handleSubmit env signer account s = (Ok tt, s')
    /\ status (transactionStatus (form s')) = Failure
    /\ trace s' = trace s
    /\ ledger s' = ledger s.
Proof.
  intros H. destruct (submitError_price account (form s) H) as [msg Hmsg].
  unfold handleSubmit, setTransactionStatus, getForm, setForm, bind.
  rewrite Hmsg. eexists; conj; reflexivity.
Qed.

(** C5 fails on the code.  The hook's [createProduct] has no cap: a price
    of 6000 BDAG passes its checks and is submitted, although the listing
    form refuses the same price.  The form itself compares doubles: it lets
    5000.0000000000001 BDAG through, which [parseFloat] rounds to 5000. *)
Theorem createProduct_has_no_price_cap :
  let run := createProduct (scripted calm) connected "Art" "desc" "Music" "6000"
                           "ipfs://a" "ipfs://b" start in
  let a := mkCreateArgs "Art" "desc" "Music" (6000 * 10 ^ 18) "ipfs://a" "ipfs://b" in
  let filled price :=
    mkFormState (mkFormData "Art" "desc" price) "Music"
                (mkUploadedFiles (Some (mkFile "a.png" 10)) None)
                (mkStatus Idle "" None None) [] in
  fst run = Ok (succeeded "0xabc")
  /\ In (EvSendCreate a 120000 (Ok demoTx)) (trace (snd run))
  /\ numGt (parseFloat "6000") num_5000 = true
  /\ submitError (Some "0xUser") (filled "6000")
     = Some "Product price too high (max 5000 BDAG)"
  /\ submitError (Some "0xUser") (filled "5000.0000000000001") = None
  /\ Ethers.parseEther "5000.0000000000001" = Some (5000 * 10 ^ 18 + 100000).
Proof.
  cbv zeta. conj; try (vm_compute; reflexivity).
  vm_compute. right. right. left. reflexivity.
Qed.

(** ** [createProduct]: submission and receipt *)

(** The checks of [createProduct] leave the state alone. *)
Lemma validateCreate_state {L N} (env : Env L N) signer name description cat
      priceInBdag uri thumbnailUri (s : St L N) :
  snd (validateCreate env signer name description cat priceInBdag uri thumbnailUri s) = s.
Proof.
  unfold validateCreate. hook_unfold. simpl.
  destruct (truthy (trim name)); simpl; [|reflexivity].
  destruct (truthy (trim description)); simpl; [|reflexivity].
  destruct (priceNotPositive priceInBdag); simpl; [reflexivity|].
  destruct (negb (truthy uri) || negb (truthy (trim uri))); simpl; [reflexivity|].
  destruct (negb (truthy thumbnailUri) || negb (truthy (trim thumbnailUri))); simpl;
    [reflexivity|].
  destruct signer; simpl; [|reflexivity].
  destruct (isAddress env CONTRACT_ADDRESS); simpl; [|reflexivity].
  destruct (Ethers.parseEther priceInBdag); simpl; [|reflexivity].
  destruct (100 <? strlen (trim name)); simpl; [reflexivity|].
  destruct (500 <? strlen (trim description)); simpl; [reflexivity|].
  destruct (50 <? strlen (trim cat)); simpl; [reflexivity|].
  destruct (strlen (trim cat) =? 0); simpl; reflexivity.
Qed.

(** The wait that follows a transaction [createProduct] has sent: the
    answers of the world are among the hypotheses. *)
Ltac waited :=
  eexists _, _, _; (split; [eassumption|]);
  repeat match goal with
    | H : ?x = _ |- context [?x] => rewrite H
    end;
  simpl;
  repeat match goal with
    | H : ?x = _ |- context [?x] => rewrite H
    end;
  simpl; repeat split; tauto.

(** C10. [createProduct] reports success without a confirmation.  In every
    run in which the transaction was submitted and its hash obtained,
    [createProduct] goes on to wait for the receipt, and its result is
    read off what the wait gives: when the 60 s timer fires first, when
    [tx.wait()] rejects and when it yields no receipt, the result is
    [{success: true}] with the hash of the transaction, whatever the ledger
    did; a receipt of status 0 gives the failure "Transaction failed on
    blockchain"; any other receipt gives [{success: true}] with the hash of
    the receipt, or of the transaction when the receipt has none.  The
    worlds [stalled], [deaf], [silent] and [reverting] show the four
    cases; in [stalled] the result is a success and the ledger is
    unchanged. *)
Theorem createProduct_success_without_receipt :
  (forall {L N} (env : Env L N) signer name description cat priceInBdag uri
          thumbnailUri (s : St L N) r s',
      createProduct env signer name description cat priceInBdag uri thumbnailUri s
      = (r, s') ->
      exists evs,
        trace s' = (trace s ++ evs)%list
        /\ forall a gas tx,
            In (EvSendCreate a gas (Ok tx)) evs ->
            (exists n0 l1 n1,
                send_createProduct env a gas (ledger s) n0 = (Ok tx, (l1, n1))
                /\ if waitTimesOut env tx l1 n1
                   then In (EvWait tx (Err (newError "Transaction wait timeout"))) evs
                        /\ r = Ok (succeeded (tx_hash tx))
                        /\ ledger s' = l1
                   else
                     In (EvWait tx (fst (wait env tx l1 n1))) evs
                     /\ ledger s' = fst (snd (wait env tx l1 n1))
                     /\ r = Ok match fst (wait env tx l1 n1) with
                               | Err _ | Ok None => succeeded (tx_hash tx)
                               | Ok (Some receipt) =>
                                   match rc_status receipt with
                                   | Some 0 =>
                                       failure "Transaction failed on blockchain"
                                   | _ =>
                                       succeeded (if truthy (rc_hash receipt)
                                                  then rc_hash receipt
                                                  else tx_hash tx)
                                   end
                               end)
            /\ (forall e, In (EvWait tx (Err e)) evs ->
                          r = Ok (succeeded (tx_hash tx)))
            /\ (In (EvWait tx (Ok None)) evs -> r = Ok (succeeded (tx_hash tx)))
            /\ (forall receipt,
                   In (EvWait tx (Ok (Some receipt))) evs ->
                   rc_status receipt = Some 0 ->
                   r = Ok (failure "Transaction failed on blockchain")))
  /\ (let run := createProduct (scripted stalled) connected "Art" "desc" "Music" "1"
                               "ipfs://a" "ipfs://b" start in
      fst run = Ok (succeeded "0xabc") /\ ledger (snd run) = ledger start)
  /\ (let a := mkCreateArgs "Art" "desc" "Music" (10 ^ 18) "ipfs://a" "ipfs://b" in
      let sent := [EvPaused (Ok false); EvEstimateGas a (Ok 100000);
                   EvSendCreate a 120000 (Ok demoTx)] in
      let run := fun sc => createProduct (scripted sc) connected "Art" "desc" "Music"
                                         "1" "ipfs://a" "ipfs://b" start in
      (fst (run stalled) = Ok (succeeded "0xabc")
       /\ trace (snd (run stalled))
          = (sent ++ [EvWait demoTx (Err (newError "Transaction wait timeout"));
                      EvGetTransaction "0xabc" (Ok true)])%list)
      /\ (fst (run deaf) = Ok (succeeded "0xabc")
          /\ trace (snd (run deaf))
             = (sent ++ [EvWait demoTx (Err (newError "could not coalesce error"));
                         EvGetTransaction "0xabc" (Ok true)])%list)
      /\ (fst (run silent) = Ok (succeeded "0xabc")
          /\ trace (snd (run silent)) = (sent ++ [EvWait demoTx (Ok None)])%list)
      /\ (fst (run reverting) = Ok (failure "Transaction failed on blockchain")
          /\ trace (snd (run reverting))
             = (sent ++ [EvWait demoTx (Ok (Some (mkReceipt (Some 0) "0xabc")))])%list)).
Proof.
  split; [|split; [split; reflexivity|]].
  2:{ cbv zeta. repeat split; vm_compute; reflexivity. }
  intros L N env signer name description cat priceInBdag uri thumbnailUri s r s'.
  unfold createProduct.
  unfold finally, tryCatch, bind at 1 2 3. simpl.
  match goal with
  | |- context [validateCreate ?e ?sg ?a ?b ?c ?d ?u ?t ?s0] =>
      pose proof (validateCreate_state e sg a b c d u t s0) as Hv;
      destruct (validateCreate e sg a b c d u t s0) as [[priceInWei|e0] s1]
  end; simpl in Hv; subst s1.
  2:{ unfold setError, ret, bind. 
      repeat match goal with |- context [if ?c then _ else _] => destruct c end;
      simpl; finish_run. }
  unfold checkPaused, estimateCreateGas, awaitReceipt, waitWithTimeout.
  hook_unfold. simpl.
  crunch; finish_run; (split; [|repeat split; intros; events; fin]); waited.
Qed.

(** The theorem at a transaction that is not mined within the minute. *)
Lemma createProduct_success_without_receipt_witness :
  fst (createProduct (scripted stalled) connected "Art" "desc" "Music" "1"
                     "ipfs://a" "ipfs://b" start)
  = Ok (succeeded "0xabc").
Proof.
  destruct (createProduct (scripted stalled) connected "Art" "desc" "Music" "1"
                          "ipfs://a" "ipfs://b" start) as [r s'] eqn:E.
  destruct (proj1 createProduct_success_without_receipt _ _ _ _ _ _ _ _ _ _ _ _ _ E)
    as (evs & Htrace & Hsent).
  vm_compute in E. injection E as <- <-.
  simpl in Htrace. subst evs.
  refine (proj1 (proj2 (Hsent _ _ demoTx _)) (newError "Transaction wait timeout") _);
    simpl; tauto.
Defined.

(* ================================================================= *)
(** * Further properties *)

(** ** Substrings and trimming *)

Lemma startsWith_app_includes a : forall b s,
  startsWith (a ++ b) s = true -> includes b s = true.
Proof.
  induction a as [|c a IH]; intros b s H; simpl in H.
  - destruct s; simpl; rewrite H; reflexivity.
  - destruct s as [|d s]; [discriminate|].
    apply andb_prop in H as [_ H]. apply IH in H.
    simpl. rewrite H. apply orb_true_r.
Qed.

Lemma includes_app a b : forall s,
  includes (a ++ b) s = true -> includes b s = true.
Proof.
  induction s as [|c s IH]; intros H.
  - simpl in H. rewrite orb_false_r in H. now apply startsWith_app_includes in H.
  - simpl in H. apply orb_prop in H as [H|H].
    + now apply startsWith_app_includes in H.
    + apply IH in H. simpl. rewrite H. apply orb_true_r.
Qed.

Lemma trimStart_length s : (String.length (trimStart s) <= String.length s)%nat.
Proof.
  induction s as [|c s IH]; simpl; [lia|].
  destruct (isWhiteSpace c); simpl; lia.
Qed.

Lemma trimEnd_length s : (String.length (trimEnd s) <= String.length s)%nat.
Proof.
  induction s as [|c s IH]; simpl; [lia|].
  destruct (trimEnd s); [destruct (isWhiteSpace c)|]; simpl in *; lia.
Qed.

Lemma trim_length s : strlen (trim s) <= strlen s.
Proof.
  unfold strlen, trim.
  pose proof (trimEnd_length (trimStart s)). pose proof (trimStart_length s). lia.
Qed.

(** A string that ends with a character that is not white space is its
    own [trimEnd]. *)
Lemma trimEnd_closed a c :
  isWhiteSpace c = false -> trimEnd (a ++ String c "") = a ++ String c "".
Proof.
  intros Hc. induction a as [|x a IH]; simpl.
  - rewrite Hc. reflexivity.
  - rewrite IH. destruct a; reflexivity.
Qed.

(** [trimStart] stops at the first character that is not white space. *)
Lemma trimStart_app a b :
  trimStart a <> "" -> trimStart (a ++ b) = trimStart a ++ b.
Proof.
  induction a as [|x a IH]; simpl; [congruence|].
  destruct (isWhiteSpace x); [exact IH|reflexivity].
Qed.

Lemma trimStart_blank a c b :
  trimStart a = "" -> isWhiteSpace c = false ->
  trimStart (a ++ String c b) = String c b.
Proof.
  intros Ha Hc. induction a as [|x a IH]; simpl in *.
  - rewrite Hc. reflexivity.
  - destruct (isWhiteSpace x); [auto|discriminate].
Qed.

Lemma describedAs_trim d n :
  trim (describedAs d n)
  = if truthy (trimStart d) then trimStart d ++ LF ++ LF ++ "[FILENAME:" ++ n ++ "]"
    else "[FILENAME:" ++ n ++ "]".
Proof.
  unfold trim, describedAs.
  assert (Hclosed : forall a, trimEnd (a ++ "[FILENAME:" ++ n ++ "]")
                              = a ++ "[FILENAME:" ++ n ++ "]").
  { intros a.
    replace (a ++ "[FILENAME:" ++ n ++ "]") with ((a ++ "[FILENAME:" ++ n) ++ "]")
      by (rewrite !app_assoc_s; reflexivity).
    apply trimEnd_closed. reflexivity. }
  destruct (trimStart d) as [|c t] eqn:Hd.
  - simpl truthy. cbv iota.
    replace (d ++ LF ++ LF ++ "[FILENAME:" ++ n ++ "]")
      with ((d ++ LF ++ LF) ++ String "[" ("FILENAME:" ++ n ++ "]"))
      by (rewrite !app_assoc_s; reflexivity).
    rewrite trimStart_blank.
    + apply (Hclosed "").
    + clear - Hd. induction d as [|x d IH]; simpl in *; [reflexivity|].
      destruct (isWhiteSpace x); [auto|discriminate].
    + reflexivity.
  - simpl truthy. cbv iota.
    rewrite trimStart_app by (rewrite Hd; discriminate). rewrite Hd.
    replace (String c t ++ LF ++ LF ++ "[FILENAME:" ++ n ++ "]")
      with ((String c t ++ LF ++ LF) ++ "[FILENAME:" ++ n ++ "]")
      by (rewrite !app_assoc_s; reflexivity).
    apply Hclosed.
Qed.

Lemma describedAs_length d n :
  strlen (trim (describedAs d n))
  = (if truthy (trimStart d) then strlen (trimStart d) + 2 else 0) + 11 + strlen n.
Proof.
  rewrite describedAs_trim. unfold strlen.
  assert (Hn : forall a, String.length (a ++ "[FILENAME:" ++ n ++ "]")
                         = (String.length a + 11 + String.length n)%nat).
  { intros a. rewrite !length_app. simpl. lia. }
  destruct (truthy (trimStart d)).
  - replace (trimStart d ++ LF ++ LF ++ "[FILENAME:" ++ n ++ "]")
      with ((trimStart d ++ LF ++ LF) ++ "[FILENAME:" ++ n ++ "]")
      by (rewrite !app_assoc_s; reflexivity).
    rewrite Hn, !length_app. unfold LF. simpl String.length. lia.
  - change ("[FILENAME:" ++ n ++ "]") with ("" ++ "[FILENAME:" ++ n ++ "]").
    rewrite (Hn ""). simpl String.length. lia.
Qed.

(** ** Reading an id back *)

Lemma radixVal_digit c : isDigit c = true -> radixVal 10 c = Some (digitVal c).
Proof. intros H. apply digit_cases in H. repeat destruct H as [H|H]; subst; reflexivity. Qed.

Lemma takeRadix_digits d : forall acc n,
  allDigits d = true ->
  takeRadix 10 d acc n = (digitsAcc d acc, (n + String.length d)%nat, "").
Proof.
  induction d as [|c d IH]; intros acc n H; simpl.
  - now rewrite Nat.add_0_r.
  - simpl in H. apply andb_prop in H as [Hc Hd].
    rewrite (radixVal_digit _ Hc), (IH _ _ Hd). f_equal. f_equal. lia.
Qed.

Lemma parseInt_digits d :
  allDigits d = true -> d <> "" -> parseInt d = Some (digitsValue d).
Proof.
  intros H Hne. unfold parseInt. rewrite (trimStart_digits _ H).
  destruct d as [|c r]; [congruence|].
  assert (Hc : isDigit c = true) by (simpl in H; now apply andb_prop in H).
  assert (Hs : match String c r with
               | String "-" t => (true, t)
               | String "+" t => (false, t)
               | _ => (false, String c r)
               end = (false, String c r)) by (apply sign_lead; now left).
  rewrite Hs.
  assert (Hx : startsWith "0x" (String c r) || startsWith "0X" (String c r) = false).
  { destruct r as [|c2 r2]; [apply digit_cases in Hc; repeat destruct Hc as [Hc|Hc]; subst; reflexivity|].
    assert (Hc2 : isDigit c2 = true) by (simpl in H; apply andb_prop in H as [_ H]; now apply andb_prop in H).
    apply digit_cases in Hc, Hc2.
    repeat destruct Hc as [Hc|Hc]; subst; try reflexivity;
    repeat destruct Hc2 as [Hc2|Hc2]; subst; reflexivity. }
  rewrite Hx. rewrite (takeRadix_digits _ 0 O H). reflexivity.
Qed.

Lemma parseInt_bigintToString z : parseInt (bigintToString z) = Some z.
Proof.
  unfold bigintToString. destruct (z <? 0) eqn:E.
  - apply Z.ltb_lt in E.
    destruct (decimalOfNat_spec (- z)) as (Ha & Hn & Hv); [lia|].
    pose proof (parseInt_digits _ Ha Hn) as P. rewrite Hv in P.
    unfold parseInt in *. rewrite (trimStart_digits _ Ha) in P.
    change (trimStart (String "-" (decimalOfNat (- z)))) with (String "-" (decimalOfNat (- z))).
    destruct (decimalOfNat (- z)) as [|c r] eqn:D; [congruence|].
    assert (Hc : isDigit c = true) by (simpl in Ha; now apply andb_prop in Ha).
    rewrite (sign_lead c r) in P by now left.
    cbv iota beta.
    destruct (startsWith "0x" (String c r) || startsWith "0X" (String c r)).
    + destruct (takeRadix 16 _ 0 0) as [[m n] t]. destruct n; [discriminate|].
      injection P as P. f_equal. lia.
    + destruct (takeRadix 10 _ 0 0) as [[m n] t]. destruct n; [discriminate|].
      injection P as P. f_equal. lia.
  - apply Z.ltb_ge in E.
    destruct (decimalOfNat_spec z E) as (Ha & Hn & Hv).
    rewrite <- Hv at 2. now apply parseInt_digits.
Qed.

(** ** The sign of a price *)

Lemma binary_round_aux_negative m e l :
  0 <= m -> negativeOrZero (binary_round_aux prec emax true m e l).
Proof.
  intros Hm. unfold binary_round_aux.
  pose proof (shr_fexp_nonneg m e l Hm) as H1.
  destruct (shr_fexp prec emax m e l) as [mrs' e']. simpl in H1.
  pose proof (shr_fexp_nonneg _ e' loc_Exact
                (round_nearest_even_nonneg _ (loc_of_shr_record mrs') H1)) as H2.
  destruct (shr_fexp prec emax _ e' loc_Exact) as [mrs'' e'']. simpl in H2.
  destruct (shr_m mrs'') as [|p|p]; [exact I| |lia].
  destruct (e'' <=? emax - prec); exact I.
Qed.

Lemma ofDecimal_negative m e : 0 <= m -> negativeOrZero (ofDecimal true m e).
Proof.
  intros Hm. unfold ofDecimal. destruct m as [|p|p]; [exact I| |lia].
  destruct (0 <=? e).
  - unfold binary_round. destruct (shl_align _ _ _) as [mz ez].
    apply binary_round_aux_negative. lia.
  - unfold SFdiv, SFdiv_core_binary.
    match goal with |- context [Z.div_eucl ?a ?b] =>
      pose proof (Z.div_pos a b) as Hq; unfold Z.div in Hq;
      destruct (Z.div_eucl a b) as [q r] end.
    apply binary_round_aux_negative. apply Hq; [|lia].
    destruct (0 - 0 - _) as [|s|s]; try lia. apply Z.shiftl_nonneg. lia.
Qed.

Lemma negative_le_zero x : negativeOrZero x -> numLe x (ofInt 0) = true.
Proof. destruct x as [[]|[]| |[] m e]; simpl; intros H; try contradiction; reflexivity. Qed.

(** [parseFloat] on a string [parseEther] accepts. *)
Lemma parseFloat_signed (neg : bool) u w f :
  splitDecimal u = Some (w, f) ->
  parseFloat ((if neg then "-" else "") ++ u)
  = ofDecimal neg (digitsValue (w ++ f)) (- Z.of_nat (String.length f)).
Proof.
  intros H. destruct (splitDecimal_lead _ _ _ H) as (c & r & -> & Hc).
  unfold parseFloat.
  assert (Hhead : (let t := trimStart ((if neg then "-" else "") ++ String c r) in
                   match t with
                   | String "-" r0 => (true, r0)
                   | String "+" r0 => (false, r0)
                   | _ => (false, t)
                   end) = (neg, String c r)).
  { destruct neg; cbv zeta.
    - reflexivity.
    - change ("" ++ String c r) with (String c r).
      rewrite (trimStart_lead c r Hc). apply (sign_lead c r Hc). }
  cbv zeta in Hhead. rewrite Hhead. rewrite (infinity_lead c r Hc).
  unfold splitDecimal in H.
  destruct (takeDigits (String c r)) as [ip r1] eqn:E1.
  destruct (match r1 with String "." t => takeDigits t | _ => ("", r1) end)
    as [fp r2] eqn:E2.
  destruct r2; [|discriminate].
  destruct (ip ++ fp) as [|a ds] eqn:E3; [discriminate|].
  injection H as <- <-. rewrite E3. reflexivity.
Qed.

Lemma parseEther_split p v :
  Ethers.parseEther p = Some v ->
  exists neg u w f,
    p = (if neg : bool then "-" else "") ++ u
    /\ splitDecimal u = Some (w, f)
    /\ (neg = false -> 0 <= v /\ (v = 0 -> digitsValue (w ++ f) = 0)).
Proof.
  unfold Ethers.parseEther. rewrite minus_split.
  set (neg := match p with String "-" _ => true | _ => false end).
  set (u := match p with String "-" r => r | _ => p end).
  assert (Hp : p = (if neg then "-" else "") ++ u).
  { subst neg u. destruct p as [|c r]; [reflexivity|].
    destruct c as [[] [] [] [] [] [] [] []]; reflexivity. }
  destruct (takeDigits u) as [w r1] eqn:E1.
  destruct (match r1 with String "." t => takeDigits t | _ => ("", r1) end)
    as [f r2] eqn:E2.
  destruct r2; [|discriminate].
  destruct (w ++ f) as [|a ds] eqn:E3; [discriminate|].
  set (padded := f ++ zeros (Ethers.DECIMALS - String.length f)).
  destruct (allZeros _) eqn:Hz; [|discriminate].
  intros H. exists neg, u, w, f. split; [exact Hp|]. split.
  { unfold splitDecimal. rewrite E1, E2, E3. reflexivity. }
  intros Hneg. rewrite Hneg in H.
  destruct (Ethers.inRange _); [|discriminate]. injection H as <-.
  destruct (takeDigits_spec _ _ _ E1) as (_ & Hw & _).
  assert (Hf : allDigits f = true).
  { destruct r1 as [|c1 t1]; [injection E2 as <-; reflexivity|].
    revert E2. destruct c1 as [[] [] [] [] [] [] [] []]; intros E2;
      try (injection E2 as <-; reflexivity).
    now destruct (takeDigits_spec _ _ _ E2) as (_ & ? & _). }
  assert (Hlen : (Ethers.DECIMALS <= String.length padded)%nat).
  { subst padded. rewrite length_app, zeros_length. lia. }
  destruct (split_at padded Ethers.DECIMALS Hlen) as (A & B & HAB & HA).
  assert (HpA : substring 0 Ethers.DECIMALS padded = A)
    by (rewrite HAB, <- HA; apply substring_prefix).
  assert (HpB : substring Ethers.DECIMALS (String.length padded - Ethers.DECIMALS) padded = B).
  { rewrite HAB, length_app, <- HA.
    replace (String.length A + String.length B - String.length A)%nat
      with (String.length B) by lia.
    apply substring_suffix. }
  rewrite HpB in Hz. rewrite HpA.
  assert (Hpad : allDigits padded = true)
    by (subst padded; rewrite allDigits_app, Hf, zeros_digits; reflexivity).
  rewrite HAB, allDigits_app in Hpad. apply andb_prop in Hpad as [HdA HdB].
  assert (HwA : allDigits (w ++ A) = true) by (rewrite allDigits_app, Hw, HdA; reflexivity).
  split; [now apply digitsValue_nonneg|].
  intros H0. rewrite digitsValue_app in H0.
  pose proof (digitsValue_nonneg _ Hw) as Nw.
  pose proof (digitsValue_nonneg _ HdA) as NA.
  pose proof (digitsValue_nonneg _ Hf) as Nf.
  assert (P1 : 0 < 10 ^ Z.of_nat (String.length A)) by (apply Z.pow_pos_nonneg; lia).
  assert (Hw0 : digitsValue w = 0) by nia.
  assert (HA0 : digitsValue A = 0) by nia.
  assert (Hpv : digitsValue padded = 0).
  { rewrite HAB, digitsValue_app, HA0, (allZeros_value _ Hz). lia. }
  subst padded. rewrite digitsValue_app, zeros_value in Hpv.
  assert (P2 : 0 < 10 ^ Z.of_nat (String.length (zeros (Ethers.DECIMALS - String.length f))))
    by (apply Z.pow_pos_nonneg; lia).
  assert (Hf0 : digitsValue f = 0) by nia.
  rewrite digitsValue_app, Hw0, Hf0. lia.
Qed.

(** A price that passes the check [parseFloat(price) <= 0] and that
    [parseEther] converts is a positive number of wei. *)
Lemma positive_price p v :
  priceNotPositive p = false -> Ethers.parseEther p = Some v -> 0 < v.
Proof.
  unfold priceNotPositive. intros Hn Hp.
  apply orb_false_elim in Hn as [_ Hle].
  destruct (parseEther_split p v Hp) as (neg & u & w & f & -> & Hs & Hv).
  rewrite (parseFloat_signed neg u w f Hs) in Hle.
  destruct (splitDecimal_parts _ _ _ Hs) as (Hw & Hf & _).
  assert (Hd : 0 <= digitsValue (w ++ f))
    by (apply digitsValue_nonneg; rewrite allDigits_app, Hw, Hf; reflexivity).
  destruct neg.
  - rewrite (negative_le_zero _ (ofDecimal_negative _ _ Hd)) in Hle. discriminate.
  - destruct (Hv eq_refl) as [Hge H0].
    destruct (Z.eq_dec v 0) as [->|]; [|lia].
    rewrite (H0 eq_refl) in Hle. discriminate.
Qed.

(** ** Runs of the operations that submit *)

(** What the checks of [createProduct] establish when they pass. *)
Lemma validateCreate_ok {L N} (env : Env L N) signer name description cat
      priceInBdag uri thumbnailUri (s : St L N) v s1 :
  validateCreate env signer name description cat priceInBdag uri thumbnailUri s
  = (Ok v, s1) ->
  stringsAccepted name description cat uri thumbnailUri = true
  /\ priceNotPositive priceInBdag = false
  /\ contractAvailable env signer
  /\ Ethers.parseEther priceInBdag = Some v.
Proof.
  unfold validateCreate, stringsAccepted, contractAvailable. hook_unfold. simpl.
  destruct (truthy (trim name)); simpl; [|discriminate].
  destruct (truthy (trim description)); simpl; [|discriminate].
  destruct (priceNotPositive priceInBdag); simpl; [discriminate|].
  destruct (truthy uri); simpl; [|discriminate].
  destruct (truthy (trim uri)); simpl; [|discriminate].
  destruct (truthy thumbnailUri); simpl; [|discriminate].
  destruct (truthy (trim thumbnailUri)); simpl; [|discriminate].
  destruct signer; simpl; [|discriminate].
  destruct (isAddress env CONTRACT_ADDRESS); simpl; [|discriminate].
  destruct (Ethers.parseEther priceInBdag); simpl; [|discriminate].
  destruct (100 <? strlen (trim name)) eqn:E1; simpl; [discriminate|].
  destruct (500 <? strlen (trim description)) eqn:E2; simpl; [discriminate|].
  destruct (50 <? strlen (trim cat)) eqn:E3; simpl; [discriminate|].
  destruct (strlen (trim cat) =? 0) eqn:E4; simpl; [discriminate|].
  intros H. injection H as <- <-.
  apply Z.ltb_ge in E1, E2, E3. apply Z.leb_le in E1, E2, E3.
  rewrite E1, E2, E3. rewrite strlen_zero in E4.
  apply negb_false_iff in E4. rewrite E4.
  repeat split; congruence.
Qed.

Ltac settle_run :=
  eexists; split; [reflexivity|split; [reflexivity|]];
  first [ left; eexists; split; reflexivity
        | right; eexists; split; reflexivity ].

(** A run that stops before any call. *)
Ltac stopped :=
  let H := fresh "H" in
  intros H; injection H as <- <-; exists []; simpl;
  (split; [symmetry; apply app_nil_r|]); (split; [settle_run|]);
  (split; [reflexivity|]); (split; [lia|]); (split; [reflexivity|]);
  (split; [intros _; repeat split|]).

(** A failure is no success. *)
Ltac no_success :=
  let Hr := fresh in
  let Hs := fresh in
  intros ? Hr Hs; injection Hr as <-; discriminate Hs.

(** Everything the further statements need of a run of [createProduct]:
    it settles, the form is not touched, at most one transaction is
    submitted and the ledger changes with it only; what is submitted was
    checked and estimated; and a failed estimation that mentions a pause or
    a revert stops the run. *)
Lemma createProduct_run {L N} (env : Env L N) signer name description
      cat priceInBdag uri thumbnailUri (s : St L N) r s' :
  createProduct env signer name description cat priceInBdag uri thumbnailUri s
  = (r, s') ->
  exists evs,
    trace s' = (trace s ++ evs)%list
    /\ settled r s'
    /\ form s' = form s
    /\ (transactions evs <= 1)%nat
    /\ (transactions evs = O -> ledger s' = ledger s)
    /\ (signer = None -> evs = [] /\ ledger s' = ledger s /\ net s' = net s)
    /\ (forall response,
        r = Ok response -> success response = true -> transactions evs = 1%nat)
    /\ (forall a gasLimit res,
        In (EvSendCreate a gasLimit res) evs ->
        stringsAccepted name description cat uri thumbnailUri = true
        /\ priceNotPositive priceInBdag = false
        /\ Ethers.parseEther priceInBdag = Some (ca_price a)
        /\ a = mkCreateArgs (trim name) (trim description) (trim cat) (ca_price a)
                            (trim uri) (trim thumbnailUri)
        /\ ((exists g, In (EvEstimateGas a (Ok g)) evs
                       /\ gasLimit = Z.quot (g * 120) 100)
            \/ (exists e, In (EvEstimateGas a (Err e)) evs /\ gasLimit = 500000)))
    /\ (forall a e,
        In (EvEstimateGas a (Err e)) evs ->
        (mentionsPause e = true -> r = Ok (failure PAUSED_MSG) /\ transactions evs = O)
        /\ (mentionsRevert e = true -> transactions evs = O))
    /\ (forall ev, In ev evs -> isUpload ev = false).
Proof.
  unfold createProduct, settled, transactions.
  unfold finally, tryCatch, bind at 1 2 3. simpl.
  match goal with
  | |- context [validateCreate ?e ?sg ?a ?b ?c ?d ?u ?t ?s0] =>
      pose proof (validateCreate_state e sg a b c d u t s0) as Hv;
      pose proof (validateCreate_ok e sg a b c d u t s0) as Hok;
      destruct (validateCreate e sg a b c d u t s0) as [[priceInWei|e0] s1]
  end; simpl in Hv; subst s1.
  2:{ unfold setError, ret, bind.
      repeat match goal with |- context [if ?c then _ else _] => destruct c end;
      simpl; stopped; (split; [no_success|]); (split; [intros; contradiction|]);
      split; intros; contradiction. }
  destruct (Hok _ _ eq_refl) as (Hs & Hpos & Hav & Hp). clear Hok.
  unfold checkPaused, estimateCreateGas, awaitReceipt, waitWithTimeout.
  hook_unfold. simpl.
  crunch.
  all: intros H; injection H as <- <-; eexists; simpl;
    repeat rewrite <- app_assoc; simpl;
    (split; [reflexivity|]).
  all: (split; [settle_run|]).
  all: (split; [reflexivity|]); (split; [simpl; lia|]).
  all: (split; [intros Hz; first [discriminate Hz | reflexivity]|]).
  all: (split; [intros Hn; first [discriminate Hn | destruct Hav as [Hav _]; congruence]|]).
  all: (split; [intros ? Hr Hsucc; injection Hr as <-;
                first [discriminate Hsucc | reflexivity]|]).
  all: (split; [|split; [|intros; events; reflexivity]]); intros; events.
  all: try (split; [exact Hs|split; [exact Hpos|split; [exact Hp|split; [reflexivity|]]]]).
  all: try (first [ left; eexists; split; [simpl; tauto|reflexivity]
                  | right; eexists; split; [simpl; tauto|reflexivity] ]).
  all: unfold mentionsPause, mentionsRevert, estimateMessage;
    (split; intros Hm; try congruence).
  all: try (split; [vm_compute; reflexivity|]); reflexivity.
Qed.

(** A run of [updateProduct]. *)
Lemma updateProduct_run {L N} (env : Env L N) signer productId name description
      cat priceInBdag (s : St L N) r s' :
  updateProduct env signer productId name description cat priceInBdag s = (r, s') ->
  exists evs,
    trace s' = (trace s ++ evs)%list
    /\ settled r s'
    /\ form s' = form s
    /\ (transactions evs <= 1)%nat
    /\ (transactions evs = O -> ledger s' = ledger s)
    /\ (signer = None -> evs = [] /\ ledger s' = ledger s /\ net s' = net s)
    /\ (forall response,
        r = Ok response -> success response = true ->
        exists id price tx receipt,
          evs = [EvSendUpdate id (trim name) (trim description) (trim cat) price (Ok tx);
                 EvWait tx (Ok (Some receipt))]
          /\ response = succeeded (rc_hash receipt))
    /\ (forall id n d c price res,
        In (EvSendUpdate id n d c price res) evs ->
        parseInt productId = Some id /\ 0 < id
        /\ priceNotPositive priceInBdag = false
        /\ Ethers.parseEther priceInBdag = Some price
        /\ n = trim name /\ d = trim description /\ c = trim cat
        /\ truthy (trim name) = true /\ truthy (trim description) = true).
Proof.
  unfold updateProduct, receiptField, settled, transactions. hook_unfold. simpl.
  destruct (truthy (trim name)) eqn:Hn; simpl;
    [|stopped; (split; [no_success|]); intros; contradiction].
  destruct (truthy (trim description)) eqn:Hd; simpl;
    [|stopped; (split; [no_success|]); intros; contradiction].
  destruct (priceNotPositive priceInBdag) eqn:Hpos; simpl;
    [stopped; (split; [no_success|]); intros; contradiction|].
  destruct (parseInt productId) as [id|] eqn:Hp; simpl;
    [destruct (id <=? 0) eqn:Hid; simpl; [|apply Z.leb_gt in Hid]|];
    crunch; intros H; injection H as <- <-; eexists; simpl;
    repeat rewrite <- app_assoc; simpl;
    (split; [first [reflexivity | symmetry; apply app_nil_r]|]);
    (split; [settle_run|]); (split; [reflexivity|]); (split; [simpl; lia|]);
    (split; [intros Hz; first [discriminate Hz | reflexivity]|]);
    (split; [intros Hs; first [discriminate Hs | repeat split]|]);
    (split; [intros ? Hr Hsucc; injection Hr as <-;
             first [discriminate Hsucc | eexists _, _, _, _; split; reflexivity]
            |intros; events; repeat split; auto]).
Qed.

(** A run of [purchaseProduct]. *)
Lemma purchaseProduct_run {L N} (env : Env L N) signer productId amount
      (s : St L N) r s' :
  purchaseProduct env signer productId amount s = (r, s') ->
  exists evs,
    trace s' = (trace s ++ evs)%list
    /\ settled r s'
    /\ form s' = form s
    /\ (transactions evs <= 1)%nat
    /\ (transactions evs = O -> ledger s' = ledger s)
    /\ (signer = None -> evs = [] /\ ledger s' = ledger s /\ net s' = net s)
    /\ (forall response,
        r = Ok response -> success response = true ->
        exists id product tx receipt,
          parseInt productId = Some id
          /\ evs = [EvProducts id (Ok product); EvSendPurchase id amount (Ok tx);
                    EvWait tx (Ok (Some receipt))]
          /\ rp_price product = amount
          /\ rc_status receipt = Some 1
          /\ response = succeeded (rc_hash receipt)).
Proof.
  unfold purchaseProduct, receiptField, settled, transactions. hook_unfold. simpl.
  destruct (parseInt productId) as [id|] eqn:Hp; simpl;
    [|stopped; no_success].
  destruct (id <=? 0) eqn:Hid; simpl; [|apply Z.leb_gt in Hid];
    crunch; intros H; injection H as <- <-; eexists; simpl;
    repeat rewrite <- app_assoc; simpl;
    (split; [first [reflexivity | symmetry; apply app_nil_r]|]);
    (split; [settle_run|]); (split; [reflexivity|]); (split; [simpl; lia|]);
    (split; [intros Hz; first [discriminate Hz | reflexivity]|]);
    (split; [intros Hs; first [discriminate Hs | repeat split]|]);
    intros ? Hr Hsucc; injection Hr as <-;
    first [ discriminate Hsucc
          | eexists _, _, _, _; split; [reflexivity|]; split; [reflexivity|];
            split; [apply Z.eqb_eq, negb_false_iff; assumption|];
            split; [assumption|reflexivity] ].
Qed.

(** ** Runs of the listing form *)

Ltac page_unfold :=
  unfold handleSubmit, uploadThumbnail, handlePauseError, addPopupNotification,
    setTransactionStatus;
  unfold tryCatch, bind, throwIf, offChain, view, getForm, setForm, ret, throw.

(** The checks of the form pass only with a file picked. *)
Lemma submitError_file account f :
  submitError account f = None -> mainFile (uploadedFiles f) <> None.
Proof.
  unfold submitError.
  repeat match goal with |- context [if ?c then _ else _] => destruct c end;
    try discriminate.
Qed.

Lemma error_or_empty m : fromOpt (orElse (Some m) (Some "")) = m.
Proof. destruct m; reflexivity. Qed.

(** The end of a run of [handleSubmit] that did not reach [createProduct]:
    the message of the error caught decides between the pop-up and the
    error status. *)
Ltac caught :=
  match goal with
  | |- context [includes "maintenance" ?m] =>
      let msg := fresh "errorMessage" in
      generalize m; intros msg;
      fold (namesPause msg);
      destruct (namesPause msg) eqn:?
  end; simpl;
  let H := fresh "H" in
  intros H; injection H as <- <-; eexists; simpl;
  repeat rewrite <- app_assoc; simpl;
  (split; [first [reflexivity | symmetry; apply app_nil_r]|]);
  (split; [reflexivity|]); (split; [reflexivity|]);
  (split; [first [ left; repeat split; reflexivity
                 | right; left; split; [reflexivity|]; split; [split; reflexivity|];
                   eexists; split; [eassumption|reflexivity] ]|]);
  (split; [intros ? Hmsg; discriminate Hmsg|]);
  (split; [intros Hj; first [discriminate Hj | repeat split; reflexivity]|]);
  (split; [intros; events; reflexivity|]);
  intros; events.

(** The end of a run of [handleSubmit] that went through [createProduct],
    whose events are [evs]. *)
Ltac peel H :=
  repeat (destruct H as [H|H]; [discriminate H|]).

Ltac created Ht Hform Hsucc Hsend Hup :=
  let H := fresh "H" in
  intros H; injection H as <- <-; eexists; simpl; rewrite Ht, Hform; simpl;
  repeat rewrite <- app_assoc; simpl;
  (split; [reflexivity|]); (split; [reflexivity|]); (split; [reflexivity|]);
  (split; [first [ left; repeat split; reflexivity
                 | right; left; split; [reflexivity|]; split; [split; reflexivity|];
                   eexists; split; [eassumption|reflexivity]
                 | right; right; repeat split; apply (Hsucc _ eq_refl eq_refl) ]|]);
  (split; [intros ? Hmsg; discriminate Hmsg|]);
  (split; [intros Hj; discriminate Hj|]);
  (split;
   [ let Hf := fresh "Hf" in
     intros ? ? ? ? Hf _; peel Hf; apply Hup in Hf; discriminate Hf
   | let Hf := fresh "Hf" in
     let Hp := fresh "Hp" in
     let Ha := fresh "Ha" in
     intros ? ? ? Hf; peel Hf;
     destruct (Hsend _ _ _ Hf) as (_ & _ & Hp & Ha & _);
     eexists _, _, _, _, _;
     split; [reflexivity|]; split; [left; reflexivity|];
     split; [first [right; left; reflexivity | right; right; left; reflexivity]|];
     split; [exact Hp|exact Ha] ]).

Ltac create_call :=
  match goal with
  | |- context [createProduct ?e ?sg ?a ?b ?c ?d ?u ?t ?s0] =>
      let r2 := fresh "r" in
      let s3 := fresh "s" in
      let Ecp := fresh "Ecp" in
      let evs := fresh "evs" in
      let Ht := fresh "Ht" in
      let Hset := fresh "Hset" in
      let Hform := fresh "Hform" in
      let Hsucc := fresh "Hsucc" in
      let Hsend := fresh "Hsend" in
      let Hup := fresh "Hup" in
      let response := fresh "response" in
      let msg := fresh "msg" in
      destruct (createProduct e sg a b c d u t s0) as [r2 s3] eqn:Ecp;
      apply createProduct_run in Ecp
        as (evs & Ht & Hset & Hform & _ & _ & _ & Hsucc & Hsend & _ & Hup);
      simpl in Ht, Hform;
      destruct Hset as (response & -> & _ & [(? & -> & _)|(msg & -> & _)]);
      unfold failure, succeeded; cbn [errorMsg success transactionHash productId];
      cbv beta iota;
      [ created Ht Hform Hsucc Hsend Hup
      | rewrite !error_or_empty; fold (namesPause msg);
        destruct (namesPause msg) eqn:?; simpl;
        created Ht Hform Hsucc Hsend Hup ]
  end.

(** Everything the further statements need of a run of [handleSubmit]. *)
Lemma handleSubmit_run {L N} (env : Env L N) signer account (s : St L N) r s' :
  handleSubmit env signer account s = (r, s') ->
  exists evs,
    trace s' = (trace s ++ evs)%list
    /\ r = Ok tt
    /\ category (form s') = category (form s)
    /\ ((status (transactionStatus (form s')) = Failure
         /\ formKept (form s) (form s')
         /\ notifications (form s') = notifications (form s))
        \/ (transactionStatus (form s') = mkStatus Idle "" None None
            /\ formKept (form s) (form s')
            /\ exists msg,
                namesPause msg = true
                /\ notifications (form s')
                   = (notifications (form s) ++ [pausePopup msg])%list)
        \/ (status (transactionStatus (form s')) = Success
            /\ formCleared (form s')
            /\ notifications (form s') = notifications (form s)
            /\ transactions evs = 1%nat))
    /\ (forall msg,
        submitError account (form s) = Some msg ->
        evs = []
        /\ transactionStatus (form s') = mkStatus Failure msg None None
        /\ ledger s' = ledger s /\ net s' = net s)
    /\ (optTruthy (pinataJwt env) = false ->
        evs = [] /\ ledger s' = ledger s /\ net s' = net s)
    /\ (forall f n e ev,
        In (EvUpload f n (Err e)) evs -> In ev evs -> isUpload ev = true)
    /\ (forall a gasLimit res,
        In (EvSendCreate a gasLimit res) evs ->
        exists main mainUri thumb thumbName thumbUri,
          mainFile (uploadedFiles (form s)) = Some main
          /\ In (EvUpload main None (Ok mainUri)) evs
          /\ In (EvUpload thumb thumbName (Ok thumbUri)) evs
          /\ Ethers.parseEther (fd_price (formData (form s))) = Some (ca_price a)
          /\ a = mkCreateArgs
                   (trim (fd_name (formData (form s))))
                   (trim (describedAs (fd_description (formData (form s)))
                                      (file_name main)))
                   (trim (category (form s))) (ca_price a)
                   (trim mainUri) (trim thumbUri)).
Proof.
  destruct s as [il er fm lg nt tr].
  unfold handleSubmit. unfold bind at 1. unfold getForm. simpl.
  destruct (submitError account fm) as [msg|] eqn:Hse.
  - unfold setTransactionStatus, bind, getForm, setForm. simpl.
    intros H; injection H as <- <-. exists []. simpl.
    split; [symmetry; apply app_nil_r|]. split; [reflexivity|].
    split; [reflexivity|].
    split; [left; repeat split|].
    split; [intros ? Hmsg; injection Hmsg as <-; repeat split|].
    split; [intros _; repeat split|].
    split; intros; contradiction.
  - pose proof (submitError_file _ _ Hse) as Hfile.
    destruct (mainFile (uploadedFiles fm)) as [main|] eqn:Hm; [clear Hfile|congruence].
    page_unfold. simpl.
    destruct (optTruthy (pinataJwt env)) eqn:Hjwt; simpl.
    2:{ intros H; injection H as <- <-. exists []. simpl.
        split; [symmetry; apply app_nil_r|]. split; [reflexivity|].
        split; [reflexivity|].
        split; [left; repeat split|].
        split; [intros ? Hmsg; discriminate Hmsg|].
        split; [intros _; repeat split|].
        split; intros; contradiction. }
    destruct (uploadFileToPinata env main None nt) as [[mainUri|e] n1] eqn:Hu1; simpl;
      [|caught].
    destruct (thumbnailFile (uploadedFiles fm)) as [th|] eqn:Hth; simpl.
    + destruct (uploadFileToPinata env th None n1) as [[thumbUri|e] n2] eqn:Hu2;
        simpl; [|caught].
      create_call.
    + destruct (generateThumbnail env main n1) as [[blob|e] n2] eqn:Hg;
        simpl; [|caught].
      match goal with
      | |- context [uploadFileToPinata env blob ?nm n2] =>
          destruct (uploadFileToPinata env blob nm n2) as [[thumbUri|e] n3] eqn:Hu2
      end; simpl; [|caught].
      create_call.
Qed.

(** ** The array of a [Set] and the loop over it *)

Lemma existsb_eqb_In x l : existsb (String.eqb x) l = true <-> In x l.
Proof.
  rewrite existsb_exists. split.
  - intros (y & Hy & E). apply String.eqb_eq in E. now subst.
  - intros H. exists x. split; [exact H|apply String.eqb_refl].
Qed.

Lemma distinct_from l : forall seen,
  NoDup seen ->
  let out := fold_left (fun seen x => if existsb (String.eqb x) seen then seen
                                      else (seen ++ [x])%list) l seen in
  NoDup out /\ forall x, In x out <-> In x seen \/ In x l.
Proof.
  induction l as [|a l IH]; intros seen Hnd; simpl.
  - split; [exact Hnd|]. intros x. tauto.
  - destruct (existsb (String.eqb a) seen) eqn:E.
    + destruct (IH seen Hnd) as [H1 H2]. split; [exact H1|].
      intros x. rewrite H2. apply existsb_eqb_In in E.
      split; [tauto|]. intros [H|[<-|H]]; tauto.
    + assert (Hn : ~ In a seen).
      { intros H. apply existsb_eqb_In in H. congruence. }
      assert (Hnd' : NoDup (seen ++ [a])).
      { apply NoDup_app.
        - exact Hnd.
        - constructor; [intros []|constructor].
        - intros x Hx [<-|[]]. exact (Hn Hx). }
      destruct (IH _ Hnd') as [H1 H2]. split; [exact H1|].
      intros x. rewrite H2, in_app_iff. simpl. tauto.
Qed.

Lemma distinct_spec l :
  NoDup (distinct l) /\ forall x, In x (distinct l) <-> In x l.
Proof.
  destruct (distinct_from l [] (NoDup_nil _)) as [H1 H2]. split; [exact H1|].
  intros x. rewrite (H2 x). simpl. tauto.
Qed.

Lemma idStrings_spec {L N} (more : More L N) es : forall l,
  idStrings more es = Ok l ->
  forall x, In x l <-> exists e z, In e es /\ loggedId e = Some z
                                   /\ x = bigintToString z.
Proof.
  induction es as [|e es IH]; intros l H x; simpl in H.
  - injection H as <-. simpl. split; [intros []|intros (? & ? & [] & _)].
  - destruct (loggedId e) as [z|] eqn:Hz; [|discriminate].
    destruct (idStrings more es) as [l0|] eqn:Hl; [|discriminate].
    injection H as <-. simpl. rewrite (IH l0 eq_refl x). split.
    + intros [<-|(e' & z' & Hin & Hz' & ->)].
      * exists e, z. auto.
      * exists e', z'. auto.
    + intros (e' & z' & [<-|Hin] & Hz' & ->).
      * left. congruence.
      * right. exists e', z'. auto.
Qed.

Lemma fetchProducts_run {L N} (env : Env L N) (more : More L N) ids :
  forall results (s : St L N) r s',
    fetchProducts env more ids results s = (r, s') ->
    exists evs,
      trace s' = (trace s ++ evs)%list
      /\ ledger s' = ledger s /\ isLoading s' = isLoading s
      /\ error s' = error s /\ form s' = form s
      /\ transactions evs = O
      /\ ((r = Ok (results ++ map toProduct (fetched evs))%list
           /\ Forall2 fetchOf evs ids)
          \/ (exists e, r = Err e)).
Proof.
  induction ids as [|idStr ids IH]; intros results s r s' H; simpl in H.
  - unfold ret in H. injection H as <- <-. exists []. simpl.
    rewrite !app_nil_r. repeat split. left. split; [reflexivity|constructor].
  - destruct (parseInt10 idStr) as [id|] eqn:Hp.
    2:{ unfold throw in H. injection H as <- <-. exists []. simpl.
        rewrite app_nil_r. repeat split. right. eexists; reflexivity. }
    unfold bind, view in H.
    destruct (call_getProduct env id (ledger s) (net s)) as [[p|e] n1] eqn:Hc.
    + apply IH in H as (evs & Ht & Hl & Hi & He & Hf & Htx & Hr). simpl in *.
      exists (EvGetProduct id (Ok p) :: evs).
      rewrite Ht, <- app_assoc. simpl.
      repeat split; auto.
      destruct Hr as [[-> Hall]|(e & ->)].
      * left. split; [now rewrite <- app_assoc|].
        constructor; [exists id, p; auto|exact Hall].
      * right. eexists; reflexivity.
    + injection H as <- <-. exists [EvGetProduct id (Err e)]. simpl.
      repeat split. right. eexists; reflexivity.
Qed.

Lemma weiToBdag_invalid wei :
  wei = "" \/ isNaN (parseFloat wei) = true \/ Ethers.formatEther wei = None ->
  weiToBdag wei = "0".
Proof.
  unfold weiToBdag. intros [->|[H|H]]; [reflexivity| |].
  - rewrite H, orb_true_r. reflexivity.
  - rewrite H. destruct (negb (truthy wei) || isNaN (parseFloat wei)); reflexivity.
Qed.

(** Unfolds the calls of [More] with those of the hook. *)
Ltac rest_unfold :=
  unfold ask, submit; hook_unfold.

(* ================================================================= *)
(** ** Round trips *)

(** X1. A number of wei survives the conversion to BDAG and back: for
    every [n] with [0 <= n < 2^511], [weiToBdag] of the decimal digits of
    [n] is a string that [bdagToWei] converts to the same digits. *)
Theorem wei_bdag_wei_round_trip n :
  0 <= n < 2 ^ 511 ->
  bdagToWei (weiToBdag (decimalOfNat n)) = Ok (decimalOfNat n).
Proof.
  intros Hn. rewrite (weiToBdag_digits n Hn).
  destruct (toFixedString_spec n) as (w & f & -> & Hw & Hwn & Hf & Hfn & Hlen & Hv);
    [lia|].
  assert (Hval : weiOf w f = n).
  { unfold weiOf. rewrite digitsValue_app.
    rewrite Z.mul_add_distr_r, <- Z.mul_assoc, <- Z.pow_add_r by lia.
    replace (Z.of_nat (String.length f) + (18 - Z.of_nat (String.length f)))
      with 18 by lia.
    exact Hv. }
  rewrite (bdagToWei_decimal (w ++ "." ++ f) w f).
  - now rewrite Hval.
  - apply splitDecimal_point; auto. destruct w; [congruence|discriminate].
  - exact Hlen.
  - lia.
Qed.

(** The theorem at one and a half BDAG. *)
Lemma wei_bdag_wei_round_trip_witness :
  weiToBdag "1500000000000000000" = "1.5"
  /\ bdagToWei (weiToBdag "1500000000000000000") = Ok "1500000000000000000".
Proof.
  split; [reflexivity|].
  apply (wei_bdag_wei_round_trip 1500000000000000000). split; [lia|reflexivity].
Defined.

(** X2. The id of a product the hook returned leads back to that product:
    for a product whose id [n] is positive and below [2^53], the string
    [toProduct] writes for the id is read back as [n] by [parseInt], and
    [purchaseProduct], [updateProduct], [getProduct] and [hasUserPurchased]
    called with that string hand no other id than [n] to the contract. *)
Theorem listed_id_round_trip {L N} (env : Env L N) signer (p : RawProduct)
        (s : St L N) :
  0 < rp_id p < 2 ^ 53 ->
  parseInt (p_id (toProduct p)) = Some (rp_id p)
  /\ (forall amount r s',
         purchaseProduct env signer (p_id (toProduct p)) amount s = (r, s') ->
         exists evs, trace s' = (trace s ++ evs)%list /\ onlyId (rp_id p) evs)
  /\ (forall name description cat priceInBdag r s',
         updateProduct env signer (p_id (toProduct p)) name description cat
                       priceInBdag s = (r, s') ->
         exists evs, trace s' = (trace s ++ evs)%list /\ onlyId (rp_id p) evs)
  /\ (forall r s',
         getProduct env signer (p_id (toProduct p)) s = (r, s') ->
         exists evs, trace s' = (trace s ++ evs)%list /\ onlyId (rp_id p) evs)
  /\ (forall userAddress r s',
         hasUserPurchased env signer (p_id (toProduct p)) userAddress s = (r, s') ->
         exists evs, trace s' = (trace s ++ evs)%list /\ onlyId (rp_id p) evs).
Proof.
  intros [Hpos _].
  assert (Hp : parseInt (p_id (toProduct p)) = Some (rp_id p))
    by apply parseInt_bigintToString.
  apply Z.leb_gt in Hpos.
  split; [exact Hp|]. unfold onlyId.
  split; [|split; [|split]].
  - intros amount r s'. unfold purchaseProduct, receiptField. hook_unfold.
    rewrite Hp. simpl. rewrite Hpos. crunch; finish_run; ids.
  - intros name description cat priceInBdag r s'.
    unfold updateProduct, receiptField. hook_unfold.
    rewrite Hp. simpl. rewrite Hpos. crunch; finish_run; ids.
  - intros r s'. unfold getProduct. hook_unfold.
    rewrite Hp. simpl. rewrite Hpos. crunch; finish_run; ids.
  - intros userAddress r s'. unfold hasUserPurchased. hook_unfold.
    rewrite Hp. simpl. rewrite Hpos.
    destruct (isAddress env userAddress); simpl; [|finish_run; ids].
    destruct signer; simpl; [|finish_run; ids].
    destruct (isAddress env CONTRACT_ADDRESS); simpl; [|finish_run; ids].
    destruct (call_hasUserPurchased env (rp_id p) userAddress (ledger s) (net s))
      as [[b|e] n'] eqn:Hcall; simpl; finish_run; ids.
Qed.

(** The theorem at the product of the examples, whose id is 1. *)
Lemma listed_id_round_trip_witness :
  p_id (toProduct demoProduct) = "1"
  /\ parseInt (p_id (toProduct demoProduct)) = Some 1.
Proof.
  split; [reflexivity|].
  apply (listed_id_round_trip (scripted calm) connected demoProduct start).
  split; reflexivity.
Defined.

(* ================================================================= *)
(** ** What [handleContractError] reports *)

(** An error thrown as [new Error(msg)] has a message and nothing else:
    the handler reads the message only. *)
Lemma newError_reporting msg operation :
  handleContractError (newError msg) operation
  = if includes "JSON-RPC" msg then NETWORK_MSG
    else if includes "gas" msg || includes "Gas" msg then GAS_MSG
    else if truthy msg then msg
    else "Failed to " ++ operation.
Proof.
  unfold handleContractError, newError. simpl.
  destruct (includes "Internal JSON-RPC" msg) eqn:E1.
  - rewrite (includes_app "Internal " "JSON-RPC" msg E1). reflexivity.
  - simpl. destruct (includes "JSON-RPC" msg); [reflexivity|].
    simpl. destruct (includes "gas" msg || includes "Gas" msg); [reflexivity|].
    unfold optTruthy, fromOpt, innerMessage, innerCode, innerData,
      innerInnerMessage, optIs, optIncludes, codeIs, codeIsNum. simpl.
    destruct (truthy msg); reflexivity.
Qed.

(** X3. An error thrown as [new Error(msg)] is reported by its message,
    unless the message is empty or holds one of the words the handler looks
    for first: a message with [JSON-RPC] becomes the network message, one
    with [gas] or [Gas] the gas message, and an empty one the fallback.
    So each error the hook makes with a fixed message is reported as it
    is; but the one error whose message the hook builds, "Transaction
    would fail: " followed by the message of the failed gas estimation, is
    reported as it is only when that message holds none of these words,
    and as the network or the gas message otherwise. *)
Theorem plain_error_reporting :
  (forall msg operation,
      handleContractError (newError msg) operation
      = if includes "JSON-RPC" msg then NETWORK_MSG
        else if includes "gas" msg || includes "Gas" msg then GAS_MSG
        else if truthy msg then msg
        else "Failed to " ++ operation)
  /\ (forall msg operation,
         In msg HOOK_ERRORS -> handleContractError (newError msg) operation = msg)
  /\ (forall errorMsg operation,
         handleContractError (newError ("Transaction would fail: " ++ errorMsg))
                             operation
         = if includes "JSON-RPC" errorMsg then NETWORK_MSG
           else if includes "gas" errorMsg || includes "Gas" errorMsg then GAS_MSG
           else "Transaction would fail: " ++ errorMsg).
Proof.
  split; [exact newError_reporting|]. split.
  - intros msg operation H. simpl in H.
    repeat (destruct H as [<-|H]; [vm_compute; reflexivity|]). destruct H.
  - intros errorMsg operation. rewrite newError_reporting.
    cbn [append includes startsWith Ascii.eqb Bool.eqb andb orb truthy String.eqb negb].
    reflexivity.
Qed.

(** The theorem at the message of the price check, and at the message
    built from the failed gas estimation of the world [pausedStrict],
    which names the action [estimateGas]. *)
Lemma plain_error_reporting_witness :
  handleContractError (newError "Price mismatch") "purchase product" = "Price mismatch"
  /\ handleContractError
       (newError ("Transaction would fail: " ++ estimateMessage estimateRevert))
       "create product"
     = GAS_MSG.
Proof.
  split.
  - apply (proj1 (proj2 plain_error_reporting) "Price mismatch" "purchase product").
    simpl. tauto.
  - rewrite (proj2 (proj2 plain_error_reporting)). vm_compute. reflexivity.
Defined.

(** X4. The selector of [EnforcedPause()] in the [data] of an error is
    reported in two ways: when the error passes the tests for a network
    and for a gas error, the handler answers with the pause message if
    the code of the error, or of the error inside it, is [CALL_EXCEPTION],
    and with the word [MARKETPLACE_PAUSED] otherwise.  The listing page
    takes the first for a pause and not the second. *)
Theorem pause_selector_reporting (e : JsError) operation :
  looksLikeNetwork e = false ->
  looksLikeGas e = false ->
  optIs (e_data e) PAUSE_DATA = true ->
  handleContractError e operation
  = (if codeIs (e_code e) "CALL_EXCEPTION" || codeIs (innerCode e) "CALL_EXCEPTION"
     then PAUSED_MSG else "MARKETPLACE_PAUSED")
  /\ (forall {L N} (s : St L N),
         fst (handlePauseError PAUSED_MSG s) = Ok true
         /\ fst (handlePauseError "MARKETPLACE_PAUSED" s) = Ok false).
Proof.
  unfold looksLikeNetwork, looksLikeGas. intros Hn Hg Hd. split.
  - unfold handleContractError. rewrite Hn, Hg, Hd. simpl.
    destruct (codeIs (e_code e) "CALL_EXCEPTION" || codeIs (innerCode e) "CALL_EXCEPTION");
      simpl; [reflexivity|].
    destruct (optIncludes (innerInnerMessage e) "EnforcedPause"); [reflexivity|].
    destruct (optIncludes (e_reason e) "EnforcedPause"); [reflexivity|].
    rewrite orb_true_r. reflexivity.
  - intros L N s. split; reflexivity.
Qed.

(** The theorem at an error that carries nothing but the selector. *)
Lemma pause_selector_reporting_witness :
  handleContractError (mkJsError None None None (Some PAUSE_DATA) None)
                      "create product"
  = "MARKETPLACE_PAUSED".
Proof.
  apply (pause_selector_reporting (mkJsError None None None (Some PAUSE_DATA) None)
                                  "create product"); reflexivity.
Defined.

(* ================================================================= *)
(** ** The operations that submit *)

(** X5. What [createProduct] submits was checked and estimated: in every
    run, a [createProduct] transaction carries the trimmed name,
    description, category and URIs of a request that meets the string
    constraints, and the price [parseEther] gives; its gas limit is the
    estimate obtained for these same arguments times 120, divided by 100
    and truncated, or 500000 when the estimation of them failed. *)
Theorem createProduct_submission {L N} (env : Env L N) signer name description
        cat priceInBdag uri thumbnailUri (s : St L N) r s' :
  createProduct env signer name description cat priceInBdag uri thumbnailUri s
  = (r, s') ->
  exists evs,
    trace s' = (trace s ++ evs)%list
    /\ forall a gasLimit res,
        In (EvSendCreate a gasLimit res) evs ->
        stringsAccepted name description cat uri thumbnailUri = true
        /\ Ethers.parseEther priceInBdag = Some (ca_price a)
        /\ a = mkCreateArgs (trim name) (trim description) (trim cat) (ca_price a)
                            (trim uri) (trim thumbnailUri)
        /\ ((exists g, In (EvEstimateGas a (Ok g)) evs
                       /\ gasLimit = Z.quot (g * 120) 100)
            \/ (exists e, In (EvEstimateGas a (Err e)) evs /\ gasLimit = 500000)).
Proof.
  intros H.
  destruct (createProduct_run _ _ _ _ _ _ _ _ _ _ _ H)
    as (evs & Ht & _ & _ & _ & _ & _ & _ & Hsend & _).
  exists evs. split; [exact Ht|].
  intros a gasLimit res Hin.
  destruct (Hsend a gasLimit res Hin) as (Hs & _ & Hp & Ha & Hg). auto.
Qed.

(** The theorem in the world where everything succeeds: an estimate of
    100000 gives a limit of 120000. *)
Lemma createProduct_submission_witness :
  let a := mkCreateArgs "Art" "desc" "Music" (10 ^ 18) "ipfs://a" "ipfs://b" in
  In (EvSendCreate a 120000 (Ok demoTx))
     (trace (snd (createProduct (scripted calm) connected " Art " "desc" "Music" "1"
                                "ipfs://a" "ipfs://b " start)))
  /\ Ethers.parseEther "1" = Some (ca_price a).
Proof.
  cbv zeta.
  destruct (createProduct (scripted calm) connected " Art " "desc" "Music" "1"
                          "ipfs://a" "ipfs://b " start) as [r s'] eqn:E.
  destruct (createProduct_submission _ _ _ _ _ _ _ _ _ _ _ E) as (evs & Ht & Hsend).
  vm_compute in E. injection E as <- <-.
  simpl in Ht. subst evs.
  assert (Hin : In (EvSendCreate
                      (mkCreateArgs "Art" "desc" "Music" (10 ^ 18) "ipfs://a" "ipfs://b")
                      120000 (Ok demoTx))
                   [EvPaused (Ok false);
                    EvEstimateGas
                      (mkCreateArgs "Art" "desc" "Music" (10 ^ 18) "ipfs://a" "ipfs://b")
                      (Ok 100000);
                    EvSendCreate
                      (mkCreateArgs "Art" "desc" "Music" (10 ^ 18) "ipfs://a" "ipfs://b")
                      120000 (Ok demoTx);
                    EvWait demoTx (Ok (Some (mkReceipt (Some 1) "0xabc")))])
    by (simpl; tauto).
  split; [exact Hin|].
  exact (proj1 (proj2 (Hsend _ _ _ Hin))).
Defined.

(** X6. A failed gas estimation that names its cause stops
    [createProduct]: when the reason of the error, or else its message,
    mentions [EnforcedPause] or [paused], the result is the failure with
    the pause message; when it mentions [revert], the result is a failure
    too; in both cases no transaction is submitted and the ledger is as it
    was. *)
Theorem estimate_failure_blocks_submission {L N} (env : Env L N) signer name
        description cat priceInBdag uri thumbnailUri (s : St L N) r s' :
  createProduct env signer name description cat priceInBdag uri thumbnailUri s
  = (r, s') ->
  exists evs,
    trace s' = (trace s ++ evs)%list
    /\ forall a e,
        In (EvEstimateGas a (Err e)) evs ->
        (mentionsPause e = true ->
         r = Ok (failure PAUSED_MSG)
         /\ transactions evs = O /\ ledger s' = ledger s)
        /\ (mentionsRevert e = true ->
            (exists msg, r = Ok (failure msg))
            /\ transactions evs = O /\ ledger s' = ledger s).
Proof.
  intros H.
  destruct (createProduct_run _ _ _ _ _ _ _ _ _ _ _ H)
    as (evs & Ht & Hset & _ & _ & Hl & _ & Hsucc & _ & Hest & _).
  exists evs. split; [exact Ht|].
  intros a e Hin. destruct (Hest a e Hin) as [Hp Hr]. split.
  - intros Hm. destruct (Hp Hm) as [-> Hz]. auto.
  - intros Hm. pose proof (Hr Hm) as Hz.
    split; [|auto].
    destruct Hset as (response & -> & _ & [(h & -> & _)|(msg & -> & _)]).
    + pose proof (Hsucc _ eq_refl eq_refl) as H1. congruence.
    + eexists; reflexivity.
Qed.

(** The theorem in the world where gas estimation reverts with the
    selector of the pause: the message of that error mentions a revert. *)
Lemma estimate_failure_blocks_submission_witness :
  mentionsRevert estimateRevert = true
  /\ ledger (snd (createProduct (scripted pausedStrict) connected "Art" "desc"
                                "Music" "1" "ipfs://a" "ipfs://b" start))
     = ledger start.
Proof.
  split; [reflexivity|].
  destruct (createProduct (scripted pausedStrict) connected "Art" "desc" "Music" "1"
                          "ipfs://a" "ipfs://b" start) as [r s'] eqn:E.
  destruct (estimate_failure_blocks_submission _ _ _ _ _ _ _ _ _ _ _ E)
    as (evs & Ht & Hest).
  vm_compute in E. injection E as <- <-.
  simpl in Ht. subst evs.
  refine (proj2 (proj2 (proj2 (Hest _ estimateRevert _) eq_refl))).
  simpl. right. left. reflexivity.
Defined.

(** X7. [createProduct], [updateProduct] and [purchaseProduct] never
    throw: each returns a response, with loading switched off, the hook's
    [error] set to [null] beside a success and to the message of the
    response beside a failure, and the state of the page untouched. *)
Theorem submitting_operations_settle {L N} (env : Env L N) signer (s : St L N) :
  (forall name description cat priceInBdag uri thumbnailUri r s',
      createProduct env signer name description cat priceInBdag uri thumbnailUri s
      = (r, s') ->
      settled r s' /\ form s' = form s)
  /\ (forall productId name description cat priceInBdag r s',
      updateProduct env signer productId name description cat priceInBdag s
      = (r, s') ->
      settled r s' /\ form s' = form s)
  /\ (forall productId amount r s',
      purchaseProduct env signer productId amount s = (r, s') ->
      settled r s' /\ form s' = form s).
Proof.
  split; [|split].
  - intros name description cat priceInBdag uri thumbnailUri r s' H.
    destruct (createProduct_run _ _ _ _ _ _ _ _ _ _ _ H) as (evs & _ & Hs & Hf & _).
    auto.
  - intros productId name description cat priceInBdag r s' H.
    destruct (updateProduct_run _ _ _ _ _ _ _ _ _ _ H) as (evs & _ & Hs & Hf & _).
    auto.
  - intros productId amount r s' H.
    destruct (purchaseProduct_run _ _ _ _ _ _ _ H) as (evs & _ & Hs & Hf & _).
    auto.
Qed.

(** The theorem at a purchase in the world in which every call fails. *)
Lemma submitting_operations_settle_witness :
  error (snd (purchaseProduct (scripted broken) connected "1" 1000 start))
  = Some NETWORK_MSG
  /\ settled (fst (purchaseProduct (scripted broken) connected "1" 1000 start))
             (snd (purchaseProduct (scripted broken) connected "1" 1000 start)).
Proof.
  split; [reflexivity|].
  apply (proj2 (proj2 (submitting_operations_settle (scripted broken) connected start))
               "1" 1000).
  vm_compute. reflexivity.
Defined.

(** X8. [purchaseProduct] reports a success only for a purchase that was
    mined: the run then consists of reading the product, whose price is
    the amount attached, of sending the purchase of that id with that
    amount, and of a receipt whose status is 1; the hash reported is the
    one of the receipt. *)
Theorem purchase_success_run {L N} (env : Env L N) signer productId amount
        (s : St L N) response s' :
  purchaseProduct env signer productId amount s = (Ok response, s') ->
  success response = true ->
  exists id product tx receipt,
    parseInt productId = Some id
    /\ trace s' = (trace s ++ [EvProducts id (Ok product);
                               EvSendPurchase id amount (Ok tx);
                               EvWait tx (Ok (Some receipt))])%list
    /\ rp_price product = amount
    /\ rc_status receipt = Some 1
    /\ response = succeeded (rc_hash receipt).
Proof.
  intros H Hs.
  destruct (purchaseProduct_run _ _ _ _ _ _ _ H)
    as (evs & Ht & _ & _ & _ & _ & _ & Hsucc).
  destruct (Hsucc _ eq_refl Hs) as (id & product & tx & receipt & Hp & -> & Hrest).
  exists id, product, tx, receipt. auto.
Qed.

(** The theorem at a purchase that succeeds. *)
Lemma purchase_success_run_witness :
  exists id product tx receipt,
    parseInt "1" = Some id
    /\ trace (snd (purchaseProduct (scripted calm) connected "1" 1000 start))
       = (trace start ++ [EvProducts id (Ok product);
                          EvSendPurchase id 1000 (Ok tx);
                          EvWait tx (Ok (Some receipt))])%list
    /\ rp_price product = 1000
    /\ rc_status receipt = Some 1
    /\ succeeded "0xabc" = succeeded (rc_hash receipt).
Proof.
  apply (purchase_success_run (scripted calm) connected "1" 1000 start
                              (succeeded "0xabc")); reflexivity.
Defined.

(** X9. [updateProduct] reports a success only after its transaction was
    sent and a receipt came back: the run then consists of sending the
    update, with the trimmed name, description and category, and of the
    wait for the receipt, whose hash is reported; the status of the
    receipt is not looked at. *)
Theorem update_success_run {L N} (env : Env L N) signer productId name
        description cat priceInBdag (s : St L N) response s' :
  updateProduct env signer productId name description cat priceInBdag s
  = (Ok response, s') ->
  success response = true ->
  exists id price tx receipt,
    parseInt productId = Some id /\ 0 < id
    /\ Ethers.parseEther priceInBdag = Some price
    /\ trace s' = (trace s ++ [EvSendUpdate id (trim name) (trim description)
                                            (trim cat) price (Ok tx);
                               EvWait tx (Ok (Some receipt))])%list
    /\ response = succeeded (rc_hash receipt).
Proof.
  intros H Hs.
  destruct (updateProduct_run _ _ _ _ _ _ _ _ _ _ H)
    as (evs & Ht & _ & _ & _ & _ & _ & Hsucc & Hsend).
  destruct (Hsucc _ eq_refl Hs) as (id & price & tx & receipt & -> & Hresp).
  destruct (Hsend id _ _ _ price (Ok tx) (or_introl eq_refl))
    as (Hp & Hid & _ & Hprice & _).
  exists id, price, tx, receipt. auto.
Qed.

(** The theorem at an update whose receipt has the status 0. *)
Lemma update_success_run_witness :
  let reverted :=
    mkScript (Ok false) (Ok demoProduct) (Ok [demoProduct])
             (Ok (mkRawStats 1 0 0 250)) (Ok true) (Ok 100000) (Ok demoTx) false
             false (Ok (Some (mkReceipt (Some 0) "0xabc"))) in
  exists id price tx receipt,
    parseInt "1" = Some id /\ 0 < id
    /\ Ethers.parseEther "2" = Some price
    /\ trace (snd (updateProduct (scripted reverted) connected "1" "Art" "desc"
                                 "Music" "2" start))
       = (trace start ++ [EvSendUpdate id "Art" "desc" "Music" price (Ok tx);
                          EvWait tx (Ok (Some receipt))])%list
    /\ succeeded "0xabc" = succeeded (rc_hash receipt).
Proof.
  cbv zeta.
  apply (update_success_run
           (scripted (mkScript (Ok false) (Ok demoProduct) (Ok [demoProduct])
                               (Ok (mkRawStats 1 0 0 250)) (Ok true) (Ok 100000)
                               (Ok demoTx) false false
                               (Ok (Some (mkReceipt (Some 0) "0xabc")))))
           connected "1" "Art" "desc" "Music" "2" start (succeeded "0xabc"));
    reflexivity.
Defined.

(** X10. No price of zero or less is ever submitted: in every run of
    [createProduct] and of [updateProduct], the price a transaction
    carries is a positive number of wei. *)
Theorem submitted_price_positive {L N} (env : Env L N) signer (s : St L N) :
  (forall name description cat priceInBdag uri thumbnailUri r s',
      createProduct env signer name description cat priceInBdag uri thumbnailUri s
      = (r, s') ->
      exists evs,
        trace s' = (trace s ++ evs)%list
        /\ forall a gasLimit res,
            In (EvSendCreate a gasLimit res) evs -> 0 < ca_price a)
  /\ (forall productId name description cat priceInBdag r s',
      updateProduct env signer productId name description cat priceInBdag s
      = (r, s') ->
      exists evs,
        trace s' = (trace s ++ evs)%list
        /\ forall id n d c price res,
            In (EvSendUpdate id n d c price res) evs -> 0 < price).
Proof.
  split.
  - intros name description cat priceInBdag uri thumbnailUri r s' H.
    destruct (createProduct_run _ _ _ _ _ _ _ _ _ _ _ H)
      as (evs & Ht & _ & _ & _ & _ & _ & _ & Hsend & _).
    exists evs. split; [exact Ht|]. intros a gasLimit res Hin.
    destruct (Hsend a gasLimit res Hin) as (_ & Hpos & Hp & _).
    exact (positive_price _ _ Hpos Hp).
  - intros productId name description cat priceInBdag r s' H.
    destruct (updateProduct_run _ _ _ _ _ _ _ _ _ _ H)
      as (evs & Ht & _ & _ & _ & _ & _ & _ & Hsend).
    exists evs. split; [exact Ht|]. intros id n d c price res Hin.
    destruct (Hsend id n d c price res Hin) as (_ & _ & Hpos & Hp & _).
    exact (positive_price _ _ Hpos Hp).
Qed.

(** The theorem at the smallest price, one wei. *)
Lemma submitted_price_positive_witness :
  Ethers.parseEther "0.000000000000000001" = Some 1
  /\ exists evs,
      trace (snd (createProduct (scripted calm) connected "Art" "desc" "Music"
                                "0.000000000000000001" "ipfs://a" "ipfs://b" start))
      = (trace start ++ evs)%list
      /\ forall a gasLimit res,
          In (EvSendCreate a gasLimit res) evs -> 0 < ca_price a.
Proof.
  split; [reflexivity|].
  apply (proj1 (submitted_price_positive (scripted calm) connected start)
               "Art" "desc" "Music" "0.000000000000000001" "ipfs://a" "ipfs://b"
               (fst (createProduct (scripted calm) connected "Art" "desc" "Music"
                                   "0.000000000000000001" "ipfs://a" "ipfs://b"
                                   start))).
  vm_compute. reflexivity.
Defined.

(** X11. One call, one transaction at most: no run of [createProduct],
    [updateProduct] or [purchaseProduct] submits more than one
    transaction, and a run that submits none leaves the ledger as it
    was. *)
Theorem one_transaction_per_call {L N} (env : Env L N) signer (s : St L N) :
  (forall name description cat priceInBdag uri thumbnailUri r s',
      createProduct env signer name description cat priceInBdag uri thumbnailUri s
      = (r, s') ->
      exists evs,
        trace s' = (trace s ++ evs)%list
        /\ (transactions evs <= 1)%nat
        /\ (transactions evs = O -> ledger s' = ledger s))
  /\ (forall productId name description cat priceInBdag r s',
      updateProduct env signer productId name description cat priceInBdag s
      = (r, s') ->
      exists evs,
        trace s' = (trace s ++ evs)%list
        /\ (transactions evs <= 1)%nat
        /\ (transactions evs = O -> ledger s' = ledger s))
  /\ (forall productId amount r s',
      purchaseProduct env signer productId amount s = (r, s') ->
      exists evs,
        trace s' = (trace s ++ evs)%list
        /\ (transactions evs <= 1)%nat
        /\ (transactions evs = O -> ledger s' = ledger s)).
Proof.
  split; [|split].
  - intros name description cat priceInBdag uri thumbnailUri r s' H.
    destruct (createProduct_run _ _ _ _ _ _ _ _ _ _ _ H)
      as (evs & Ht & _ & _ & Hn & Hl & _).
    exists evs. auto.
  - intros productId name description cat priceInBdag r s' H.
    destruct (updateProduct_run _ _ _ _ _ _ _ _ _ _ H)
      as (evs & Ht & _ & _ & Hn & Hl & _).
    exists evs. auto.
  - intros productId amount r s' H.
    destruct (purchaseProduct_run _ _ _ _ _ _ _ H)
      as (evs & Ht & _ & _ & Hn & Hl & _).
    exists evs. auto.
Qed.

(** The theorem at a purchase with the wrong amount: nothing is
    submitted. *)
Lemma one_transaction_per_call_witness :
  exists evs,
    trace (snd (purchaseProduct (scripted calm) connected "1" 999 start))
    = (trace start ++ evs)%list
    /\ (transactions evs <= 1)%nat
    /\ (transactions evs = O ->
        ledger (snd (purchaseProduct (scripted calm) connected "1" 999 start))
        = ledger start).
Proof.
  apply (proj2 (proj2 (one_transaction_per_call (scripted calm) connected start))
               "1" 999
               (fst (purchaseProduct (scripted calm) connected "1" 999 start))).
  vm_compute. reflexivity.
Defined.

(* ================================================================= *)
(** ** Without a signer *)

(** X12. Without a signer nothing leaves the front end: every operation
    of the hook, called with the signer [null], makes no call and leaves
    the ledger and the outside world as they were.  The operations that
    submit return a failure, the queries their empty answer,
    [hasUserPurchased] and [verifyContract] return [false], and
    [getContractOwner] throws. *)
Theorem no_signer_no_call {L N} (env : Env L N) (more : More L N) (s : St L N) :
  (forall name description cat priceInBdag uri thumbnailUri,
      exists msg s',
        createProduct env None name description cat priceInBdag uri thumbnailUri s
        = (Ok (failure msg), s') /\ untouched s s')
  /\ (forall productId name description cat priceInBdag,
      exists msg s',
        updateProduct env None productId name description cat priceInBdag s
        = (Ok (failure msg), s') /\ untouched s s')
  /\ (forall productId amount,
      exists msg s',
        purchaseProduct env None productId amount s = (Ok (failure msg), s')
        /\ untouched s s')
  /\ (forall productId uri thumbnailUri,
      exists msg s',
        updateProductMedia env more None productId uri thumbnailUri s
        = (Ok (failure msg), s') /\ untouched s s')
  /\ (exists s', getAvailableProducts env None s = (Ok [], s') /\ untouched s s')
  /\ (forall productId,
      exists s', getProduct env None productId s = (Ok None, s') /\ untouched s s')
  /\ (forall sellerAddress,
      exists s', getSellerProducts env None sellerAddress s = (Ok [], s')
                 /\ untouched s s')
  /\ (forall cat,
      exists s', getProductsByCategory env None cat s = (Ok [], s')
                 /\ untouched s s')
  /\ (exists s', getMarketplaceStats env None s = (Ok None, s') /\ untouched s s')
  /\ (forall buyerAddress,
      exists s', getPurchasedProducts env more None buyerAddress s = (Ok [], s')
                 /\ untouched s s')
  /\ (forall productId userAddress,
      exists s', hasUserPurchased env None productId userAddress s = (Ok false, s')
                 /\ untouched s s')
  /\ (exists s', verifyContract env more None s = (Ok false, s') /\ untouched s s')
  /\ (exists e s', getContractOwner env more None s = (Err e, s') /\ untouched s s').
Proof.
  unfold untouched.
  split.
  { intros name description cat priceInBdag uri thumbnailUri.
    destruct (createProduct env None name description cat priceInBdag uri
                            thumbnailUri s) as [r s'] eqn:H.
    destruct (createProduct_run _ _ _ _ _ _ _ _ _ _ _ H)
      as (evs & Ht & Hset & _ & _ & _ & Hno & Hsucc & _).
    destruct (Hno eq_refl) as (-> & Hl & Hn).
    destruct Hset as (response & -> & _ & [(h & -> & _)|(msg & -> & _)]).
    - pose proof (Hsucc _ eq_refl eq_refl) as H1. discriminate H1.
    - exists msg, s'. rewrite app_nil_r in Ht. auto. }
  split.
  { intros productId name description cat priceInBdag.
    destruct (updateProduct env None productId name description cat priceInBdag s)
      as [r s'] eqn:H.
    destruct (updateProduct_run _ _ _ _ _ _ _ _ _ _ H)
      as (evs & Ht & Hset & _ & _ & _ & Hno & Hsucc & _).
    destruct (Hno eq_refl) as (-> & Hl & Hn).
    destruct Hset as (response & -> & _ & [(h & -> & _)|(msg & -> & _)]).
    - destruct (Hsucc _ eq_refl eq_refl) as (? & ? & ? & ? & H1 & _). discriminate H1.
    - exists msg, s'. rewrite app_nil_r in Ht. auto. }
  split.
  { intros productId amount.
    destruct (purchaseProduct env None productId amount s) as [r s'] eqn:H.
    destruct (purchaseProduct_run _ _ _ _ _ _ _ H)
      as (evs & Ht & Hset & _ & _ & _ & Hno & Hsucc).
    destruct (Hno eq_refl) as (-> & Hl & Hn).
    destruct Hset as (response & -> & _ & [(h & -> & _)|(msg & -> & _)]).
    - destruct (Hsucc _ eq_refl eq_refl) as (? & ? & ? & ? & _ & H1 & _).
      discriminate H1.
    - exists msg, s'. rewrite app_nil_r in Ht. auto. }
  unfold updateProductMedia, getAvailableProducts, getProduct, getSellerProducts,
    getProductsByCategory, getMarketplaceStats, getPurchasedProducts,
    hasUserPurchased, verifyContract, getContractOwner.
  rest_unfold. simpl.
  split.
  { intros productId uri thumbnailUri.
    destruct (truthy (trim uri)); simpl; [|eexists _, _; repeat split].
    destruct (truthy (trim thumbnailUri)); simpl; eexists _, _; repeat split. }
  split; [eexists; repeat split|].
  split; [intros; eexists; repeat split|].
  split.
  { intros sellerAddress.
    destruct (isAddress env sellerAddress); simpl; eexists; repeat split. }
  split.
  { intros cat. destruct (truthy (trim cat)); simpl; eexists; repeat split. }
  split; [eexists; repeat split|].
  split.
  { intros buyerAddress.
    destruct (isAddress env buyerAddress); simpl; eexists; repeat split. }
  split.
  { intros productId userAddress.
    destruct (isAddress env userAddress); simpl; eexists; repeat split. }
  split; eexists; try eexists; repeat split.
Qed.

(* ================================================================= *)
(** ** The listing form *)

(** X13. [handleSubmit] never throws and never leaves the form pending.
    It ends in one of three ways, with the category untouched: with an
    error status, the fields and files of the form and the notifications
    as they were; idle, with the fields and files as they were and one
    pause notice added, whose message mentions the pause; or with the
    success status, the fields and files emptied, the notifications as
    they were, and exactly one transaction submitted. *)
Theorem handleSubmit_settles {L N} (env : Env L N) signer account (s : St L N)
        r s' :
  handleSubmit env signer account s = (r, s') ->
  exists evs,
    trace s' = (trace s ++ evs)%list
    /\ r = Ok tt
    /\ category (form s') = category (form s)
    /\ ((status (transactionStatus (form s')) = Failure
         /\ formKept (form s) (form s')
         /\ notifications (form s') = notifications (form s))
        \/ (transactionStatus (form s') = mkStatus Idle "" None None
            /\ formKept (form s) (form s')
            /\ exists msg,
                namesPause msg = true
                /\ notifications (form s')
                   = (notifications (form s) ++ [pausePopup msg])%list)
        \/ (status (transactionStatus (form s')) = Success
            /\ formCleared (form s')
            /\ notifications (form s') = notifications (form s)
            /\ transactions evs = 1%nat)).
Proof.
  intros H.
  destruct (handleSubmit_run _ _ _ _ _ _ H) as (evs & Ht & Hr & Hc & Hout & _).
  exists evs. auto.
Qed.

(** The theorem at a listing that succeeds: the form is emptied. *)
Lemma handleSubmit_settles_witness :
  let s' := snd (handleSubmit (scripted calm) connected account0 (listing "desc")) in
  formData (form s') = mkFormData "" "" ""
  /\ exists evs,
      trace s' = (trace (listing "desc") ++ evs)%list
      /\ transactions evs = 1%nat.
Proof.
  cbv zeta. split; [reflexivity|].
  destruct (handleSubmit (scripted calm) connected account0 (listing "desc"))
    as [r s'] eqn:E.
  destruct (handleSubmit_settles _ _ _ _ _ _ E) as (evs & Ht & _ & _ & Hout).
  exists evs. split; [exact Ht|].
  vm_compute in E. injection E as <- <-.
  destruct Hout as [(Hs & _)|[(Hs & _)|(_ & _ & _ & Hn)]];
    [discriminate Hs|discriminate Hs|exact Hn].
Defined.



(** X15. [handleSubmit] stops early without a trace on the chain: when a
    check of the form fails, nothing is uploaded or called and the status
    is the error of that check; when the Pinata token is not configured,
    nothing is uploaded or called either; and in a run in which an upload
    fails, every call is an upload or the drawing of a thumbnail. *)
Theorem handleSubmit_stops_early {L N} (env : Env L N) signer account
        (s : St L N) r s' :
  handleSubmit env signer account s = (r, s') ->
  exists evs,
    trace s' = (trace s ++ evs)%list
    /\ (forall msg,
        submitError account (form s) = Some msg ->
        evs = []
        /\ transactionStatus (form s') = mkStatus Failure msg None None
        /\ ledger s' = ledger s /\ net s' = net s)
    /\ (optTruthy (pinataJwt env) = false ->
        evs = [] /\ ledger s' = ledger s /\ net s' = net s)
    /\ (forall f n e ev,
        In (EvUpload f n (Err e)) evs -> In ev evs -> isUpload ev = true).
Proof.
  intros H.
  destruct (handleSubmit_run _ _ _ _ _ _ H)
    as (evs & Ht & _ & _ & _ & Hform & Hjwt & Hup & _).
  exists evs. auto.
Qed.

(** The theorem at a form without a wallet. *)
Lemma handleSubmit_stops_early_witness :
  transactionStatus
    (form (snd (handleSubmit (scripted calm) connected None (listing "desc"))))
  = mkStatus Failure "Please connect your wallet first" None None.
Proof.
  destruct (handleSubmit (scripted calm) connected None (listing "desc"))
    as [r s'] eqn:E.
  destruct (handleSubmit_stops_early _ _ _ _ _ _ E) as (evs & _ & Hform & _).
  exact (proj1 (proj2 (Hform "Please connect your wallet first" eq_refl))).
Defined.

(** The checks of [createProduct] do not look at the state. *)
Lemma validateCreate_pure {L N} (env : Env L N) signer name description cat
      priceInBdag uri thumbnailUri (s s0 : St L N) :
  fst (validateCreate env signer name description cat priceInBdag uri thumbnailUri s)
  = fst (validateCreate env signer name description cat priceInBdag uri
                        thumbnailUri s0).
Proof.
  unfold validateCreate. hook_unfold. simpl.
  destruct (truthy (trim name)); simpl; [|reflexivity].
  destruct (truthy (trim description)); simpl; [|reflexivity].
  destruct (priceNotPositive priceInBdag); simpl; [reflexivity|].
  destruct (negb (truthy uri) || negb (truthy (trim uri))); simpl; [reflexivity|].
  destruct (negb (truthy thumbnailUri) || negb (truthy (trim thumbnailUri))); simpl;
    [reflexivity|].
  destruct signer; simpl; [|reflexivity].
  destruct (isAddress env CONTRACT_ADDRESS); simpl; [|reflexivity].
  destruct (Ethers.parseEther priceInBdag); simpl; [|reflexivity].
  destruct (100 <? strlen (trim name)); simpl; [reflexivity|].
  destruct (500 <? strlen (trim description)); simpl; [reflexivity|].
  destruct (50 <? strlen (trim cat)); simpl; [reflexivity|].
  destruct (strlen (trim cat) =? 0); simpl; reflexivity.
Qed.

(** A request the checks of [createProduct] refuse ends there: the
    failure carries the message the [catch] of [createProduct] makes of
    the error, and nothing was called. *)
Lemma createProduct_refused {L N} (env : Env L N) signer name description cat
      priceInBdag uri thumbnailUri (s : St L N) e0 s1 :
  validateCreate env signer name description cat priceInBdag uri thumbnailUri s
  = (Err e0, s1) ->
  exists s',
    createProduct env signer name description cat priceInBdag uri thumbnailUri s
    = (Ok (failure
             (if codeIs (e_code e0) "SERVER_ERROR"
                 || codeIs (e_code e0) "NETWORK_ERROR"
                 || optIncludes (e_message e0) "Internal JSON-RPC"
              then NETWORK_MSG
              else if codeIs (e_code e0) "UNPREDICTABLE_GAS_LIMIT"
                      || optIncludes (e_message e0) "gas"
              then GAS_MSG
              else handleContractError e0 "create product")), s')
    /\ untouched s s'.
Proof.
  intros Hval. unfold createProduct, untouched.
  unfold finally, tryCatch, bind at 1 2 3. cbn [setIsLoading setError].
  match goal with
  | |- context [validateCreate ?e ?sg ?a ?b ?c ?d ?u ?t ?s0] =>
      pose proof (validateCreate_state e sg a b c d u t s0) as Hv;
      pose proof (validateCreate_pure e sg a b c d u t s s0) as Hp;
      destruct (validateCreate e sg a b c d u t s0) as [[priceInWei|e1] s2]
  end; rewrite Hval in Hp; cbn [fst snd] in Hv, Hp; subst s2.
  - discriminate Hp.
  - injection Hp as <-. unfold setError, setIsLoading, ret, bind.
    destruct (codeIs (e_code e0) "SERVER_ERROR" || codeIs (e_code e0) "NETWORK_ERROR"
              || optIncludes (e_message e0) "Internal JSON-RPC");
      [|destruct (codeIs (e_code e0) "UNPREDICTABLE_GAS_LIMIT"
                  || optIncludes (e_message e0) "gas")];
      cbv beta iota; eexists; (split; [reflexivity|]); repeat split.
Qed.

(** The check of the length of the description is the one that fails when
    the checks before it pass. *)
Lemma validateCreate_description_long {L N} (env : Env L N) signer name
      description cat priceInBdag uri thumbnailUri (s : St L N) e0 s1 :
  validateCreate env signer name description cat priceInBdag uri thumbnailUri s
  = (Err e0, s1) ->
  truthy (trim description) = true ->
  500 < strlen (trim description) ->
  truthy (trim name) = true ->
  (strlen (trim name) <=? 100) = true ->
  priceNotPositive priceInBdag = false ->
  truthy (trim uri) = true ->
  truthy (trim thumbnailUri) = true ->
  contractAvailable env signer ->
  Ethers.parseEther priceInBdag <> None ->
  e0 = newError "Description too long (max 500 characters)".
Proof.
  intros Hval Hd Hlong H1 H2 H3 H4 H5 [H6 H7] H8. revert Hval.
  unfold validateCreate. hook_unfold. cbv beta.
  rewrite H1, Hd, H3.
  assert (Hu : truthy uri = true) by (destruct uri; [discriminate H4|reflexivity]).
  assert (Ht : truthy thumbnailUri = true)
    by (destruct thumbnailUri; [discriminate H5|reflexivity]).
  rewrite Hu, H4, Ht, H5.
  destruct signer; [|congruence]. rewrite H7.
  destruct (Ethers.parseEther priceInBdag); [|congruence].
  apply Z.leb_le in H2. apply Z.ltb_ge in H2. rewrite H2.
  apply Z.ltb_lt in Hlong. rewrite Hlong.
  cbn. intros E. injection E as <- _. reflexivity.
Qed.

(** X16. The file name counts against the description: [handleSubmit]
    hands to [createProduct] the description followed by two line feeds
    and the name of the file between [[FILENAME:] and []], which is never
    blank, and whose trimmed length is the length of the description
    without its leading white space plus 13 plus the length of the name.
    So when that sum is above 500, [createProduct] refuses the request
    without any call, and with the message of the description when its
    other checks pass, although the description itself may have 500
    characters or fewer. *)
Theorem filename_suffix_counts description fileName :
  truthy (trimStart description) = true ->
  truthy (trim (describedAs description fileName)) = true
  /\ strlen (trim (describedAs description fileName))
     = strlen (trimStart description) + 13 + strlen fileName
  /\ (487 < strlen (trimStart description) + strlen fileName ->
      forall {L N} (env : Env L N) signer name cat priceInBdag uri thumbnailUri
             (s : St L N),
      exists msg s',
        createProduct env signer name (describedAs description fileName) cat
                      priceInBdag uri thumbnailUri s
        = (Ok (failure msg), s')
        /\ untouched s s'
        /\ (truthy (trim name) = true ->
            (strlen (trim name) <=? 100) = true ->
            priceNotPositive priceInBdag = false ->
            truthy (trim uri) = true ->
            truthy (trim thumbnailUri) = true ->
            contractAvailable env signer ->
            Ethers.parseEther priceInBdag <> None ->
            msg = "Description too long (max 500 characters)")).
Proof.
  intros Hd.
  assert (Hlen : strlen (trim (describedAs description fileName))
                 = strlen (trimStart description) + 13 + strlen fileName)
    by (rewrite describedAs_length, Hd; lia).
  assert (Hnb : truthy (trim (describedAs description fileName)) = true).
  { rewrite describedAs_trim, Hd.
    destruct (trimStart description); [discriminate Hd|reflexivity]. }
  split; [exact Hnb|]. split; [exact Hlen|].
  intros Hlong L N env signer name cat priceInBdag uri thumbnailUri s.
  destruct (validateCreate env signer name (describedAs description fileName) cat
                           priceInBdag uri thumbnailUri s)
    as [[priceInWei|e0] s1] eqn:Hval.
  - destruct (validateCreate_ok _ _ _ _ _ _ _ _ _ _ _ Hval) as (Hyes & _).
    unfold stringsAccepted in Hyes.
    assert (H500 : (strlen (trim (describedAs description fileName)) <=? 500) = false)
      by (apply Z.leb_gt; lia).
    rewrite H500, !andb_false_r in Hyes. simpl in Hyes.
    repeat (apply andb_prop in Hyes as [Hyes _]). discriminate Hyes.
  - destruct (createProduct_refused _ _ _ _ _ _ _ _ _ _ _ Hval) as (s' & Hrun & Hu).
    eexists _, s'. split; [exact Hrun|]. split; [exact Hu|].
    intros H1 H2 H3 H4 H5 H6 H7.
    assert (Hl : 500 < strlen (trim (describedAs description fileName))) by lia.
    rewrite (validateCreate_description_long _ _ _ _ _ _ _ _ _ _ _ Hval Hnb Hl
               H1 H2 H3 H4 H5 H6 H7).
    vm_compute. reflexivity.
Qed.

(** The theorem at a description of 490 letters and the file [a.png]: the
    form accepts the description, and [createProduct] refuses it. *)
Lemma filename_suffix_counts_witness :
  let description := String.concat "" (repeat "a" 490) in
  submitError account0 (filledForm description) = None
  /\ exists msg s',
      createProduct (scripted calm) connected "Art"
                    (describedAs description "a.png") "Music" "1"
                    "ipfs://a" "ipfs://b" start
      = (Ok (failure msg), s')
      /\ untouched start s'
      /\ msg = "Description too long (max 500 characters)".
Proof.
  cbv zeta. split; [vm_compute; reflexivity|].
  assert (Hd : truthy (trimStart (String.concat "" (repeat "a" 490))) = true)
    by (vm_compute; reflexivity).
  assert (Hlong : 487 < strlen (trimStart (String.concat "" (repeat "a" 490)))
                        + strlen "a.png")
    by (vm_compute; reflexivity).
  destruct (proj2 (proj2 (filename_suffix_counts
                            (String.concat "" (repeat "a" 490)) "a.png" Hd))
                  Hlong _ _ (scripted calm) connected "Art" "Music" "1" "ipfs://a"
                  "ipfs://b" start)
    as (msg & s' & E & Hu & Hmsg).
  exists msg, s'. split; [exact E|]. split; [exact Hu|].
  apply Hmsg; try (vm_compute; reflexivity).
  - split; [discriminate|reflexivity].
  - intros H. vm_compute in H. discriminate H.
Defined.

(** X17. The checks of the form cover the first checks of the hook: for a
    form that passes the checks of [handleSubmit], the name is not blank
    and its trimmed length is at most 100, the price passes the test of
    [createProduct], and the description [handleSubmit] hands over is not
    blank; so [createProduct], called by [handleSubmit], never answers
    that the name, the description or the price is missing, nor that the
    name is too long. *)
Theorem form_checks_cover_hook_checks account (f : FormState) :
  submitError account f = None ->
  truthy (trim (fd_name (formData f))) = true
  /\ (100 <? strlen (trim (fd_name (formData f)))) = false
  /\ priceNotPositive (fd_price (formData f)) = false
  /\ exists main,
      mainFile (uploadedFiles f) = Some main
      /\ truthy (trim (describedAs (fd_description (formData f)) (file_name main)))
         = true.
Proof.
  unfold submitError, priceNotPositive.
  destruct (negb (optTruthy account)); [discriminate|].
  destruct (truthy (trim (fd_name (formData f)))) eqn:Hn; [|discriminate].
  cbn [negb].
  destruct (100 <? strlen (fd_name (formData f))) eqn:Hl; [discriminate|].
  destruct (500 <? strlen (fd_description (formData f))); [discriminate|].
  destruct (negb (truthy (fd_price (formData f)))
            || numLe (parseFloat (fd_price (formData f))) (ofInt 0)) eqn:Hp;
    [discriminate|].
  destruct (numGt (parseFloat (fd_price (formData f))) num_5000); [discriminate|].
  destruct (mainFile (uploadedFiles f)) as [main|]; [|discriminate].
  intros _. split; [reflexivity|]. split.
  - apply Z.ltb_ge. apply Z.ltb_ge in Hl.
    pose proof (trim_length (fd_name (formData f))). lia.
  - split; [reflexivity|]. exists main. split; [reflexivity|].
    rewrite describedAs_trim.
    destruct (truthy (trimStart (fd_description (formData f)))) eqn:Hd;
      [|reflexivity].
    destruct (trimStart (fd_description (formData f))); [discriminate Hd|reflexivity].
Qed.

(** The theorem at the form of the examples. *)
Lemma form_checks_cover_hook_checks_witness :
  priceNotPositive (fd_price (formData (filledForm "desc"))) = false.
Proof.
  exact (proj1 (proj2 (proj2 (form_checks_cover_hook_checks
                                account0 (filledForm "desc") eq_refl)))).
Defined.

(* ================================================================= *)
(** ** The remaining operations of the hook *)

(** X18. [updateProductMedia] never throws, and checks before it sends:
    it settles like the other operations that submit; when a URI is blank,
    the signer is missing or the id does not parse to a positive integer,
    it returns a failure and nothing is called; and it reports a success
    only after the update of the media was sent for that id with the
    trimmed URIs and a receipt came back, whose hash it reports. *)
Theorem updateProductMedia_guards {L N} (env : Env L N) (more : More L N) signer
        productId uri thumbnailUri (s : St L N) r s' :
  updateProductMedia env more signer productId uri thumbnailUri s = (r, s') ->
  settled r s'
  /\ form s' = form s
  /\ (trim uri = "" \/ trim thumbnailUri = "" \/ signer = None
      \/ invalidId (parseInt productId) = true ->
      exists msg, r = Ok (failure msg)
                  /\ ledger s' = ledger s /\ net s' = net s /\ trace s' = trace s)
  /\ (forall response,
      r = Ok response -> success response = true ->
      exists id tx l1 n1 receipt l2 n2,
        parseInt productId = Some id /\ 0 < id
        /\ send_updateProductMedia more id (trim uri) (trim thumbnailUri)
                                   (ledger s) (net s) = (Ok tx, (l1, n1))
        /\ wait env tx l1 n1 = (Ok (Some receipt), (l2, n2))
        /\ response = succeeded (rc_hash receipt)
        /\ ledger s' = l2
        /\ trace s' = (trace s ++ [EvWait tx (Ok (Some receipt))])%list).
Proof.
  unfold updateProductMedia, receiptField, settled. rest_unfold. simpl.
  destruct (truthy (trim uri)) eqn:Hu; simpl.
  2:{ intros H; injection H as <- <-. simpl.
      split; [settle_run|]. split; [reflexivity|].
      split; [intros _; eexists; repeat split|].
      intros ? Hr Hs. injection Hr as <-. discriminate Hs. }
  destruct (truthy (trim thumbnailUri)) eqn:Ht; simpl.
  2:{ intros H; injection H as <- <-. simpl.
      split; [settle_run|]. split; [reflexivity|].
      split; [intros _; eexists; repeat split|].
      intros ? Hr Hs. injection Hr as <-. discriminate Hs. }
  destruct signer as [sg|]; simpl.
  2:{ intros H; injection H as <- <-. simpl.
      split; [settle_run|]. split; [reflexivity|].
      split; [intros _; eexists; repeat split|].
      intros ? Hr Hs. injection Hr as <-. discriminate Hs. }
  destruct (isAddress env CONTRACT_ADDRESS) eqn:Hc; simpl.
  2:{ intros H; injection H as <- <-. simpl.
      split; [settle_run|]. split; [reflexivity|].
      split; [intros _; eexists; repeat split|].
      intros ? Hr Hs. injection Hr as <-. discriminate Hs. }
  assert (Hnb : forall x, truthy x = true -> x <> "")
    by (intros x Hx ->; discriminate Hx).
  destruct (parseInt productId) as [id|] eqn:Hp; simpl.
  2:{ intros H; injection H as <- <-. simpl.
      split; [settle_run|]. split; [reflexivity|].
      split; [intros _; eexists; repeat split|].
      intros ? Hr Hs. injection Hr as <-. discriminate Hs. }
  destruct (id <=? 0) eqn:Hid; simpl.
  { intros H; injection H as <- <-. simpl.
      split; [settle_run|]. split; [reflexivity|].
      split; [intros _; eexists; repeat split|].
      intros ? Hr Hs. injection Hr as <-. discriminate Hs. }
  apply Z.leb_gt in Hid.
  assert (Hno : trim uri = "" \/ trim thumbnailUri = "" \/ Some sg = None
                \/ false = true -> False).
  { intros [H|[H|[H|H]]]; try discriminate H;
      [apply (Hnb _ Hu H)|apply (Hnb _ Ht H)]. }
  destruct (send_updateProductMedia more id (trim uri) (trim thumbnailUri)
                                    (ledger s) (net s))
    as [[tx|e] [l1 n1]] eqn:Hsend; simpl.
  2:{ intros H; injection H as <- <-. simpl.
      split; [settle_run|]. split; [reflexivity|].
      split; [intros H; destruct (Hno H)|].
      intros ? Hr Hs. injection Hr as <-. discriminate Hs. }
  destruct (wait env tx l1 n1) as [[[receipt|]|e] [l2 n2]] eqn:Hwait; simpl;
    intros H; injection H as <- <-; simpl;
    (split; [settle_run|]); (split; [reflexivity|]);
    (split; [intros H; destruct (Hno H)|]);
    intros ? Hr Hs; injection Hr as <-; try discriminate Hs.
  exists id, tx, l1, n1, receipt, l2, n2. repeat split; assumption.
Qed.

(** The theorem at the id [0]. *)
Lemma updateProductMedia_guards_witness :
  exists msg,
    fst (updateProductMedia (scripted calm) calmMore connected "0" "ipfs://a"
                            "ipfs://b" start)
    = Ok (failure msg)
    /\ ledger (snd (updateProductMedia (scripted calm) calmMore connected "0"
                                       "ipfs://a" "ipfs://b" start))
       = ledger start.
Proof.
  destruct (updateProductMedia (scripted calm) calmMore connected "0" "ipfs://a"
                               "ipfs://b" start) as [r s'] eqn:E.
  destruct (updateProductMedia_guards _ _ _ _ _ _ _ _ _ E) as (_ & _ & Hbad & _).
  destruct Hbad as (msg & -> & Hl & _); [right; right; right; reflexivity|].
  exists msg. split; [reflexivity|exact Hl].
Defined.

(** X19. [verifyContract] reports and [getContractOwner] throws again.
    [verifyContract] never throws: it returns [true] exactly when the
    contract is available and the three calls it awaits together all
    answer, and then leaves the hook's [error] as it was, an old error
    included; otherwise it returns [false] and sets the error.
    [getContractOwner] leaves the hook's [error] alone and hands the
    outcome of [owner()] on as it is, a thrown error included; without a
    signer it throws the error of [getContract()]. *)
Theorem verify_reports_owner_rethrows {L N} (env : Env L N) (more : More L N)
        signer (s : St L N) :
  (exists b s',
      verifyContract env more signer s = (Ok b, s')
      /\ ledger s' = ledger s /\ trace s' = trace s /\ isLoading s' = isLoading s
      /\ (b = true <-> contractAvailable env signer
                       /\ fst (call_verify more (ledger s) (net s)) = Ok tt)
      /\ (b = true -> error s' = error s)
      /\ (b = false -> exists msg, error s' = Some msg))
  /\ (exists r s',
      getContractOwner env more signer s = (r, s')
      /\ ledger s' = ledger s /\ trace s' = trace s
      /\ isLoading s' = isLoading s /\ error s' = error s
      /\ (signer = None ->
          r = Err (newError "No signer available. Please connect your wallet.")
          /\ net s' = net s)
      /\ (contractAvailable env signer ->
          r = fst (call_owner more (ledger s) (net s)))).
Proof.
  unfold verifyContract, getContractOwner, contractAvailable. rest_unfold.
  split.
  - destruct signer as [sg|]; simpl.
    2:{ eexists _, _. repeat split; try discriminate.
        - intros [[H _] _]. congruence.
        - eexists; reflexivity. }
    destruct (isAddress env CONTRACT_ADDRESS) eqn:Hc; simpl.
    2:{ eexists _, _. repeat split; try discriminate.
        - intros [[_ H] _]. discriminate H.
        - eexists; reflexivity. }
    destruct (call_verify more (ledger s) (net s)) as [[[]|e] n1] eqn:Hv; simpl.
    + eexists _, _. repeat split; try discriminate.
    + eexists _, _. repeat split; try discriminate.
      * intros [_ H]. discriminate H.
      * eexists; reflexivity.
  - destruct signer as [sg|]; simpl.
    2:{ eexists _, _. repeat split. intros [H _]. congruence. }
    destruct (isAddress env CONTRACT_ADDRESS) eqn:Hc; simpl.
    2:{ eexists _, _. repeat split; try discriminate. intros [_ H]. discriminate H. }
    destruct (call_owner more (ledger s) (net s)) as [[o|e] n1] eqn:Ho; simpl;
      eexists _, _; repeat split; discriminate.
Qed.

(** ** [getPurchasedProducts] *)

(** X20. The ids that [getPurchasedProducts] goes on to fetch are those
    of the logs whose buyer is the address given, compared without regard
    to case, each id once: when the list is built, it has no duplicate, a
    string is in it exactly when it is the id of a log of that buyer, and
    the same list is built for an address that differs by case only. *)
Theorem purchased_ids_distinct {L N} (more : More L N) buyerAddress events ids :
  purchasedIds more buyerAddress events = Ok ids ->
  NoDup ids
  /\ (forall x, In x ids <->
                exists e z, In e events /\ boughtBy buyerAddress e = true
                            /\ loggedId e = Some z /\ x = bigintToString z)
  /\ (forall other, toLowerCase other = toLowerCase buyerAddress ->
                    purchasedIds more other events = Ok ids).
Proof.
  unfold purchasedIds.
  destruct (idStrings more (filter (boughtBy buyerAddress) events)) as [l|] eqn:Hl;
    [|discriminate].
  intros H. injection H as <-.
  destruct (distinct_spec l) as [Hnd Hin].
  split; [exact Hnd|]. split.
  - intros x. rewrite Hin, (idStrings_spec more _ l Hl x). split.
    + intros (e & z & He & Hz & ->). apply filter_In in He as [He Hb].
      exists e, z. auto.
    + intros (e & z & He & Hb & Hz & ->). exists e, z.
      split; [apply filter_In; auto|auto].
  - intros other Hlow.
    assert (Hf : filter (boughtBy other) events = filter (boughtBy buyerAddress) events).
    { apply filter_ext. intros e. unfold boughtBy. now rewrite Hlow. }
    rewrite Hf, Hl. reflexivity.
Qed.

(** The theorem at three logs, of which two are of the same buyer in
    different case and of the same product. *)
Lemma purchased_ids_distinct_witness :
  let logs := [purchaseLog 1 "0xABCD"; purchaseLog 2 "0xother";
               purchaseLog 1 "0xabcd"] in
  purchasedIds calmMore "0xAbCd" logs = Ok ["1"]
  /\ NoDup ["1"]
  /\ purchasedIds calmMore "0xabcd" logs = Ok ["1"].
Proof.
  cbv zeta. split; [reflexivity|].
  destruct (purchased_ids_distinct
              calmMore "0xAbCd"
              [purchaseLog 1 "0xABCD"; purchaseLog 2 "0xother"; purchaseLog 1 "0xabcd"]
              ["1"] eq_refl) as (Hnd & _ & Hcase).
  split; [exact Hnd|]. apply Hcase. reflexivity.
Defined.

Ltac gave_up :=
  let H := fresh "H" in
  intros H; injection H as <- <-; exists [], []; simpl;
  rewrite ?app_nil_r;
  (split; [reflexivity|]); (split; [reflexivity|]); (split; [reflexivity|]);
  (split; [reflexivity|]); (split; [reflexivity|]);
  (split; [right; split; [reflexivity|eexists; reflexivity]|]);
  (split; [intros ? ? []|]).

(** X21. [getPurchasedProducts] answers all or nothing.  It never throws
    and submits nothing.  Either every step succeeded: the block number
    was read, the logs from 200000 blocks before it (from block 0 at the
    earliest) up to it were queried, and each id of the buyer was fetched
    in turn; the result is then the list of the products fetched and the
    hook's [error] is [null].  Or the result is the empty list and the
    error is set, whatever was fetched before: one fetch that fails empties
    the answer.  And when the logs of that window are empty, the result is
    empty without an error: a purchase in an older block is not listed. *)
Theorem purchased_products_all_or_nothing {L N} (env : Env L N) (more : More L N)
        signer buyerAddress (s : St L N) r s' :
  getPurchasedProducts env more signer buyerAddress s = (r, s') ->
  exists l evs,
    r = Ok l
    /\ trace s' = (trace s ++ evs)%list
    /\ ledger s' = ledger s
    /\ isLoading s' = false
    /\ transactions evs = O
    /\ ((error s' = None
         /\ l = map toProduct (fetched evs)
         /\ exists currentBlock n1 logs n2 ids,
             getBlockNumber more (ledger s) (net s) = (Ok currentBlock, n1)
             /\ queryFilter more (Z.max 0 (currentBlock - 200000)) currentBlock
                            (ledger s) n1 = (Ok logs, n2)
             /\ purchasedIds more buyerAddress logs = Ok ids
             /\ Forall2 fetchOf evs ids)
        \/ (l = [] /\ exists msg, error s' = Some msg))
    /\ (forall id e, In (EvGetProduct id (Err e)) evs -> l = [])
    /\ (forall currentBlock n1 n2,
        isAddress env buyerAddress = true ->
        contractAvailable env signer ->
        providerAvailable signer ->
        getBlockNumber more (ledger s) (net s) = (Ok currentBlock, n1) ->
        queryFilter more (Z.max 0 (currentBlock - 200000)) currentBlock
                    (ledger s) n1 = (Ok [], n2) ->
        l = [] /\ evs = [] /\ error s' = None).
Proof.
  unfold getPurchasedProducts, contractAvailable, providerAvailable.
  rest_unfold. simpl.
  destruct (isAddress env buyerAddress) eqn:Ha; simpl.
  2:{ gave_up. intros ? ? ? Hx. discriminate Hx. }
  destruct signer as [sg|]; simpl.
  2:{ gave_up. intros ? ? ? _ [Hx _]. congruence. }
  destruct (isAddress env CONTRACT_ADDRESS) eqn:Hc; simpl.
  2:{ gave_up. intros ? ? ? _ [_ Hx]. discriminate Hx. }
  destruct (hasProvider sg) eqn:Hprov; simpl.
  2:{ gave_up. intros ? ? ? _ _ (sg' & Hsg & Hp). injection Hsg as <-. congruence. }
  destruct (getBlockNumber more (ledger s) (net s)) as [[b|e] n1] eqn:Hb; simpl.
  2:{ gave_up. intros ? ? ? _ _ _ Hx. discriminate Hx. }
  destruct (queryFilter more (Z.max 0 (b - 200000)) b (ledger s) n1)
    as [[logs|e] n2] eqn:Hq; simpl.
  2:{ gave_up. intros ? ? ? _ _ _ Hx Hy. injection Hx as <- <-.
      rewrite Hq in Hy. discriminate Hy. }
  destruct (purchasedIds more buyerAddress logs) as [ids|e] eqn:Hids; simpl.
  2:{ gave_up. intros ? ? ? _ _ _ Hx Hy. injection Hx as <- <-.
      rewrite Hq in Hy. injection Hy as -> <-. discriminate Hids. }
  match goal with
  | |- context [fetchProducts ?e ?m ?i ?a ?s0] =>
      destruct (fetchProducts e m i a s0) as [r1 s1] eqn:Hf
  end.
  destruct (fetchProducts_run _ _ _ _ _ _ _ Hf)
    as (evs & Ht & Hl & Hi & He & Hfm & Htx & Hr). simpl in Ht, Hl, Hi, He, Hfm.
  destruct Hr as [[-> Hall]|(e & ->)]; simpl;
    intros H; injection H as <- <-; simpl.
  - exists (map toProduct (fetched evs)), evs.
    split; [reflexivity|]. split; [exact Ht|]. split; [exact Hl|].
    split; [reflexivity|]. split; [exact Htx|].
    split; [left; split; [exact He|]; split; [reflexivity|];
            exists b, n1, logs, n2, ids; auto|].
    split.
    + intros id e Hin. exfalso. clear - Hall Hin.
      induction Hall as [|ev idStr evs ids Hf _ IH]; [destruct Hin|].
      destruct Hin as [->|Hin]; [|exact (IH Hin)].
      destruct Hf as (? & ? & Hf & _). discriminate Hf.
    + intros ? ? ? _ _ _ Hx Hy. injection Hx as <- <-.
      rewrite Hq in Hy. injection Hy as -> <-.
      vm_compute in Hids. injection Hids as <-.
      inversion Hall. subst. repeat split. exact He.
  - exists [], evs.
    split; [reflexivity|]. split; [exact Ht|]. split; [exact Hl|].
    split; [reflexivity|]. split; [exact Htx|].
    split; [right; split; [reflexivity|eexists; reflexivity]|].
    split; [reflexivity|].
    intros ? ? ? _ _ _ Hx Hy. injection Hx as <- <-.
    rewrite Hq in Hy. injection Hy as -> <-.
    vm_compute in Hids. injection Hids as <-.
    simpl in Hf. discriminate Hf.
Qed.

(** The theorem in the world of the examples: the buyer has two logs of
    product 1, which is fetched once. *)
Lemma purchased_products_all_or_nothing_witness :
  fst (getPurchasedProducts (scripted calm) calmMore connected "0xabcd" start)
  = Ok [toProduct demoProduct]
  /\ exists l evs,
      fst (getPurchasedProducts (scripted calm) calmMore connected "0xabcd" start)
      = Ok l
      /\ l = map toProduct (fetched evs)
      /\ transactions evs = O.
Proof.
  split; [vm_compute; reflexivity|].
  destruct (getPurchasedProducts (scripted calm) calmMore connected "0xabcd" start)
    as [r s'] eqn:E.
  destruct (purchased_products_all_or_nothing _ _ _ _ _ _ _ E)
    as (l & evs & -> & _ & _ & _ & Htx & Hout & _).
  exists l, evs. split; [reflexivity|]. split; [|exact Htx].
  vm_compute in E. injection E as <- <-.
  destruct Hout as [(_ & Hl & _)|(Hl & _)]; [exact Hl|discriminate Hl].
Defined.

(* ================================================================= *)
(** ** The price of BDAG *)

(** X22. [getBDAGPrice] returns a cached price that is less than five
    minutes old, a price it has just fetched, or the fixed price, and
    nothing else: an entry of the cache is served, without a fetch, only
    while the clock is less than [CACHE_DURATION] past its time stamp;
    otherwise the service is asked, and either its answer is a number,
    which is returned and cached with the time at which the call began, or
    the fixed price is returned and the cache is left as it was, so the
    fixed price is never cached and an old entry is never served.  And a
    call that follows within five minutes of the time stamp of the entry
    left in the cache returns the same price without a fetch. *)
Theorem price_fresh_fetched_or_fixed {W} (web : Web W) cache (w : W) p cache' w' :
  getBDAGPrice web cache w = (p, cache', w') ->
  ((exists c, cache = Some c
              /\ dateNow web w - ce_timestamp c < CACHE_DURATION
              /\ p = ce_price c /\ cache' = cache /\ w' = w)
   \/ ((forall c, cache = Some c ->
                  CACHE_DURATION <= dateNow web w - ce_timestamp c)
       /\ ((cache' = Some (mkCacheEntry p (dateNow web w))
            /\ exists response w1 data,
                fetchPrice web w = (Ok response, w1)
                /\ resp_ok response = true
                /\ resp_json response w1 = (Ok data, w')
                /\ usdOf data = Some p)
           \/ (p = FIXED_BDAG_PRICE /\ cache' = cache))))
  /\ (forall t, cache' = Some (mkCacheEntry p t) ->
                dateNow web w' - t < CACHE_DURATION ->
                getBDAGPrice web cache' w' = (p, cache', w')).
Proof.
  intros H. split.
  - unfold getBDAGPrice in H.
    assert (Hfetch :
      forall q c1 w1,
        match fetchPrice web w with
        | (Ok response, w1) =>
            if negb (resp_ok response) then (FIXED_BDAG_PRICE, cache, w1)
            else
              match resp_json response w1 with
              | (Ok data, w2) =>
                  match usdOf data with
                  | Some price => (price, Some (mkCacheEntry price (dateNow web w)), w2)
                  | None => (FIXED_BDAG_PRICE, cache, w2)
                  end
              | (Err _, w2) => (FIXED_BDAG_PRICE, cache, w2)
              end
        | (Err _, w1) => (FIXED_BDAG_PRICE, cache, w1)
        end = (q, c1, w1) ->
        (c1 = Some (mkCacheEntry q (dateNow web w))
         /\ exists response w0 data,
             fetchPrice web w = (Ok response, w0)
             /\ resp_ok response = true
             /\ resp_json response w0 = (Ok data, w1)
             /\ usdOf data = Some q)
        \/ (q = FIXED_BDAG_PRICE /\ c1 = cache)).
    { intros q c1 w1 Hq.
      destruct (fetchPrice web w) as [[response|e] w0] eqn:Hf.
      - destruct (resp_ok response) eqn:Hok; simpl in Hq.
        + destruct (resp_json response w0) as [[data|e] w2] eqn:Hj.
          * destruct (usdOf data) as [price|] eqn:Hu.
            -- injection Hq as <- <- <-. left. split; [reflexivity|].
               exists response, w0, data. auto.
            -- injection Hq as <- <- <-. right. auto.
          * injection Hq as <- <- <-. right. auto.
        + injection Hq as <- <- <-. right. auto.
      - injection Hq as <- <- <-. right. auto. }
    destruct cache as [c|].
    + destruct (dateNow web w - ce_timestamp c <? CACHE_DURATION) eqn:Hfresh.
      * injection H as <- <- <-. apply Z.ltb_lt in Hfresh.
        left. exists c. auto.
      * apply Z.ltb_ge in Hfresh. right. split.
        -- intros c0 Hc. injection Hc as <-. exact Hfresh.
        -- apply Hfetch. exact H.
    + right. split; [intros c Hc; discriminate Hc|]. apply Hfetch. exact H.
  - intros t -> Hfresh. unfold getBDAGPrice. simpl.
    apply Z.ltb_lt in Hfresh. rewrite Hfresh. reflexivity.
Qed.

(** The theorem at a first call at time 1000, which fetches, and a second
    one, which does not. *)
Lemma price_fresh_fetched_or_fixed_witness :
  let p := ofDecimal false 7 (-2) in
  let entry := Some (mkCacheEntry p 1000) in
  getBDAGPrice quoting None 1000 = (p, entry, 1100)
  /\ getBDAGPrice quoting entry 1100 = (p, entry, 1100).
Proof.
  cbv zeta. split; [vm_compute; reflexivity|].
  apply (proj2 (price_fresh_fetched_or_fixed
                  quoting None 1000 (ofDecimal false 7 (-2))
                  (Some (mkCacheEntry (ofDecimal false 7 (-2)) 1000)) 1100
                  ltac:(vm_compute; reflexivity))
               1000 eq_refl).
  vm_compute. reflexivity.
Defined.

(** X23. The dollar amounts of invalid inputs: with a price in use that is
    finite, [weiToUSD] of a wei amount that [weiToBdag] rejects (empty, not
    a number, or refused by [formatEther]) is [0.00]; and [bdagToUSD] of
    an amount that [parseFloat] does not read is the text [NaN], whatever
    the price. *)
Theorem usd_of_invalid_amounts {W} (web : Web W) cache (w : W) p cache' w' :
  getBDAGPrice web cache w = (p, cache', w') ->
  (forall wei,
      wei = "" \/ isNaN (parseFloat wei) = true \/ Ethers.formatEther wei = None ->
      finiteNumber p ->
      weiToUSD web wei cache w = ("0.00", cache', w'))
  /\ (forall amount,
      isNaN (parseFloat amount) = true ->
      bdagToUSD web amount cache w = ("NaN", cache', w')).
Proof.
  intros Hp. split.
  - intros wei Hw Hfin. unfold weiToUSD. rewrite (weiToBdag_invalid wei Hw), Hp.
    destruct p as [[]|[]| |[] m e]; try contradiction; reflexivity.
  - intros amount Hn. unfold bdagToUSD. rewrite Hp.
    destruct (parseFloat amount); try discriminate Hn. reflexivity.
Qed.

(** The theorem at the wei amount [abc] and the fixed price. *)
Lemma usd_of_invalid_amounts_witness :
  let failing := mkWeb Z (fun w => w) (fun w => (Err (newError "Failed to fetch"), w)) in
  weiToUSD failing "abc" None 0 = ("0.00", None, 0)
  /\ bdagToUSD failing "abc" None 0 = ("NaN", None, 0).
Proof.
  cbv zeta.
  destruct (usd_of_invalid_amounts
              (mkWeb Z (fun w => w) (fun w => (Err (newError "Failed to fetch"), w)))
              None 0 FIXED_BDAG_PRICE None 0 eq_refl) as [Hwei Hbdag].
  split.
  - apply Hwei; [right; left; reflexivity|exact I].
  - apply Hbdag. reflexivity.
Defined.

(* ================================================================= *)
(** ** The books of the queries *)




(* ================================================================= *)
(** ** A price that is not a decimal string *)

(** X25. A price that is not written as digits with an optional point,
    with an exponent for instance, is never converted: the preview of the
    listing page throws on it when it is not empty, and [createProduct]
    and [updateProduct] answer it with a failure without any call,
    although the checks of the form may accept it. *)
Theorem price_not_decimal price :
  isNumeric price = false ->
  (truthy price = true ->
   priceInWei price = Err (newError "Failed to convert BDAG to Wei"))
  /\ (forall {L N} (env : Env L N) signer (s : St L N),
      (forall name description cat uri thumbnailUri,
          exists msg s',
            createProduct env signer name description cat price uri thumbnailUri s
            = (Ok (failure msg), s')
            /\ untouched s s')
      /\ (forall productId name description cat,
          exists msg s',
            updateProduct env signer productId name description cat price s
            = (Ok (failure msg), s')
            /\ untouched s s')).
Proof.
  intros Hn. pose proof (parseEther_not_numeric price Hn) as Hp. split.
  - intros Ht. unfold priceInWei, bdagToWei. rewrite Ht, Hp. simpl.
    destruct (isNaN (parseFloat price)); reflexivity.
  - intros L N env signer s. split.
    + intros name description cat uri thumbnailUri.
      destruct (validateCreate env signer name description cat price uri
                               thumbnailUri s) as [[v|e0] s1] eqn:Hval.
      * destruct (validateCreate_ok _ _ _ _ _ _ _ _ _ _ _ Hval) as (_ & _ & _ & Hv).
        congruence.
      * destruct (createProduct_refused _ _ _ _ _ _ _ _ _ _ _ Hval) as (s' & Hrun & Hu).
        eexists _, s'. split; [exact Hrun|exact Hu].
    + intros productId name description cat.
      unfold updateProduct, untouched. hook_unfold. rewrite Hp. simpl.
      destruct (truthy (trim name)); simpl; [|eexists _, _; repeat split].
      destruct (truthy (trim description)); simpl; [|eexists _, _; repeat split].
      destruct (priceNotPositive price); simpl; [eexists _, _; repeat split|].
      destruct signer; simpl; [|eexists _, _; repeat split].
      destruct (isAddress env CONTRACT_ADDRESS); simpl; eexists _, _; repeat split.
Qed.

(** The theorem at the price [1e3], which the checks of the form accept. *)
Lemma price_not_decimal_witness :
  submitError account0
              (mkFormState (mkFormData "Art" "desc" "1e3") "Music"
                           (mkUploadedFiles (Some (mkFile "a.png" 10)) None)
                           (mkStatus Idle "" None None) [])
  = None
  /\ priceInWei "1e3" = Err (newError "Failed to convert BDAG to Wei").
Proof.
  split; [vm_compute; reflexivity|].
  apply (proj1 (price_not_decimal "1e3" ltac:(vm_compute; reflexivity))).
  reflexivity.
Defined.
